(** * Instance-type modelling core of the AWS cloud provider

    A shallow embedding of [pkg/cloudprovider/aws/instancetype.go] and of the
    label and architecture vocabulary of the [v1alpha1] package, followed by
    the properties that the design document states about them.

    Conventions of the embedding.
    - Go integers are [Z]; [int64] and [int32] arithmetic is written with its
      wrap-around ([wrap64], [wrap32]).
    - [float64] is IEEE 754 binary64, through the Standard Library's
      [SpecFloat] (precision 53, maximal exponent 1024, round to nearest
      even).  Go may fuse [x*y + z] on some targets; the model rounds every
      operation on its own, as the amd64 compiler does.
    - Go strings are byte strings: [string].
    - [v1.ResourceList] is [gmap string Quantity]; [scheduling.Requirements]
      is [gmap string (gset string)].
    - A pointer field of the SDK metadata is an [option] exactly when the
      code tests it against [nil]; the other fields are read through
      [aws.StringValue], [aws.Int64Value] or a plain dereference and are
      values.  Dereferencing an absent optional field panics: the functions
      that may do so return an [option]. *)

From Stdlib Require Import ZArith QArith Qround Lia Ascii String.
From Stdlib Require Import Floats.SpecFloat.
From stdpp Require Import gmap strings list fin_maps pretty.

Local Open Scope Z_scope.

(** ** Machine integers *)

Definition wrap (bits : Z) (z : Z) : Z :=
  (z + 2 ^ (bits - 1)) mod 2 ^ bits - 2 ^ (bits - 1).

Definition wrap64 : Z -> Z := wrap 64.
Definition wrap32 : Z -> Z := wrap 32.

Definition in_int (bits : Z) (z : Z) : Prop :=
  - 2 ^ (bits - 1) <= z < 2 ^ (bits - 1).

Definition in_intb (bits : Z) (z : Z) : bool :=
  (- 2 ^ (bits - 1) <=? z) && (z <? 2 ^ (bits - 1)).

(** ** binary64 *)

Definition F64 : Type := spec_float.

Definition f64_add : F64 -> F64 -> F64 := SFadd 53 1024.
Definition f64_mul : F64 -> F64 -> F64 := SFmul 53 1024.
Definition f64_div : F64 -> F64 -> F64 := SFdiv 53 1024.
Definition f64_ltb : F64 -> F64 -> bool := SFltb.
Definition f64_eqb : F64 -> F64 -> bool := SFeqb.

(** [float64(n)] for an integer [n]: the nearest binary64. *)
Definition f64_of_int (n : Z) : F64 := binary_normalize 53 1024 n 0 false.

(** A decimal literal [p/q] with [p] and [q] below [2^53]: one correctly
    rounded division yields the binary64 nearest to the literal, which is
    what the Go compiler stores. *)
Definition f64_lit (p q : Z) : F64 := f64_div (f64_of_int p) (f64_of_int q).

Definition f64_zero : F64 := S754_zero false.

(** The integer part of a float, truncated toward zero; infinities and NaN
    have none. *)
Definition f64_trunc (x : F64) : option Z :=
  match x with
  | S754_zero _ => Some 0
  | S754_finite s m e =>
      Some (cond_Zopp s
              (match e with
               | Zneg p => Z.pos m / 2 ^ Z.pos p
               | _ => Z.pos m * 2 ^ e
               end))
  | _ => None
  end.

(** [int64(x)] and [int32(x)]: truncation toward zero.  When the target type
    cannot represent the value Go leaves the result to the implementation:
    [unrepresentable bits x] stands for what the target yields. *)
Definition f64_to_int (unrepresentable : Z -> F64 -> Z) (bits : Z) (x : F64) : Z :=
  match f64_trunc x with
  | Some z => if in_intb bits z then z else unrepresentable bits x
  | None => unrepresentable bits x
  end.

(** The exact value of a finite float, and of a float that is not finite 0. *)
Definition F2Q (x : F64) : Q :=
  match x with
  | S754_finite s m e =>
      (match e with
       | Zneg p => cond_Zopp s (Z.pos m) # 2 ^ p
       | _ => inject_Z (cond_Zopp s (Z.pos m) * 2 ^ e)
       end)%Q
  | _ => 0%Q
  end.

Definition is_finite (x : F64) : bool :=
  match x with
  | S754_zero _ | S754_finite _ _ _ => true
  | _ => false
  end.

(** ** Go's [strings] and [fmt], as far as the file uses them *)

Module Strings.

(** [strings.Split(s, sep)] for a separator of one byte: the pieces
    between consecutive separators, [n + 1] pieces for [n] separators. *)
Fixpoint Split (s : string) (sep : ascii) : list string :=
  match s with
  | EmptyString => [EmptyString]
  | String c rest =>
      if Ascii.eqb c sep then EmptyString :: Split rest sep
      else match Split rest sep with
           | [] => [String c EmptyString]
           | piece :: pieces => String c piece :: pieces
           end
  end.

(** [strings.ReplaceAll(s, old, new)] for [old] and [new] of one byte. *)
Fixpoint ReplaceAll (s : string) (old new : ascii) : string :=
  match s with
  | EmptyString => EmptyString
  | String c rest =>
      String (if Ascii.eqb c old then new else c) (ReplaceAll rest old new)
  end.

Definition isASCII_byte (c : ascii) : bool := (N_of_ascii c <? 128)%N.

Fixpoint isASCII (s : string) : bool :=
  match s with
  | EmptyString => true
  | String c rest => isASCII_byte c && isASCII rest
  end.

Definition lower_byte (c : ascii) : ascii :=
  let n := N_of_ascii c in
  if ((65 <=? n) && (n <=? 90))%N then ascii_of_N (n + 32) else c.

Fixpoint lower_bytes (s : string) : string :=
  match s with
  | EmptyString => EmptyString
  | String c rest => String (lower_byte c) (lower_bytes rest)
  end.

(** [strings.ToLower]: byte-wise on a string of ASCII bytes; otherwise the
    rune-wise mapping through the Unicode tables, [unicode], which are
    not part of this development. *)
Definition ToLower (unicode : string -> string) (s : string) : string :=
  if isASCII s then lower_bytes s else unicode s.

(** [strings.Join(l, sep)]. *)
Fixpoint Join (l : list string) (sep : string) : string :=
  match l with
  | [] => EmptyString
  | [x] => x
  | x :: rest => x +:+ sep +:+ Join rest sep
  end.

End Strings.

Module Fmt.

(** [fmt.Sprint(n)] of an integer: its decimal numeral. *)
Definition Sprint_int (n : Z) : string := pretty n.

(** [fmt.Sprint(l)] of a [[]string]: the elements separated by one space,
    between square brackets. *)
Definition Sprint_strings (l : list string) : string :=
  "[" +:+ Strings.Join l " " +:+ "]".

End Fmt.

(** ** [resource.Quantity]

    Every quantity of this file is a whole number of milli-units, and a
    quantity is modelled by that number.  The printing format is not part of
    the model. *)

Record Quantity : Type := mkQuantity { milli : Z }.

Global Instance Quantity_eq_dec : EqDecision Quantity.
Proof. solve_decision. Defined.

Module Resource.

(** [resource.NewMilliQuantity(m, resource.DecimalSI)]. *)
Definition NewMilliQuantity (m : Z) : Quantity := mkQuantity m.

(** [resources.Quantity(fmt.Sprint(n))]: the integer [n]. *)
Definition OfInt (n : Z) : Quantity := mkQuantity (1000 * n).

(** [resource.MustParse(fmt.Sprintf("%dMi", n))]: [n] times [2^20]. *)
Definition OfMi (n : Z) : Quantity := mkQuantity (1000 * (n * 2 ^ 20)).

(** [q.MilliValue()]: an [int64].  The library documents that the
    milli-value may overflow; [overflow] stands for what it yields then. *)
Definition MilliValue (overflow : Z -> Z) (q : Quantity) : Z :=
  if in_intb 64 (milli q) then milli q else overflow (milli q).

(** [q.Add(y)]. *)
Definition Add (q y : Quantity) : Quantity := mkQuantity (milli q + milli y).

End Resource.

(** ** Vocabulary: [k8s.io/api/core/v1], [v1alpha5] and [v1alpha1] *)

Module V1.
Definition LabelInstanceTypeStable : string := "node.kubernetes.io/instance-type".
Definition LabelArchStable : string := "kubernetes.io/arch".
Definition LabelOSStable : string := "kubernetes.io/os".
Definition LabelTopologyZone : string := "topology.kubernetes.io/zone".
Definition ResourceCPU : string := "cpu".
Definition ResourceMemory : string := "memory".
Definition ResourceEphemeralStorage : string := "ephemeral-storage".
Definition ResourcePods : string := "pods".
End V1.

Module V1alpha5.
Definition LabelCapacityType : string := "karpenter.sh/capacity-type".
Definition OperatingSystemLinux : string := "linux".
Definition ArchitectureAmd64 : string := "amd64".
Definition ArchitectureArm64 : string := "arm64".
End V1alpha5.

Module V1alpha1.
Definition LabelDomain : string := "karpenter.k8s.aws".

Definition AWSToKubeArchitectures : gmap string string :=
  <[ "x86_64" := V1alpha5.ArchitectureAmd64 ]>
    (<[ V1alpha5.ArchitectureArm64 := V1alpha5.ArchitectureArm64 ]> ∅).

Definition ResourceNVIDIAGPU : string := "nvidia.com/gpu".
Definition ResourceAMDGPU : string := "amd.com/gpu".
Definition ResourceAWSNeuron : string := "aws.amazon.com/neuron".
Definition ResourceAWSPodENI : string := "vpc.amazonaws.com/pod-eni".
Definition ResourceSmarterDevicesFuse : string := "smarter-devices/fuse".

Definition InstanceFamilyLabelKey : string := LabelDomain +:+ "/instance.family".
Definition InstanceSizeLabelKey : string := LabelDomain +:+ "/instance.size".
Definition InstanceCPULabelKey : string := LabelDomain +:+ "/instance.cpu".
Definition InstanceMemoryLabelKey : string := LabelDomain +:+ "/instance.memory".
Definition InstanceGPUNameLabelKey : string := LabelDomain +:+ "/instance.gpu.name".
Definition InstanceGPUManufacturerLabelKey : string :=
  LabelDomain +:+ "/instance.gpu.manufacturer".
Definition InstanceGPUCountLabelKey : string := LabelDomain +:+ "/instance.gpu.count".
Definition InstanceGPUMemoryLabelKey : string := LabelDomain +:+ "/instance.gpu.memory".

Definition RestrictedLabelDomains : list string := [LabelDomain].

Definition AMIFamilyBottlerocket : string := "Bottlerocket".
Definition AMIFamilyAL2 : string := "AL2".
Definition AMIFamilyUbuntu : string := "Ubuntu".

Definition SupportedAMIFamilies : list string :=
  [AMIFamilyBottlerocket; AMIFamilyAL2; AMIFamilyUbuntu].

Definition SupportedContainerRuntimesByAMIFamily : gmap string (gset string) :=
  <[ AMIFamilyBottlerocket := list_to_set ["containerd"%string] ]>
  (<[ AMIFamilyAL2 := list_to_set ["dockerd"%string; "containerd"%string] ]>
  (<[ AMIFamilyUbuntu := list_to_set ["dockerd"%string; "containerd"%string] ]> ∅)).
End V1alpha1.

(** ** Data model *)

(** [ec2.GpuDeviceInfo]. *)
Record GpuDeviceInfo : Type := mkGpu {
  gpu_Name : string;
  gpu_Manufacturer : string;
  gpu_Count : option Z;
  gpu_MemoryInfo_SizeInMiB : Z
}.

(** [ec2.InferenceDeviceInfo]. *)
Record InferenceDeviceInfo : Type := mkAccelerator {
  acc_Count : option Z
}.

(** [ec2.InstanceTypeInfo], the fields that the file reads. *)
Record InstanceTypeInfo : Type := mkInfo {
  InstanceType_ : string;
  VCpuInfo_DefaultVCpus : Z;
  MemoryInfo_SizeInMiB : Z;
  GpuInfo_Gpus : option (list GpuDeviceInfo);
  InferenceAcceleratorInfo_Accelerators : option (list InferenceDeviceInfo);
  InstanceStorageInfo_TotalSizeInGB : option Z;
  NetworkInfo_MaximumNetworkInterfaces : Z;
  NetworkInfo_Ipv4AddressesPerInterface : Z;
  ProcessorInfo_SupportedArchitectures : list string
}.

(** [cloudprovider.Offering]. *)
Record Offering : Type := mkOffering {
  CapacityType : string;
  Zone : string
}.

(** [v1alpha1.BlockDeviceMapping], with the volume size of its [EBS]. *)
Record BlockDeviceMapping : Type := mkBlockDevice {
  DeviceName : string;
  EBS_VolumeSize : Quantity
}.

(** [v1alpha1.AWS], the provisioning configuration. *)
Record AWS : Type := mkAWS {
  AMIFamily : option string;
  BlockDeviceMappings : list BlockDeviceMapping
}.

(** [InstanceType], without the three derived fields, which none of the
    [compute] functions reads. *)
Record InstanceType : Type := mkInstanceType {
  info : InstanceTypeInfo;
  offerings : list Offering;
  provider : AWS;
  maxPods : option Z
}.

(** ** Collaborators outside the file *)

(** The [amifamily.AMIFamily] interface, the two methods that are called. *)
Record AMIFamilyImpl : Type := mkAMIFamily {
  EphemeralBlockDevice : string;
  EphemeralBlockDeviceOverhead : Quantity
}.

(** An entry of [vpc.Limits]. *)
Record VPCLimits : Type := mkVPCLimits {
  IsTrunkingCompatible : bool;
  BranchInterface : Z
}.

Record Collaborators : Type := mkCollaborators {
  (** [amifamily.GetAMIFamily(family, &amifamily.Options{})] *)
  GetAMIFamily : option string -> AMIFamilyImpl;
  (** [amifamily.DefaultEBS.VolumeSize] *)
  DefaultEBS_VolumeSize : Quantity;
  (** [vpc.Limits] *)
  vpc_Limits : gmap string VPCLimits;
  (** how [Requirements.Add] combines an incoming value set with the set
      already stored under the same key *)
  Requirements_combine : gset string -> gset string -> gset string;
  (** the Unicode branch of [strings.ToLower] *)
  unicode_ToLower : string -> string;
  (** the target's result of [int32(x)] and [int64(x)] for a float that
      the integer type cannot represent *)
  convert_unrepresentable : Z -> F64 -> Z;
  (** the result of [Quantity.MilliValue] on overflow *)
  MilliValue_overflow : Z -> Z
}.

(** [requirements.Add(incoming)]. *)
Definition Requirements_Add (ext : Collaborators)
    (requirements incoming : gmap string (gset string)) : gmap string (gset string) :=
  union_with (fun values existing => Some (Requirements_combine ext values existing))
    incoming requirements.

(** [sets.NewSet(values...)]. *)
Definition NewSet (values : list string) : gset string := list_to_set values.

(** ** The instance type *)

Definition EC2VMAvailableMemoryFactor : F64 := Eval vm_compute in f64_lit 925 1000.

Definition Name (i : InstanceType) : string := InstanceType_ (info i).

Definition lowerKabobCase (ext : Collaborators) (s : string) : string :=
  Strings.ToLower (unicode_ToLower ext) (Strings.ReplaceAll s " " "-").

Fixpoint architecture_loop (archs : list string) : option string :=
  match archs with
  | [] => None
  | a :: rest =>
      match V1alpha1.AWSToKubeArchitectures !! a with
      | Some value => Some value
      | None => architecture_loop rest
      end
  end.

Definition architecture (i : InstanceType) : string :=
  match architecture_loop (ProcessorInfo_SupportedArchitectures (info i)) with
  | Some value => value
  | None => Fmt.Sprint_strings (ProcessorInfo_SupportedArchitectures (info i))
  end.

(** [computeRequirements], in the three steps of the source: the map
    literal, the instance type labels, the GPU labels. *)
Definition computeRequirements_literal (i : InstanceType) : gmap string (gset string) :=
  <[ V1.LabelInstanceTypeStable := NewSet [Name i] ]>
  (<[ V1.LabelArchStable := NewSet [architecture i] ]>
  (<[ V1.LabelOSStable := NewSet [V1alpha5.OperatingSystemLinux] ]>
  (<[ V1.LabelTopologyZone := NewSet (map Zone (offerings i)) ]>
  (<[ V1alpha5.LabelCapacityType := NewSet (map CapacityType (offerings i)) ]>
  (<[ V1alpha1.InstanceCPULabelKey :=
        NewSet [Fmt.Sprint_int (VCpuInfo_DefaultVCpus (info i))] ]>
  (<[ V1alpha1.InstanceMemoryLabelKey :=
        NewSet [Fmt.Sprint_int (MemoryInfo_SizeInMiB (info i))] ]> ∅)))))).

Definition computeRequirements_instanceTypeLabels (ext : Collaborators) (i : InstanceType)
    (requirements : gmap string (gset string)) : gmap string (gset string) :=
  let instanceTypeParts := Strings.Split (InstanceType_ (info i)) "." in
  match instanceTypeParts with
  | [family; size] =>
      Requirements_Add ext requirements
        (<[ V1alpha1.InstanceFamilyLabelKey := NewSet [family] ]>
        (<[ V1alpha1.InstanceSizeLabelKey := NewSet [size] ]> ∅))
  | _ => requirements
  end.

Definition computeRequirements_gpuLabels (ext : Collaborators) (i : InstanceType)
    (requirements : gmap string (gset string)) : gmap string (gset string) :=
  match GpuInfo_Gpus (info i) with
  | Some [gpu] =>
      Requirements_Add ext requirements
        (<[ V1alpha1.InstanceGPUNameLabelKey :=
              NewSet [lowerKabobCase ext (gpu_Name gpu)] ]>
        (<[ V1alpha1.InstanceGPUManufacturerLabelKey :=
              NewSet [lowerKabobCase ext (gpu_Manufacturer gpu)] ]>
        (<[ V1alpha1.InstanceGPUCountLabelKey :=
              NewSet [Fmt.Sprint_int (default 0 (gpu_Count gpu))] ]>
        (<[ V1alpha1.InstanceGPUMemoryLabelKey :=
              NewSet [Fmt.Sprint_int (gpu_MemoryInfo_SizeInMiB gpu)] ]> ∅))))
  | _ => requirements
  end.

Definition computeRequirements (ext : Collaborators) (i : InstanceType)
    : gmap string (gset string) :=
  computeRequirements_gpuLabels ext i
    (computeRequirements_instanceTypeLabels ext i (computeRequirements_literal i)).

Definition cpu (i : InstanceType) : Quantity :=
  Resource.OfInt (VCpuInfo_DefaultVCpus (info i)).

Definition memory (ext : Collaborators) (i : InstanceType) : Quantity :=
  Resource.OfMi
    (f64_to_int (convert_unrepresentable ext) 32
       (f64_mul (f64_of_int (MemoryInfo_SizeInMiB (info i))) EC2VMAvailableMemoryFactor)).

Fixpoint ephemeralStorage_loop (ephemeralBlockDevice : string)
    (mappings : list BlockDeviceMapping) : option Quantity :=
  match mappings with
  | [] => None
  | blockDevice :: rest =>
      if String.eqb (DeviceName blockDevice) ephemeralBlockDevice
      then Some (EBS_VolumeSize blockDevice)
      else ephemeralStorage_loop ephemeralBlockDevice rest
  end.

Definition ephemeralStorage (ext : Collaborators) (i : InstanceType) : Quantity :=
  let ephemeralBlockDevice :=
    EphemeralBlockDevice (GetAMIFamily ext (AMIFamily (provider i))) in
  match ephemeralStorage_loop ephemeralBlockDevice (BlockDeviceMappings (provider i)) with
  | Some size => size
  | None => DefaultEBS_VolumeSize ext
  end.

Definition eniLimitedPods (i : InstanceType) : Z :=
  wrap64
    (wrap64 (NetworkInfo_MaximumNetworkInterfaces (info i)
             * wrap64 (NetworkInfo_Ipv4AddressesPerInterface (info i) - 1))
     + 2).

Definition pods (i : InstanceType) : Quantity :=
  match maxPods i with
  | Some n => Resource.OfInt n
  | None => Resource.OfInt (eniLimitedPods i)
  end.

Definition awsPodENI (ext : Collaborators) (i : InstanceType) (enablePodENI : bool)
    : Quantity :=
  match vpc_Limits ext !! InstanceType_ (info i) with
  | Some limits =>
      if enablePodENI && IsTrunkingCompatible limits
      then Resource.OfInt (BranchInterface limits)
      else Resource.OfInt 0
  | None => Resource.OfInt 0
  end.

(** The loop shared by [nvidiaGPUs] and [amdGPUs]: both fields of a
    descriptor are dereferenced, the count only for a matching one. *)
Fixpoint gpus_loop (manufacturer : string) (gpus : list GpuDeviceInfo) (count : Z)
    : option Z :=
  match gpus with
  | [] => Some count
  | gpu :: rest =>
      if String.eqb (gpu_Manufacturer gpu) manufacturer
      then c ← gpu_Count gpu; gpus_loop manufacturer rest (wrap64 (count + c))
      else gpus_loop manufacturer rest count
  end.

Definition nvidiaGPUs (i : InstanceType) : option Quantity :=
  count ← match GpuInfo_Gpus (info i) with
          | Some gpus => gpus_loop "NVIDIA" gpus 0
          | None => Some 0
          end;
  Some (Resource.OfInt count).

Definition smarterDevicesFuse (i : InstanceType) : Quantity := Resource.OfInt 1.

Definition amdGPUs (i : InstanceType) : option Quantity :=
  count ← match GpuInfo_Gpus (info i) with
          | Some gpus => gpus_loop "AMD" gpus 0
          | None => Some 0
          end;
  Some (Resource.OfInt count).

Fixpoint awsNeurons_loop (accelerators : list InferenceDeviceInfo) (count : Z)
    : option Z :=
  match accelerators with
  | [] => Some count
  | accelerator :: rest =>
      c ← acc_Count accelerator; awsNeurons_loop rest (wrap64 (count + c))
  end.

Definition awsNeurons (i : InstanceType) : option Quantity :=
  count ← match InferenceAcceleratorInfo_Accelerators (info i) with
          | Some accelerators => awsNeurons_loop accelerators 0
          | None => Some 0
          end;
  Some (Resource.OfInt count).

Definition computeResources (ext : Collaborators) (i : InstanceType)
    (enablePodENI : bool) : option (gmap string Quantity) :=
  nvidia ← nvidiaGPUs i;
  amd ← amdGPUs i;
  neurons ← awsNeurons i;
  Some (<[ V1.ResourceCPU := cpu i ]>
       (<[ V1.ResourceMemory := memory ext i ]>
       (<[ V1.ResourceEphemeralStorage := ephemeralStorage ext i ]>
       (<[ V1.ResourcePods := pods i ]>
       (<[ V1alpha1.ResourceAWSPodENI := awsPodENI ext i enablePodENI ]>
       (<[ V1alpha1.ResourceNVIDIAGPU := nvidia ]>
       (<[ V1alpha1.ResourceAMDGPU := amd ]>
       (<[ V1alpha1.ResourceAWSNeuron := neurons ]>
       (<[ V1alpha1.ResourceSmarterDevicesFuse := smarterDevicesFuse i ]> ∅))))))))).

(** The anonymous struct of the band table in [computeOverhead]. *)
Record cpuRange : Type := mkRange {
  range_start : Z;
  range_end : Z;
  range_percentage : F64
}.

(** The decimal literals of the table, as the binary64 values they denote. *)
Definition percentage_0_06 : F64 := Eval vm_compute in f64_lit 6 100.
Definition percentage_0_01 : F64 := Eval vm_compute in f64_lit 1 100.
Definition percentage_0_005 : F64 := Eval vm_compute in f64_lit 5 1000.
Definition percentage_0_0025 : F64 := Eval vm_compute in f64_lit 25 10000.

Definition cpuRanges : list cpuRange :=
  [ mkRange 0 1000 percentage_0_06;
    mkRange 1000 2000 percentage_0_01;
    mkRange 2000 4000 percentage_0_005;
    mkRange 4000 (Z.shiftl 1 31) percentage_0_0025 ].

(** One turn of the loop of [computeOverhead]. *)
Definition computeOverhead_turn (ext : Collaborators) (i : InstanceType)
    (overhead : gmap string Quantity) (cpuRange : cpuRange) : gmap string Quantity :=
  let cpu := Resource.MilliValue (MilliValue_overflow ext) (cpu i) in
  if range_start cpuRange <=? cpu then
    let r :=
      if cpu <? range_end cpuRange
      then f64_of_int (wrap64 (cpu - range_start cpuRange))
      else f64_of_int (wrap64 (range_end cpuRange - range_start cpuRange)) in
    let cpuOverhead := default (mkQuantity 0) (overhead !! V1.ResourceCPU) in
    <[ V1.ResourceCPU :=
         Resource.Add cpuOverhead
           (Resource.NewMilliQuantity
              (f64_to_int (convert_unrepresentable ext) 64
                 (f64_mul r (range_percentage cpuRange)))) ]> overhead
  else overhead.

Definition computeOverhead (ext : Collaborators) (i : InstanceType)
    : gmap string Quantity :=
  let overhead : gmap string Quantity :=
    <[ V1.ResourceCPU := Resource.NewMilliQuantity 100 ]>
    (<[ V1.ResourceMemory :=
          Resource.OfMi
            (wrap64 (wrap64 (wrap64 (wrap64 (11 * eniLimitedPods i) + 255) + 100) + 100)) ]>
    (<[ V1.ResourceEphemeralStorage :=
          EphemeralBlockDeviceOverhead (GetAMIFamily ext (AMIFamily (provider i))) ]> ∅)) in
  fold_left (computeOverhead_turn ext i) cpuRanges overhead.

(** The two float accumulations of [Price]. *)
Definition Price_gpuCount (gpus : list GpuDeviceInfo) : F64 :=
  fold_left
    (fun gpuCount gpu =>
       match gpu_Count gpu with
       | Some c => f64_add gpuCount (f64_of_int c)
       | None => gpuCount
       end) gpus f64_zero.

Definition Price_infCount (accelerators : list InferenceDeviceInfo) : F64 :=
  fold_left
    (fun infCount acc =>
       match acc_Count acc with
       | Some c => f64_add infCount (f64_of_int c)
       | None => infCount
       end) accelerators f64_zero.

Definition GPUCostWeight : F64 := f64_of_int 5.
Definition InferenceCostWeight : F64 := f64_of_int 5.
Definition CPUCostWeight : F64 := f64_of_int 1.
Definition MemoryMBCostWeight : F64 := Eval vm_compute in f64_lit 1 1024.
Definition LocalStorageWeight : F64 := Eval vm_compute in f64_lit 1 100.

Definition Price (i : InstanceType) : F64 :=
  let gpuCount :=
    match GpuInfo_Gpus (info i) with
    | Some gpus => Price_gpuCount gpus
    | None => f64_zero
    end in
  let infCount :=
    match InferenceAcceleratorInfo_Accelerators (info i) with
    | Some accelerators => Price_infCount accelerators
    | None => f64_zero
    end in
  let localStorageGiBs :=
    match InstanceStorageInfo_TotalSizeInGB (info i) with
    | Some size => f64_add f64_zero (f64_of_int size)
    | None => f64_zero
    end in
  f64_add
    (f64_add
       (f64_add
          (f64_add
             (f64_mul CPUCostWeight (f64_of_int (VCpuInfo_DefaultVCpus (info i))))
             (f64_mul MemoryMBCostWeight (f64_of_int (MemoryInfo_SizeInMiB (info i)))))
          (f64_mul GPUCostWeight gpuCount))
       (f64_mul InferenceCostWeight infCount))
    (f64_mul localStorageGiBs LocalStorageWeight).

(** ** Well-formed metadata *)

(** [nvidiaGPUs], [amdGPUs] and [awsNeurons] dereference the counts without
    a test: with every count present [computeResources] does not panic. *)
Definition counts_present (i : InstanceType) : Prop :=
  (forall gpus, GpuInfo_Gpus (info i) = Some gpus ->
     Forall (fun gpu => is_Some (gpu_Count gpu)) gpus) /\
  (forall accelerators, InferenceAcceleratorInfo_Accelerators (info i) = Some accelerators ->
     Forall (fun accelerator => is_Some (acc_Count accelerator)) accelerators).

(** The descriptors of an instance type, none when there is no GPU section. *)
Definition gpus_of (i : InstanceType) : list GpuDeviceInfo :=
  default [] (GpuInfo_Gpus (info i)).

(** The four GPU labels. *)
Definition gpu_label_keys : list string :=
  [ V1alpha1.InstanceGPUNameLabelKey; V1alpha1.InstanceGPUManufacturerLabelKey;
    V1alpha1.InstanceGPUCountLabelKey; V1alpha1.InstanceGPUMemoryLabelKey ].

(** ** The statements of the design document, in its own words

    These follow the text of the document, not the code; the theorems
    compare them with the functions above. *)

(** The band table of the document: start, end (none for the open last
    band) and rate. *)
Definition doc_bands : list (Z * option Z * Q) :=
  [ (0, Some 1000, (6 # 100)%Q); (1000, Some 2000, (1 # 100)%Q);
    (2000, Some 4000, (5 # 1000)%Q); (4000, None, (25 # 10000)%Q) ].

(** "For each band whose start is at most the total, add
    [min(total, band.end) - band.start] milli-units times [band.rate]." *)
Definition doc_band_product (total : Z) (band : Z * option Z * Q) : Q :=
  let '(band_start, band_end, rate) := band in
  if band_start <=? total
  then (inject_Z (match band_end with
                  | Some e => Z.min total e
                  | None => total
                  end - band_start) * rate)%Q
  else 0%Q.

Definition doc_cpu_overhead (total : Z) : Q :=
  fold_left (fun acc band => (acc + doc_band_product total band)%Q) doc_bands (100 # 1)%Q.

(** The same sum with every product truncated to a whole milli-unit. *)
Definition doc_cpu_overhead_truncated (total : Z) : Z :=
  fold_left (fun acc band => acc + Qfloor (doc_band_product total band)) doc_bands 100.

(** The bands as the code has them, with the rates as fractions. *)
Definition code_bands : list (Z * Z * Z * Z) :=
  [ (0, 1000, 6, 100); (1000, 2000, 1, 100);
    (2000, 4000, 5, 1000); (4000, 2 ^ 31, 25, 10000) ].

Definition band_contribution (total : Z) (band : Z * Z * Z * Z) : Z :=
  let '(band_start, band_end, num, den) := band in
  if band_start <=? total
  then (Z.min total band_end - band_start) * num / den
  else 0.

(** The exact product of a band of the code: its width times its rate. *)
Definition code_band_product (total : Z) (band : Z * Z * Z * Z) : Q :=
  let '(band_start, band_end, num, den) := band in
  if band_start <=? total
  then (inject_Z (Z.min total band_end - band_start) * (num # Z.to_pos den))%Q
  else 0%Q.

(** "Split on its first separator into exactly two parts": the text before
    the first separator and the text after it, none without a separator. *)
Fixpoint doc_cut_first (s : string) (sep : ascii) : option (string * string) :=
  match s with
  | EmptyString => None
  | String c rest =>
      if Ascii.eqb c sep then Some (EmptyString, rest)
      else match doc_cut_first rest sep with
           | Some (before, after) => Some (String c before, after)
           | None => None
           end
  end.

(** The number of separators of a name. *)
Fixpoint count_byte (s : string) (sep : ascii) : nat :=
  match s with
  | EmptyString => 0%nat
  | String c rest => ((if Ascii.eqb c sep then 1 else 0) + count_byte rest sep)%nat
  end.

(** "The distinct GPU models that the metadata reports": the set of
    (manufacturer, name) pairs of its descriptors. *)
Definition doc_gpu_models (i : InstanceType) : gset (string * string) :=
  list_to_set (map (fun gpu => (gpu_Manufacturer gpu, gpu_Name gpu)) (gpus_of i)).

(** ** Example data *)

Definition example_ext : Collaborators :=
  {| GetAMIFamily := fun _ => mkAMIFamily "/dev/xvda" (Resource.OfMi 5120);
     DefaultEBS_VolumeSize := Resource.OfMi 20480;
     vpc_Limits := <[ "m5.large" := mkVPCLimits true 9 ]> ∅;
     Requirements_combine := fun values existing => values ∩ existing;
     unicode_ToLower := fun s => s;
     convert_unrepresentable := fun bits _ => - 2 ^ (bits - 1);
     MilliValue_overflow := wrap64 |}.

Definition example_info (name : string) (vcpus mem : Z)
    (gpus : option (list GpuDeviceInfo)) : InstanceTypeInfo :=
  {| InstanceType_ := name;
     VCpuInfo_DefaultVCpus := vcpus;
     MemoryInfo_SizeInMiB := mem;
     GpuInfo_Gpus := gpus;
     InferenceAcceleratorInfo_Accelerators := None;
     InstanceStorageInfo_TotalSizeInGB := None;
     NetworkInfo_MaximumNetworkInterfaces := 3;
     NetworkInfo_Ipv4AddressesPerInterface := 10;
     ProcessorInfo_SupportedArchitectures := ["x86_64"%string] |}.

Definition example_instance (name : string) (vcpus mem : Z)
    (gpus : option (list GpuDeviceInfo)) : InstanceType :=
  {| info := example_info name vcpus mem gpus;
     offerings := [mkOffering "on-demand" "us-west-2a"; mkOffering "spot" "us-west-2b"];
     provider := mkAWS None [mkBlockDevice "/dev/xvdb" (Resource.OfMi 1024);
                             mkBlockDevice "/dev/xvda" (Resource.OfMi 51200)];
     maxPods := None |}.

Definition example_a100 : GpuDeviceInfo := mkGpu "A100" "NVIDIA" (Some 8) 40960.

(** ** The statements of the document that the code does not satisfy

    Each is written down as the document has it, to be refuted on an
    example. *)

(** "For every instance type, the CPU entry of the overhead equals the fixed
    base plus, for each band whose start is at most the total, the band
    product." *)
Definition doc_cpu_overhead_statement (ext : Collaborators) (i : InstanceType) : Prop :=
  exists q, computeOverhead ext i !! V1.ResourceCPU = Some q /\
            (inject_Z (milli q) == doc_cpu_overhead (1000 * VCpuInfo_DefaultVCpus (info i)))%Q.

(** "Each band's contribution is truncated toward zero before being added;
    vCPU=5 gives a fourth-band product of 2.5 milli-units that contributes
    2, for a total of 177 milli-units." *)
Definition doc_truncation_statement (ext : Collaborators) (i : InstanceType) : Prop :=
  exists q, computeOverhead ext i !! V1.ResourceCPU = Some q /\
            milli q = doc_cpu_overhead_truncated (1000 * VCpuInfo_DefaultVCpus (info i)) /\
            (VCpuInfo_DefaultVCpus (info i) = 5 -> milli q = 177).

(** "The family and size labels are obtained by splitting the name on its
    first separator into exactly two parts; if the name does not split into
    exactly two parts, both labels are omitted." *)
Definition doc_family_size_statement (ext : Collaborators) (i : InstanceType) : Prop :=
  match doc_cut_first (InstanceType_ (info i)) "." with
  | Some (family, size) =>
      computeRequirements ext i !! V1alpha1.InstanceFamilyLabelKey = Some {[ family ]} /\
      computeRequirements ext i !! V1alpha1.InstanceSizeLabelKey = Some {[ size ]}
  | None =>
      computeRequirements ext i !! V1alpha1.InstanceFamilyLabelKey = None /\
      computeRequirements ext i !! V1alpha1.InstanceSizeLabelKey = None
  end.

Definition gpu_labels_present (ext : Collaborators) (i : InstanceType) : Prop :=
  Forall (fun key => is_Some (computeRequirements ext i !! key)) gpu_label_keys.

Definition gpu_labels_absent (ext : Collaborators) (i : InstanceType) : Prop :=
  Forall (fun key => computeRequirements ext i !! key = None) gpu_label_keys.

(** "The four GPU labels appear exactly when the metadata reports exactly
    one distinct GPU model; for several distinct models none is present." *)
Definition doc_gpu_labels_statement (ext : Collaborators) (i : InstanceType) : Prop :=
  (gpu_labels_present ext i <-> size (doc_gpu_models i) = 1%nat) /\
  ((1 < size (doc_gpu_models i))%nat -> gpu_labels_absent ext i).

(** "With all other inputs held fixed, increasing the vCPU count strictly
    increases Price." *)
Definition with_vcpus (i : InstanceType) (vcpus : Z) : InstanceType :=
  {| info :=
       {| InstanceType_ := InstanceType_ (info i);
          VCpuInfo_DefaultVCpus := vcpus;
          MemoryInfo_SizeInMiB := MemoryInfo_SizeInMiB (info i);
          GpuInfo_Gpus := GpuInfo_Gpus (info i);
          InferenceAcceleratorInfo_Accelerators :=
            InferenceAcceleratorInfo_Accelerators (info i);
          InstanceStorageInfo_TotalSizeInGB := InstanceStorageInfo_TotalSizeInGB (info i);
          NetworkInfo_MaximumNetworkInterfaces :=
            NetworkInfo_MaximumNetworkInterfaces (info i);
          NetworkInfo_Ipv4AddressesPerInterface :=
            NetworkInfo_Ipv4AddressesPerInterface (info i);
          ProcessorInfo_SupportedArchitectures :=
            ProcessorInfo_SupportedArchitectures (info i) |};
     offerings := offerings i;
     provider := provider i;
     maxPods := maxPods i |}.

Definition doc_price_monotone_statement (i : InstanceType) (vcpus vcpus' : Z) : Prop :=
  vcpus < vcpus' ->
  f64_ltb (Price (with_vcpus i vcpus)) (Price (with_vcpus i vcpus')) = true.

(** ** An invariant used in the proofs about rounding

    The state of [SpecFloat]'s shift register after [k] right shifts of
    [N]: the quotient, the round bit and the sticky bit. *)
Definition shr_inv (N : Z) (k : nat) (mrs : shr_record) : Prop :=
  shr_m mrs = N / 2 ^ Z.of_nat k /\
  exists t, 2 * (N mod 2 ^ Z.of_nat k) = (if shr_r mrs then 2 ^ Z.of_nat k else 0) + t /\
            0 <= t < 2 ^ Z.of_nat k /\ (shr_s mrs = false <-> t = 0).

(** ** The price score, as integers and as the document has it *)

(** The value of a non-negative float, scaled by [2^1074]: an integer. *)
Definition sval (x : F64) : Z :=
  match x with
  | S754_finite false m e => Z.pos m * 2 ^ (e + 1074)
  | _ => 0
  end.

(** A positive float with a full mantissa and an exponent well inside the
    range of binary64. *)
Definition normal_pos (x : F64) : Prop :=
  exists m e, x = S754_finite false m e /\ 2 ^ 52 <= Z.pos m < 2 ^ 53 /\ -1074 <= e <= 900.

(** [x] is [+0] or a positive normal float, of scaled value [a]. *)
Definition FV (x : F64) (a : Z) : Prop :=
  (x = S754_zero false /\ a = 0) \/ (normal_pos x /\ sval x = a).

(** The integer inputs of [Price]: the sums of the counts that are present,
    and the local storage, 0 for a section that is absent. *)
Definition gpu_count_total (gpus : list GpuDeviceInfo) : Z :=
  fold_right (fun gpu total => default 0 (gpu_Count gpu) + total) 0 gpus.

Definition accelerator_count_total (accelerators : list InferenceDeviceInfo) : Z :=
  fold_right (fun acc total => default 0 (acc_Count acc) + total) 0 accelerators.

Definition Price_gpus (i : InstanceType) : Z :=
  match GpuInfo_Gpus (info i) with
  | Some gpus => gpu_count_total gpus
  | None => 0
  end.

Definition Price_accelerators (i : InstanceType) : Z :=
  match InferenceAcceleratorInfo_Accelerators (info i) with
  | Some accelerators => accelerator_count_total accelerators
  | None => 0
  end.

Definition Price_storage (i : InstanceType) : Z :=
  default 0 (InstanceStorageInfo_TotalSizeInGB (info i)).

(** "1 x vCPU + (1/1024) x memoryMiB + 5 x gpuCount
    + 5 x inferenceAcceleratorCount + 0.01 x localStorageGiB", exactly. *)
Definition doc_price (i : InstanceType) : Q :=
  (inject_Z (VCpuInfo_DefaultVCpus (info i))
   + inject_Z (MemoryInfo_SizeInMiB (info i)) * (1 # 1024)
   + 5 * inject_Z (Price_gpus i)
   + 5 * inject_Z (Price_accelerators i)
   + inject_Z (Price_storage i) * (1 # 100))%Q.

(** Magnitudes for which the sums of [Price] stay exact: counts that are
    not negative, everything below [2^31] (memory below [2^41] MiB). *)
Definition price_bounded (i : InstanceType) : Prop :=
  0 <= VCpuInfo_DefaultVCpus (info i) < 2 ^ 31 /\
  0 <= MemoryInfo_SizeInMiB (info i) < 2 ^ 41 /\
  Forall (fun gpu => 0 <= default 0 (gpu_Count gpu)) (default [] (GpuInfo_Gpus (info i))) /\
  Forall (fun acc => 0 <= default 0 (acc_Count acc))
    (default [] (InferenceAcceleratorInfo_Accelerators (info i))) /\
  Price_gpus i < 2 ^ 31 /\
  Price_accelerators i < 2 ^ 31 /\
  0 <= Price_storage i < 2 ^ 31.

(** ** Package initialisation of [v1alpha1]

    [init] extends two sets of the [v1alpha5] package and registers the
    configuration type with [Scheme].  The state that it changes: the
    (group, version, kind) triples that [Scheme] knows, and the two sets. *)

Record Registry : Type := mkRegistry {
  Scheme_KnownTypes : gset (string * string * string);
  v1alpha5_RestrictedLabelDomains : gset string;
  v1alpha5_WellKnownLabels : gset string
}.

(** [s.Insert(items...)] of [sets.String]. *)
Definition Insert (s : gset string) (items : list string) : gset string :=
  fold_left (fun s item => {[ item ]} ∪ s) items s.

(** [init()]; [ExtensionsGroup] is the constant of [v1alpha5]. *)
Definition init (ExtensionsGroup : string) (registry : Registry) : Registry :=
  {| Scheme_KnownTypes :=
       {[ (ExtensionsGroup, "v1alpha1"%string, "AWS"%string) ]} ∪ Scheme_KnownTypes registry;
     v1alpha5_RestrictedLabelDomains :=
       Insert (v1alpha5_RestrictedLabelDomains registry) V1alpha1.RestrictedLabelDomains;
     v1alpha5_WellKnownLabels :=
       Insert (v1alpha5_WellKnownLabels registry)
         [ V1alpha1.InstanceFamilyLabelKey;
           V1alpha1.InstanceSizeLabelKey;
           V1alpha1.InstanceCPULabelKey;
           V1alpha1.InstanceMemoryLabelKey;
           V1alpha1.InstanceGPUNameLabelKey;
           V1alpha1.InstanceGPUManufacturerLabelKey;
           V1alpha1.InstanceGPUCountLabelKey;
           V1alpha1.InstanceGPUMemoryLabelKey ] |}.

(** ** Reference quantities for the properties of the code *)

(** The keys of the map literal of [computeRequirements], and the two keys
    of the instance type labels. *)
Definition literal_label_keys : list string :=
  [ V1.LabelInstanceTypeStable; V1.LabelArchStable; V1.LabelOSStable;
    V1.LabelTopologyZone; V1alpha5.LabelCapacityType;
    V1alpha1.InstanceCPULabelKey; V1alpha1.InstanceMemoryLabelKey ].

Definition instance_type_label_keys : list string :=
  [ V1alpha1.InstanceFamilyLabelKey; V1alpha1.InstanceSizeLabelKey ].

(** The names of the entries of [computeResources] and of
    [computeOverhead]. *)
Definition resource_names : list string :=
  [ V1.ResourceCPU; V1.ResourceMemory; V1.ResourceEphemeralStorage; V1.ResourcePods;
    V1alpha1.ResourceAWSPodENI; V1alpha1.ResourceNVIDIAGPU; V1alpha1.ResourceAMDGPU;
    V1alpha1.ResourceAWSNeuron; V1alpha1.ResourceSmarterDevicesFuse ].

Definition overhead_names : list string :=
  [ V1.ResourceCPU; V1.ResourceMemory; V1.ResourceEphemeralStorage ].

(** The sum of the counts of the descriptors of one manufacturer. *)
Definition manufacturer_count (manufacturer : string) (gpus : list GpuDeviceInfo) : Z :=
  gpu_count_total (filter (fun gpu => gpu_Manufacturer gpu = manufacturer) gpus).

(** The accelerators of an instance type, none without the section. *)
Definition accelerators_of (i : InstanceType) : list InferenceDeviceInfo :=
  default [] (InferenceAcceleratorInfo_Accelerators (info i)).



(** The inputs of [Price] other than the local storage, weighted, in units
    of 1/1024: a vCPU weighs 1024, a MiB 1, a GPU or an accelerator 5120. *)
Definition Price_units (i : InstanceType) : Z :=
  1024 * VCpuInfo_DefaultVCpus (info i) + MemoryInfo_SizeInMiB (info i)
  + 5120 * Price_gpus i + 5120 * Price_accelerators i.

(** A byte that [lowerKabobCase] leaves in place: neither a space nor an
    upper-case letter. *)
Definition kabob_byte (c : ascii) : bool :=
  negb (Ascii.eqb c " ") && negb ((65 <=? N_of_ascii c) && (N_of_ascii c <=? 90))%N.

Fixpoint kabob (s : string) : bool :=
  match s with
  | EmptyString => true
  | String c rest => kabob_byte c && kabob rest
  end.

(** The CPU entry of the overhead as a function of the total milli-CPU. *)
Definition cpu_overhead_of (total : Z) : Z :=
  fold_left (fun acc band => acc + band_contribution total band) code_bands 100.

(** An instance type with inference accelerators, without offerings. *)
Definition example_inf1 (accelerators : list InferenceDeviceInfo) : InstanceType :=
  {| info :=
       {| InstanceType_ := "inf1.6xlarge";
          VCpuInfo_DefaultVCpus := 24;
          MemoryInfo_SizeInMiB := 49152;
          GpuInfo_Gpus := None;
          InferenceAcceleratorInfo_Accelerators := Some accelerators;
          InstanceStorageInfo_TotalSizeInGB := None;
          NetworkInfo_MaximumNetworkInterfaces := 8;
          NetworkInfo_Ipv4AddressesPerInterface := 30;
          ProcessorInfo_SupportedArchitectures := ["x86_64"%string] |};
     offerings := [];
     provider := mkAWS (Some "AL2"%string) [];
     maxPods := Some 110 |}.

(** ** Proof automation *)

(** Keys of the maps are closed strings: two of them differ by computation. *)
Ltac key_ne := let H := fresh in intros H; vm_compute in H; discriminate H.

Ltac lookup_simpl :=
  repeat first
    [ rewrite lookup_insert_eq
    | rewrite lookup_insert_ne by key_ne
    | rewrite lookup_empty ].

Ltac not_gpu_key :=
  let H := fresh in
  intros H; unfold gpu_label_keys in H;
  repeat (apply elem_of_cons in H as [H|H]; [vm_compute in H; discriminate H|]);
  apply elem_of_nil in H; exact H.

(** [SpecFloat] is written with the integer operations of the core library;
    this brings them to the names that the arithmetic lemmas use. *)
Ltac to_BinInt :=
  change IntDef.Z.add with Z.add in *;
  change IntDef.Z.sub with Z.sub in *;
  change IntDef.Z.mul with Z.mul in *;
  change IntDef.Z.opp with Z.opp in *;
  change IntDef.Z.max with Z.max in *;
  change IntDef.Z.min with Z.min in *;
  change IntDef.Z.leb with Z.leb in *;
  change IntDef.Z.eqb with Z.eqb in *;
  change IntDef.Z.even with Z.even in *;
  change PosDef.Pos.mul with Pos.mul in *.

(** * Properties *)

(** ** Machine integers *)

Lemma wrap_in_range (bits z : Z) : 0 < bits -> in_int bits z -> wrap bits z = z.
Proof.
  intros Hbits [Hlo Hhi]. unfold wrap.
  assert (Hpow : 2 ^ bits = 2 * 2 ^ (bits - 1)).
  { rewrite <- Z.pow_succ_r by lia. f_equal. lia. }
  rewrite Z.mod_small; lia.
Qed.

Lemma wrap64_in_range (z : Z) : in_int 64 z -> wrap64 z = z.
Proof. apply wrap_in_range. lia. Qed.

Lemma in_intb_true (bits z : Z) : in_int bits z -> in_intb bits z = true.
Proof.
  intros [Hlo Hhi]. unfold in_intb.
  apply andb_true_intro. split; [apply Z.leb_le|apply Z.ltb_lt]; done.
Qed.

(** ** Maps with concrete keys *)

Lemma NewSet_singleton (x : string) : NewSet [x] = {[ x ]}.
Proof. unfold NewSet. simpl. apply (right_id_L ∅ (∪)). Qed.

Lemma lookup_Requirements_Add_absent (ext : Collaborators)
    (requirements incoming : gmap string (gset string)) (key : string) :
  incoming !! key = None ->
  Requirements_Add ext requirements incoming !! key = requirements !! key.
Proof.
  intros H. unfold Requirements_Add. rewrite lookup_union_with, H.
  destruct (requirements !! key); reflexivity.
Qed.

Lemma lookup_Requirements_Add_fresh (ext : Collaborators)
    (requirements incoming : gmap string (gset string)) (key : string) :
  requirements !! key = None ->
  Requirements_Add ext requirements incoming !! key = incoming !! key.
Proof.
  intros H. unfold Requirements_Add. rewrite lookup_union_with, H.
  destruct (incoming !! key); reflexivity.
Qed.

(** ** [computeResources] *)

Lemma gpus_loop_defined (manufacturer : string) (gpus : list GpuDeviceInfo) :
  Forall (fun gpu => is_Some (gpu_Count gpu)) gpus ->
  forall count, is_Some (gpus_loop manufacturer gpus count).
Proof.
  induction 1 as [|gpu gpus [c Hc] _ IH]; intros count; simpl.
  - eauto.
  - destruct (String.eqb _ _); [rewrite Hc; simpl|]; apply IH.
Qed.

Lemma awsNeurons_loop_defined (accelerators : list InferenceDeviceInfo) :
  Forall (fun accelerator => is_Some (acc_Count accelerator)) accelerators ->
  forall count, is_Some (awsNeurons_loop accelerators count).
Proof.
  induction 1 as [|acc accs [c Hc] _ IH]; intros count; simpl.
  - eauto.
  - rewrite Hc. simpl. apply IH.
Qed.

(** With every count present the resource list is computed, and it is the
    nine-entry literal of the source. *)
Lemma computeResources_defined (ext : Collaborators) (i : InstanceType) (enablePodENI : bool) :
  counts_present i ->
  exists nvidia amd neurons,
    nvidiaGPUs i = Some nvidia /\ amdGPUs i = Some amd /\ awsNeurons i = Some neurons /\
    computeResources ext i enablePodENI =
    Some (<[ V1.ResourceCPU := cpu i ]>
         (<[ V1.ResourceMemory := memory ext i ]>
         (<[ V1.ResourceEphemeralStorage := ephemeralStorage ext i ]>
         (<[ V1.ResourcePods := pods i ]>
         (<[ V1alpha1.ResourceAWSPodENI := awsPodENI ext i enablePodENI ]>
         (<[ V1alpha1.ResourceNVIDIAGPU := nvidia ]>
         (<[ V1alpha1.ResourceAMDGPU := amd ]>
         (<[ V1alpha1.ResourceAWSNeuron := neurons ]>
         (<[ V1alpha1.ResourceSmarterDevicesFuse := smarterDevicesFuse i ]> ∅))))))))).
Proof.
  intros [Hgpus Haccs].
  assert (Hnv : is_Some (nvidiaGPUs i)).
  { unfold nvidiaGPUs. destruct (GpuInfo_Gpus (info i)) as [gpus|] eqn:E; [|simpl; eauto].
    destruct (gpus_loop_defined "NVIDIA" gpus (Hgpus _ eq_refl) 0) as [n ->]. simpl. eauto. }
  assert (Hamd : is_Some (amdGPUs i)).
  { unfold amdGPUs. destruct (GpuInfo_Gpus (info i)) as [gpus|] eqn:E; [|simpl; eauto].
    destruct (gpus_loop_defined "AMD" gpus (Hgpus _ eq_refl) 0) as [n ->]. simpl. eauto. }
  assert (Hneu : is_Some (awsNeurons i)).
  { unfold awsNeurons.
    destruct (InferenceAcceleratorInfo_Accelerators (info i)) as [accs|] eqn:E; [|simpl; eauto].
    destruct (awsNeurons_loop_defined accs (Haccs _ eq_refl) 0) as [n ->]. simpl. eauto. }
  destruct Hnv as [nvidia Hnv], Hamd as [amd Hamd], Hneu as [neurons Hneu].
  exists nvidia, amd, neurons. repeat split; try done.
  unfold computeResources. rewrite Hnv, Hamd, Hneu. reflexivity.
Qed.

Lemma example_counts_present name vcpus mem :
  counts_present (example_instance name vcpus mem (Some [example_a100])).
Proof.
  split; simpl; intros l Hl; [|discriminate].
  injection Hl as <-. repeat constructor. simpl. eauto.
Qed.

(** ** Pod capacity *)

Lemma eniLimitedPods_exact (i : InstanceType) :
  let interfaces := NetworkInfo_MaximumNetworkInterfaces (info i) in
  let addresses := NetworkInfo_Ipv4AddressesPerInterface (info i) in
  in_int 64 (addresses - 1) ->
  in_int 64 (interfaces * (addresses - 1)) ->
  in_int 64 (interfaces * (addresses - 1) + 2) ->
  eniLimitedPods i = interfaces * (addresses - 1) + 2.
Proof.
  intros interfaces addresses H1 H2 H3. unfold eniLimitedPods.
  fold interfaces addresses.
  rewrite (wrap64_in_range (addresses - 1)) by done.
  rewrite (wrap64_in_range (interfaces * (addresses - 1))) by done.
  apply wrap64_in_range. done.
Qed.

(** C2.  The pods entry of the computed resource list is the explicit
    override of the configuration when there is one; otherwise it is
    [maxNetworkInterfaces * (ipv4AddressesPerInterface - 1) + 2], computed in
    [int64], which is that integer whenever no intermediate result leaves
    [int64]; with 3 interfaces, 10 addresses and no override it is 29. *)
Theorem C2_pod_capacity (ext : Collaborators) (i : InstanceType) (enablePodENI : bool) :
  counts_present i ->
  let interfaces := NetworkInfo_MaximumNetworkInterfaces (info i) in
  let addresses := NetworkInfo_Ipv4AddressesPerInterface (info i) in
  exists resources,
    computeResources ext i enablePodENI = Some resources /\
    (forall override, maxPods i = Some override ->
       resources !! V1.ResourcePods = Some (Resource.OfInt override)) /\
    (maxPods i = None ->
       resources !! V1.ResourcePods
       = Some (Resource.OfInt
                 (wrap64 (wrap64 (interfaces * wrap64 (addresses - 1)) + 2)))) /\
    (maxPods i = None ->
       in_int 64 (addresses - 1) ->
       in_int 64 (interfaces * (addresses - 1)) ->
       in_int 64 (interfaces * (addresses - 1) + 2) ->
       resources !! V1.ResourcePods
       = Some (Resource.OfInt (interfaces * (addresses - 1) + 2))) /\
    (maxPods i = None -> interfaces = 3 -> addresses = 10 ->
       resources !! V1.ResourcePods = Some (Resource.OfInt 29)).
Proof.
  intros Hcounts interfaces addresses.
  destruct (computeResources_defined ext i enablePodENI Hcounts)
    as (nvidia & amd & neurons & _ & _ & _ & ->).
  eexists. split; [reflexivity|].
  assert (Hpods : forall m : gmap string Quantity,
             (<[ V1.ResourceCPU := cpu i ]>
             (<[ V1.ResourceMemory := memory ext i ]>
             (<[ V1.ResourceEphemeralStorage := ephemeralStorage ext i ]>
             (<[ V1.ResourcePods := pods i ]> m)))) !! V1.ResourcePods = Some (pods i)).
  { intros m. lookup_simpl. reflexivity. }
  rewrite Hpods. unfold pods.
  assert (Hexact : in_int 64 (addresses - 1) ->
                   in_int 64 (interfaces * (addresses - 1)) ->
                   in_int 64 (interfaces * (addresses - 1) + 2) ->
                   eniLimitedPods i = interfaces * (addresses - 1) + 2)
    by apply eniLimitedPods_exact.
  repeat split.
  - intros override ->. reflexivity.
  - intros ->. reflexivity.
  - intros -> H1 H2 H3. rewrite Hexact by done. reflexivity.
  - intros -> H3 H10. unfold interfaces, addresses in *.
    rewrite Hexact; rewrite ?H3, ?H10; [reflexivity|..]; vm_compute; split; congruence.
Qed.

Lemma C2_pod_capacity_witness :
  counts_present (example_instance "m5.large" 2 8192 (Some [example_a100])) /\
  exists resources,
    computeResources example_ext (example_instance "m5.large" 2 8192 (Some [example_a100])) false
    = Some resources /\
    resources !! V1.ResourcePods = Some (Resource.OfInt 29).
Proof.
  split; [apply example_counts_present|].
  destruct (C2_pod_capacity example_ext
              (example_instance "m5.large" 2 8192 (Some [example_a100])) false
              (example_counts_present _ _ _))
    as (resources & Hres & _ & _ & _ & H29).
  exists resources. split; [exact Hres|].
  apply H29; reflexivity.
Defined.

(** ** [computeOverhead] *)

Lemma computeOverhead_turn_other (ext : Collaborators) (i : InstanceType)
    (overhead : gmap string Quantity) (cpuRange : cpuRange) (key : string) :
  key <> V1.ResourceCPU ->
  computeOverhead_turn ext i overhead cpuRange !! key = overhead !! key.
Proof.
  intros Hkey. unfold computeOverhead_turn.
  destruct (_ <=? _); [|reflexivity].
  apply lookup_insert_ne. congruence.
Qed.

Lemma computeOverhead_loop_other (ext : Collaborators) (i : InstanceType)
    (ranges : list cpuRange) (overhead : gmap string Quantity) (key : string) :
  key <> V1.ResourceCPU ->
  fold_left (computeOverhead_turn ext i) ranges overhead !! key = overhead !! key.
Proof.
  intros Hkey. revert overhead.
  induction ranges as [|r ranges IH]; intros overhead; simpl; [reflexivity|].
  rewrite IH. apply computeOverhead_turn_other. exact Hkey.
Qed.

Lemma computeOverhead_memory (ext : Collaborators) (i : InstanceType) :
  computeOverhead ext i !! V1.ResourceMemory
  = Some (Resource.OfMi
            (wrap64 (wrap64 (wrap64 (wrap64 (11 * eniLimitedPods i) + 255) + 100) + 100))).
Proof.
  unfold computeOverhead.
  rewrite computeOverhead_loop_other by key_ne.
  lookup_simpl. reflexivity.
Qed.

(** C3.  The memory entry of the overhead is [(11 * p + 255) + 100 + 100]
    MiB for the ENI-limited pod count [p] of the metadata, computed in
    [int64]: it is that integer whenever no intermediate result leaves
    [int64].  The explicit pod-capacity override of the configuration does
    not enter it.  For [p = 29] it is 774 MiB. *)
Theorem C3_memory_overhead (ext : Collaborators) (i : InstanceType) :
  let interfaces := NetworkInfo_MaximumNetworkInterfaces (info i) in
  let addresses := NetworkInfo_Ipv4AddressesPerInterface (info i) in
  let p := interfaces * (addresses - 1) + 2 in
  (in_int 64 (addresses - 1) ->
   in_int 64 (interfaces * (addresses - 1)) ->
   in_int 64 p ->
   in_int 64 (11 * p) ->
   in_int 64 (11 * p + 255 + 100 + 100) ->
   computeOverhead ext i !! V1.ResourceMemory
   = Some (Resource.OfMi ((11 * p + 255) + 100 + 100))) /\
  (forall override,
     computeOverhead ext (mkInstanceType (info i) (offerings i) (provider i) override)
       !! V1.ResourceMemory
     = computeOverhead ext i !! V1.ResourceMemory) /\
  (eniLimitedPods i = 29 ->
   forall override,
     computeOverhead ext (mkInstanceType (info i) (offerings i) (provider i) override)
       !! V1.ResourceMemory
     = Some (Resource.OfMi 774)).
Proof.
  intros interfaces addresses p.
  assert (Hoverride : forall override,
    computeOverhead ext (mkInstanceType (info i) (offerings i) (provider i) override)
      !! V1.ResourceMemory
    = computeOverhead ext i !! V1.ResourceMemory).
  { intros override. rewrite !computeOverhead_memory. reflexivity. }
  split; [|split].
  - intros H1 H2 H3 H4 H5. rewrite computeOverhead_memory.
    rewrite (eniLimitedPods_exact i) by done. fold interfaces addresses p.
    unfold in_int in *.
    rewrite (wrap64_in_range (11 * p)) by (unfold in_int; lia).
    rewrite (wrap64_in_range (11 * p + 255)) by (unfold in_int; lia).
    rewrite (wrap64_in_range (11 * p + 255 + 100)) by (unfold in_int; lia).
    rewrite (wrap64_in_range (11 * p + 255 + 100 + 100)) by (unfold in_int; lia).
    reflexivity.
  - exact Hoverride.
  - intros H29 override. rewrite Hoverride, computeOverhead_memory, H29. reflexivity.
Qed.

Lemma C3_memory_overhead_witness :
  computeOverhead example_ext (example_instance "m5.large" 2 8192 None) !! V1.ResourceMemory
  = Some (Resource.OfMi 774).
Proof.
  pose proof (C3_memory_overhead example_ext (example_instance "m5.large" 2 8192 None))
    as (Hexact & _ & _).
  apply Hexact; vm_compute; split; congruence.
Defined.

(** ** Ephemeral storage *)

Lemma ephemeralStorage_loop_first (root : string) (before after : list BlockDeviceMapping)
    (blockDevice : BlockDeviceMapping) :
  Forall (fun b => DeviceName b <> root) before ->
  DeviceName blockDevice = root ->
  ephemeralStorage_loop root (before ++ blockDevice :: after)
  = Some (EBS_VolumeSize blockDevice).
Proof.
  intros Hbefore Hname. induction Hbefore as [|b before Hb _ IH]; simpl.
  - rewrite Hname, String.eqb_refl. reflexivity.
  - apply String.eqb_neq in Hb. rewrite Hb. exact IH.
Qed.

Lemma ephemeralStorage_loop_none (root : string) (mappings : list BlockDeviceMapping) :
  Forall (fun b => DeviceName b <> root) mappings ->
  ephemeralStorage_loop root mappings = None.
Proof.
  induction 1 as [|b mappings Hb _ IH]; simpl; [reflexivity|].
  apply String.eqb_neq in Hb. rewrite Hb. exact IH.
Qed.

(** C7.  The ephemeral-storage entry of the computed resource list is the
    volume size of the (first) block-device override whose device name is
    the root block-device name of the selected AMI family; without such an
    override it is the default volume size that the AMI family package
    declares. *)
Theorem C7_ephemeral_storage (ext : Collaborators) (i : InstanceType) (enablePodENI : bool) :
  counts_present i ->
  let root := EphemeralBlockDevice (GetAMIFamily ext (AMIFamily (provider i))) in
  exists resources,
    computeResources ext i enablePodENI = Some resources /\
    (forall before blockDevice after,
       BlockDeviceMappings (provider i) = before ++ blockDevice :: after ->
       Forall (fun b => DeviceName b <> root) before ->
       DeviceName blockDevice = root ->
       resources !! V1.ResourceEphemeralStorage = Some (EBS_VolumeSize blockDevice)) /\
    (Forall (fun b => DeviceName b <> root) (BlockDeviceMappings (provider i)) ->
     resources !! V1.ResourceEphemeralStorage = Some (DefaultEBS_VolumeSize ext)).
Proof.
  intros Hcounts root.
  destruct (computeResources_defined ext i enablePodENI Hcounts)
    as (nvidia & amd & neurons & _ & _ & _ & ->).
  eexists. split; [reflexivity|].
  lookup_simpl. unfold ephemeralStorage. fold root.
  split.
  - intros before blockDevice after -> Hbefore Hname.
    rewrite ephemeralStorage_loop_first by done. reflexivity.
  - intros Hnone. rewrite ephemeralStorage_loop_none by done. reflexivity.
Qed.

Lemma C7_ephemeral_storage_witness :
  counts_present (example_instance "m5.large" 2 8192 (Some [example_a100])) /\
  exists resources,
    computeResources example_ext (example_instance "m5.large" 2 8192 (Some [example_a100])) false
    = Some resources /\
    resources !! V1.ResourceEphemeralStorage = Some (Resource.OfMi 51200).
Proof.
  split; [apply example_counts_present|].
  destruct (C7_ephemeral_storage example_ext
              (example_instance "m5.large" 2 8192 (Some [example_a100])) false
              (example_counts_present _ _ _))
    as (resources & Hres & Hfirst & _).
  exists resources. split; [exact Hres|].
  apply (Hfirst [mkBlockDevice "/dev/xvdb" (Resource.OfMi 1024)]
                (mkBlockDevice "/dev/xvda" (Resource.OfMi 51200)) []).
  - reflexivity.
  - repeat constructor. simpl. discriminate.
  - reflexivity.
Defined.

(** ** [architecture] *)

Lemma AWSToKubeArchitectures_spec (key value : string) :
  V1alpha1.AWSToKubeArchitectures !! key = Some value <->
  (key = "x86_64"%string /\ value = "amd64"%string) \/
  (key = "arm64"%string /\ value = "arm64"%string).
Proof.
  unfold V1alpha1.AWSToKubeArchitectures,
    V1alpha5.ArchitectureAmd64, V1alpha5.ArchitectureArm64.
  rewrite lookup_insert_Some, lookup_insert_Some, lookup_empty.
  split.
  - intros [[<- <-]|[_ [[<- <-]|[_ ?]]]]; [left|right|]; done.
  - intros [[-> ->]|[-> ->]]; [left; done|right].
    split; [discriminate|left; done].
Qed.

Lemma architecture_loop_first (before after : list string) (a value : string) :
  Forall (fun b => V1alpha1.AWSToKubeArchitectures !! b = None) before ->
  V1alpha1.AWSToKubeArchitectures !! a = Some value ->
  architecture_loop (before ++ a :: after) = Some value.
Proof.
  intros Hbefore Ha. induction Hbefore as [|b before Hb _ IH]; simpl.
  - rewrite Ha. reflexivity.
  - rewrite Hb. exact IH.
Qed.

Lemma architecture_loop_none (archs : list string) :
  Forall (fun b => V1alpha1.AWSToKubeArchitectures !! b = None) archs ->
  architecture_loop archs = None.
Proof.
  induction 1 as [|b archs Hb _ IH]; simpl; [reflexivity|].
  rewrite Hb. exact IH.
Qed.

(** ** [computeRequirements] *)

Lemma instanceTypeLabels_other (ext : Collaborators) (i : InstanceType)
    (requirements : gmap string (gset string)) (key : string) :
  key <> V1alpha1.InstanceFamilyLabelKey ->
  key <> V1alpha1.InstanceSizeLabelKey ->
  computeRequirements_instanceTypeLabels ext i requirements !! key = requirements !! key.
Proof.
  intros Hf Hs. unfold computeRequirements_instanceTypeLabels.
  destruct (Strings.Split _ _) as [|family [|size [|]]]; try reflexivity.
  apply lookup_Requirements_Add_absent.
  rewrite !lookup_insert_ne by congruence. apply lookup_empty.
Qed.

Lemma gpuLabels_other (ext : Collaborators) (i : InstanceType)
    (requirements : gmap string (gset string)) (key : string) :
  key ∉ gpu_label_keys ->
  computeRequirements_gpuLabels ext i requirements !! key = requirements !! key.
Proof.
  intros Hkey. unfold computeRequirements_gpuLabels.
  destruct (GpuInfo_Gpus (info i)) as [[|gpu [|]]|]; try reflexivity.
  apply lookup_Requirements_Add_absent.
  unfold gpu_label_keys in Hkey.
  rewrite !lookup_insert_ne by (intros Heq; apply Hkey; rewrite <- Heq; set_solver).
  apply lookup_empty.
Qed.

(** A key of the literal keeps the value that the literal gives it. *)
Lemma computeRequirements_literal_key (ext : Collaborators) (i : InstanceType) (key : string) :
  key <> V1alpha1.InstanceFamilyLabelKey ->
  key <> V1alpha1.InstanceSizeLabelKey ->
  key ∉ gpu_label_keys ->
  computeRequirements ext i !! key = computeRequirements_literal i !! key.
Proof.
  intros Hf Hs Hg. unfold computeRequirements.
  rewrite gpuLabels_other by done. apply instanceTypeLabels_other; done.
Qed.

(** C8.  The architecture value of the requirements is the canonical value
    of the first reported identifier that the two-entry table knows
    ("x86_64" gives "amd64", "arm64" gives "arm64"); when the table knows
    none of them it is the rendering of the raw list, which is not a
    canonical identifier; ["graviton3x"] yields "[graviton3x]". *)
Theorem C8_architecture (ext : Collaborators) (i : InstanceType) :
  let archs := ProcessorInfo_SupportedArchitectures (info i) in
  (forall key value,
     V1alpha1.AWSToKubeArchitectures !! key = Some value <->
     (key = "x86_64"%string /\ value = "amd64"%string) \/
     (key = "arm64"%string /\ value = "arm64"%string)) /\
  computeRequirements ext i !! V1.LabelArchStable = Some {[ architecture i ]} /\
  (forall before a after value,
     archs = before ++ a :: after ->
     Forall (fun b => V1alpha1.AWSToKubeArchitectures !! b = None) before ->
     V1alpha1.AWSToKubeArchitectures !! a = Some value ->
     architecture i = value) /\
  (Forall (fun a => V1alpha1.AWSToKubeArchitectures !! a = None) archs ->
     architecture i = Fmt.Sprint_strings archs /\
     architecture i <> V1alpha5.ArchitectureAmd64 /\
     architecture i <> V1alpha5.ArchitectureArm64) /\
  (archs = ["graviton3x"%string] -> architecture i = "[graviton3x]"%string).
Proof.
  intros archs. split; [exact AWSToKubeArchitectures_spec|].
  split.
  { rewrite computeRequirements_literal_key by (try key_ne; not_gpu_key).
    unfold computeRequirements_literal. lookup_simpl.
    rewrite NewSet_singleton. reflexivity. }
  split.
  { intros before a after value Harchs Hbefore Ha. unfold architecture.
    fold archs. rewrite Harchs, (architecture_loop_first before after a value) by done.
    reflexivity. }
  assert (Hnone : Forall (fun a => V1alpha1.AWSToKubeArchitectures !! a = None) archs ->
                  architecture i = Fmt.Sprint_strings archs).
  { intros Hall. unfold architecture. fold archs.
    rewrite architecture_loop_none by done. reflexivity. }
  split.
  - intros Hall. rewrite (Hnone Hall).
    split; [reflexivity|]. split; discriminate.
  - intros Harchs. rewrite Hnone; rewrite Harchs; [reflexivity|].
    repeat constructor.
Qed.

Lemma C8_architecture_witness :
  architecture
    (mkInstanceType
       (mkInfo "m7g.large" 2 8192 None None None 3 10 ["graviton3x"; "arm64"; "x86_64"]%string)
       [] (mkAWS None []) None)
  = "arm64"%string.
Proof.
  pose proof (C8_architecture example_ext
    (mkInstanceType
       (mkInfo "m7g.large" 2 8192 None None None 3 10 ["graviton3x"; "arm64"; "x86_64"]%string)
       [] (mkAWS None []) None)) as (_ & _ & Hfirst & _).
  apply (Hfirst ["graviton3x"%string] "arm64"%string ["x86_64"%string]).
  - reflexivity.
  - repeat constructor.
  - reflexivity.
Defined.

(** ** [strings.Split] *)

Lemma Split_length (s : string) (sep : ascii) :
  length (Strings.Split s sep) = S (count_byte s sep).
Proof.
  induction s as [|c s IH]; simpl; [reflexivity|].
  destruct (Ascii.eqb c sep); simpl.
  - rewrite IH. reflexivity.
  - destruct (Strings.Split s sep); simpl in *; [discriminate|exact IH].
Qed.

Lemma Split_no_separator (s : string) (sep : ascii) :
  count_byte s sep = 0%nat -> Strings.Split s sep = [s].
Proof.
  induction s as [|c s IH]; simpl; [reflexivity|].
  destruct (Ascii.eqb c sep); simpl; [discriminate|].
  intros H. rewrite IH by exact H. reflexivity.
Qed.

Lemma Split_at_separator (before after : string) (sep : ascii) :
  count_byte before sep = 0%nat ->
  Strings.Split (before +:+ String sep after) sep = before :: Strings.Split after sep.
Proof.
  induction before as [|c before IH]; simpl.
  - intros _. rewrite Ascii.eqb_refl. reflexivity.
  - destruct (Ascii.eqb c sep); simpl; [discriminate|].
    intros H. rewrite IH by exact H. reflexivity.
Qed.

Lemma instanceTypeLabels_two_parts (ext : Collaborators) (i : InstanceType)
    (requirements : gmap string (gset string)) (family size : string) :
  Strings.Split (InstanceType_ (info i)) "." = [family; size] ->
  requirements !! V1alpha1.InstanceFamilyLabelKey = None ->
  requirements !! V1alpha1.InstanceSizeLabelKey = None ->
  computeRequirements_instanceTypeLabels ext i requirements
    !! V1alpha1.InstanceFamilyLabelKey = Some {[ family ]} /\
  computeRequirements_instanceTypeLabels ext i requirements
    !! V1alpha1.InstanceSizeLabelKey = Some {[ size ]}.
Proof.
  intros Hsplit Hf Hs. unfold computeRequirements_instanceTypeLabels.
  rewrite Hsplit.
  rewrite !lookup_Requirements_Add_fresh by done.
  lookup_simpl. rewrite !NewSet_singleton. done.
Qed.

Lemma instanceTypeLabels_other_parts (ext : Collaborators) (i : InstanceType)
    (requirements : gmap string (gset string)) :
  length (Strings.Split (InstanceType_ (info i)) ".") <> 2%nat ->
  computeRequirements_instanceTypeLabels ext i requirements = requirements.
Proof.
  intros Hlen. unfold computeRequirements_instanceTypeLabels.
  destruct (Strings.Split _ _) as [|family [|size [|]]]; try reflexivity.
  simpl in Hlen. congruence.
Qed.

Lemma literal_no_family_size (i : InstanceType) :
  computeRequirements_literal i !! V1alpha1.InstanceFamilyLabelKey = None /\
  computeRequirements_literal i !! V1alpha1.InstanceSizeLabelKey = None.
Proof. unfold computeRequirements_literal. split; lookup_simpl; reflexivity. Qed.

(** C6, as the code has it.  The name is split at every separator "."; when
    that gives exactly two parts, that is when the name holds exactly one
    separator, the family label is the first part and the size label the
    second; otherwise (no separator, as in "metal", or more than one) both
    labels are left out, and the requirements are still computed. *)
Theorem C6_family_size (ext : Collaborators) (i : InstanceType) :
  let name := InstanceType_ (info i) in
  let requirements := computeRequirements ext i in
  (forall family size,
     name = family +:+ "." +:+ size ->
     count_byte family "." = 0%nat -> count_byte size "." = 0%nat ->
     requirements !! V1alpha1.InstanceFamilyLabelKey = Some {[ family ]} /\
     requirements !! V1alpha1.InstanceSizeLabelKey = Some {[ size ]}) /\
  (count_byte name "." <> 1%nat ->
     requirements !! V1alpha1.InstanceFamilyLabelKey = None /\
     requirements !! V1alpha1.InstanceSizeLabelKey = None) /\
  (name = "m5.large"%string ->
     requirements !! V1alpha1.InstanceFamilyLabelKey = Some {[ "m5"%string ]} /\
     requirements !! V1alpha1.InstanceSizeLabelKey = Some {[ "large"%string ]}) /\
  (name = "metal"%string ->
     requirements !! V1alpha1.InstanceFamilyLabelKey = None /\
     requirements !! V1alpha1.InstanceSizeLabelKey = None).
Proof.
  intros name requirements.
  destruct (literal_no_family_size i) as [Hf Hs].
  assert (Hone : forall family size,
     name = family +:+ "." +:+ size ->
     count_byte family "." = 0%nat -> count_byte size "." = 0%nat ->
     requirements !! V1alpha1.InstanceFamilyLabelKey = Some {[ family ]} /\
     requirements !! V1alpha1.InstanceSizeLabelKey = Some {[ size ]}).
  { intros family size Hname Hfam Hsize. unfold requirements, computeRequirements.
    rewrite !gpuLabels_other by not_gpu_key.
    apply instanceTypeLabels_two_parts; try done.
    fold name. rewrite Hname.
    change (family +:+ "." +:+ size) with (family +:+ String "." size).
    rewrite Split_at_separator, Split_no_separator by done. reflexivity. }
  assert (Hnone : count_byte name "." <> 1%nat ->
     requirements !! V1alpha1.InstanceFamilyLabelKey = None /\
     requirements !! V1alpha1.InstanceSizeLabelKey = None).
  { intros Hcount. unfold requirements, computeRequirements.
    rewrite !gpuLabels_other by not_gpu_key.
    rewrite instanceTypeLabels_other_parts; [done|].
    rewrite Split_length. fold name. lia. }
  split; [exact Hone|]. split; [exact Hnone|]. split.
  - intros Hname. apply (Hone "m5"%string "large"%string); [exact Hname|reflexivity..].
  - intros Hname. apply Hnone. rewrite Hname. simpl. lia.
Qed.

Lemma C6_family_size_witness :
  computeRequirements example_ext (example_instance "m5.large" 2 8192 None)
    !! V1alpha1.InstanceFamilyLabelKey = Some {[ "m5"%string ]} /\
  computeRequirements example_ext (example_instance "metal" 2 8192 None)
    !! V1alpha1.InstanceFamilyLabelKey = None.
Proof.
  split.
  - pose proof (C6_family_size example_ext (example_instance "m5.large" 2 8192 None))
      as (_ & _ & Hm5 & _).
    apply Hm5. reflexivity.
  - pose proof (C6_family_size example_ext (example_instance "metal" 2 8192 None))
      as (_ & Hnone & _).
    apply Hnone. simpl. lia.
Defined.

(** The statement of the document fails on a name with two separators:
    cut at its first separator "a.b.c" has the two parts "a" and "b.c", and
    the code gives it no family label. *)
Lemma C6_counterexample :
  ~ doc_family_size_statement example_ext (example_instance "a.b.c" 2 8192 None).
Proof.
  unfold doc_family_size_statement. simpl doc_cut_first.
  intros [Hfamily _].
  assert (Hnone : computeRequirements example_ext (example_instance "a.b.c" 2 8192 None)
                    !! V1alpha1.InstanceFamilyLabelKey = None).
  { unfold computeRequirements.
    rewrite gpuLabels_other by not_gpu_key.
    rewrite instanceTypeLabels_other_parts; [apply literal_no_family_size|].
    simpl. lia. }
  rewrite Hnone in Hfamily. discriminate.
Qed.

(** ** [lowerKabobCase] *)

Lemma ReplaceAll_isASCII (s : string) (new : ascii) (old : ascii) :
  Strings.isASCII_byte new = true ->
  Strings.isASCII s = true -> Strings.isASCII (Strings.ReplaceAll s old new) = true.
Proof.
  intros Hnew. induction s as [|c s IH]; simpl; [done|].
  intros [Hc Hs]%andb_prop. rewrite IH by done.
  destruct (Ascii.eqb c old); rewrite ?Hnew, ?Hc; reflexivity.
Qed.

Lemma lower_byte_replace (c : ascii) :
  Strings.lower_byte (if Ascii.eqb c " " then "-"%char else c)
  = if Ascii.eqb (Strings.lower_byte c) " " then "-"%char else Strings.lower_byte c.
Proof. destruct c as [[] [] [] [] [] [] [] []]; reflexivity. Qed.

Lemma lower_bytes_ReplaceAll (s : string) :
  Strings.lower_bytes (Strings.ReplaceAll s " " "-")
  = Strings.ReplaceAll (Strings.lower_bytes s) " " "-".
Proof.
  induction s as [|c s IH]; simpl; [reflexivity|].
  rewrite lower_byte_replace, IH. reflexivity.
Qed.

(** On ASCII input the two steps commute: lower-casing and replacing the
    spaces may be read in either order. *)
Lemma lowerKabobCase_ascii (ext : Collaborators) (s : string) :
  Strings.isASCII s = true ->
  lowerKabobCase ext s = Strings.ReplaceAll (Strings.lower_bytes s) " " "-".
Proof.
  intros Hs. unfold lowerKabobCase, Strings.ToLower.
  rewrite ReplaceAll_isASCII by done. apply lower_bytes_ReplaceAll.
Qed.

(** ** GPU labels *)

Lemma gpuLabels_single (ext : Collaborators) (i : InstanceType)
    (requirements : gmap string (gset string)) (gpu : GpuDeviceInfo) :
  GpuInfo_Gpus (info i) = Some [gpu] ->
  Forall (fun key => requirements !! key = None) gpu_label_keys ->
  let result := computeRequirements_gpuLabels ext i requirements in
  result !! V1alpha1.InstanceGPUNameLabelKey
    = Some {[ lowerKabobCase ext (gpu_Name gpu) ]} /\
  result !! V1alpha1.InstanceGPUManufacturerLabelKey
    = Some {[ lowerKabobCase ext (gpu_Manufacturer gpu) ]} /\
  result !! V1alpha1.InstanceGPUCountLabelKey
    = Some {[ Fmt.Sprint_int (default 0 (gpu_Count gpu)) ]} /\
  result !! V1alpha1.InstanceGPUMemoryLabelKey
    = Some {[ Fmt.Sprint_int (gpu_MemoryInfo_SizeInMiB gpu) ]}.
Proof.
  intros Hgpus Hfresh result. subst result.
  unfold computeRequirements_gpuLabels. rewrite Hgpus.
  unfold gpu_label_keys in Hfresh.
  apply Forall_cons in Hfresh as [H1 Hfresh]. apply Forall_cons in Hfresh as [H2 Hfresh].
  apply Forall_cons in Hfresh as [H3 Hfresh]. apply Forall_cons in Hfresh as [H4 _].
  rewrite !lookup_Requirements_Add_fresh by done.
  lookup_simpl. rewrite !NewSet_singleton. done.
Qed.

Lemma gpuLabels_not_single (ext : Collaborators) (i : InstanceType)
    (requirements : gmap string (gset string)) :
  length (gpus_of i) <> 1%nat ->
  computeRequirements_gpuLabels ext i requirements = requirements.
Proof.
  unfold gpus_of, computeRequirements_gpuLabels.
  destruct (GpuInfo_Gpus (info i)) as [[|gpu [|]]|]; simpl; try reflexivity.
  congruence.
Qed.

Lemma before_gpuLabels_absent (ext : Collaborators) (i : InstanceType) :
  Forall (fun key =>
            computeRequirements_instanceTypeLabels ext i (computeRequirements_literal i)
              !! key = None) gpu_label_keys.
Proof.
  unfold gpu_label_keys.
  repeat constructor;
    (rewrite instanceTypeLabels_other by key_ne;
     unfold computeRequirements_literal; lookup_simpl; reflexivity).
Qed.

Lemma gpu_labels_absent_not_single (ext : Collaborators) (i : InstanceType) :
  length (gpus_of i) <> 1%nat -> gpu_labels_absent ext i.
Proof.
  intros Hlen. unfold gpu_labels_absent, computeRequirements.
  rewrite gpuLabels_not_single by done. apply before_gpuLabels_absent.
Qed.

Lemma doc_gpu_models_short (i : InstanceType) :
  (length (gpus_of i) <= 1)%nat -> (size (doc_gpu_models i) <= 1)%nat.
Proof.
  unfold doc_gpu_models. destruct (gpus_of i) as [|gpu [|]]; cbn [map length]; intros Hlen.
  - rewrite list_to_set_nil, size_empty. lia.
  - rewrite list_to_set_cons, list_to_set_nil, (right_id_L ∅ (∪)), size_singleton. lia.
  - lia.
Qed.

(** C4, as the code has it.  The four GPU labels are in the requirements
    exactly when the GPU descriptor list of the metadata has exactly one
    entry; metadata with several distinct GPU models has none of them.  For a
    single descriptor the name and manufacturer labels are the raw strings
    with the spaces replaced by hyphens and lower-cased (on ASCII text, in
    either order), the count and memory labels are the decimal numerals
    (an absent count reads as 0); "A100" and "NVIDIA" give "a100" and
    "nvidia". *)
Theorem C4_gpu_labels (ext : Collaborators) (i : InstanceType) :
  let requirements := computeRequirements ext i in
  (forall gpu, GpuInfo_Gpus (info i) = Some [gpu] ->
     requirements !! V1alpha1.InstanceGPUNameLabelKey
       = Some {[ lowerKabobCase ext (gpu_Name gpu) ]} /\
     requirements !! V1alpha1.InstanceGPUManufacturerLabelKey
       = Some {[ lowerKabobCase ext (gpu_Manufacturer gpu) ]} /\
     requirements !! V1alpha1.InstanceGPUCountLabelKey
       = Some {[ Fmt.Sprint_int (default 0 (gpu_Count gpu)) ]} /\
     requirements !! V1alpha1.InstanceGPUMemoryLabelKey
       = Some {[ Fmt.Sprint_int (gpu_MemoryInfo_SizeInMiB gpu) ]}) /\
  (gpu_labels_present ext i <-> length (gpus_of i) = 1%nat) /\
  (length (gpus_of i) <> 1%nat -> gpu_labels_absent ext i) /\
  ((1 < size (doc_gpu_models i))%nat -> gpu_labels_absent ext i) /\
  (forall s, Strings.isASCII s = true ->
     lowerKabobCase ext s = Strings.ReplaceAll (Strings.lower_bytes s) " " "-") /\
  lowerKabobCase ext "A100" = "a100"%string /\
  lowerKabobCase ext "NVIDIA" = "nvidia"%string /\
  Fmt.Sprint_int 8 = "8"%string.
Proof.
  intros requirements.
  assert (Hsingle : forall gpu, GpuInfo_Gpus (info i) = Some [gpu] ->
     requirements !! V1alpha1.InstanceGPUNameLabelKey
       = Some {[ lowerKabobCase ext (gpu_Name gpu) ]} /\
     requirements !! V1alpha1.InstanceGPUManufacturerLabelKey
       = Some {[ lowerKabobCase ext (gpu_Manufacturer gpu) ]} /\
     requirements !! V1alpha1.InstanceGPUCountLabelKey
       = Some {[ Fmt.Sprint_int (default 0 (gpu_Count gpu)) ]} /\
     requirements !! V1alpha1.InstanceGPUMemoryLabelKey
       = Some {[ Fmt.Sprint_int (gpu_MemoryInfo_SizeInMiB gpu) ]}).
  { intros gpu Hgpu. apply gpuLabels_single; [exact Hgpu|apply before_gpuLabels_absent]. }
  split; [exact Hsingle|]. split; [|split; [|split]].
  - split.
    + intros Hpresent.
      destruct (decide (length (gpus_of i) = 1%nat)) as [|Hne]; [done|].
      pose proof (gpu_labels_absent_not_single ext i Hne) as Habsent.
      unfold gpu_labels_present, gpu_labels_absent, gpu_label_keys in *.
      apply Forall_cons in Hpresent as [[x Hx] _].
      apply Forall_cons in Habsent as [Hnone _]. congruence.
    + intros Hlen. unfold gpus_of in Hlen.
      destruct (GpuInfo_Gpus (info i)) as [[|gpu [|]]|] eqn:Hgpus; try discriminate.
      destruct (Hsingle gpu eq_refl) as (H1 & H2 & H3 & H4).
      unfold gpu_labels_present, gpu_label_keys.
      repeat constructor; eauto.
  - apply gpu_labels_absent_not_single.
  - intros Hmodels. apply gpu_labels_absent_not_single.
    intros Hlen. pose proof (doc_gpu_models_short i). lia.
  - split; [apply lowerKabobCase_ascii|]. repeat split; reflexivity.
Qed.

Lemma C4_gpu_labels_witness :
  computeRequirements example_ext
    (example_instance "p4d.24xlarge" 96 1179648 (Some [example_a100]))
    !! V1alpha1.InstanceGPUNameLabelKey = Some {[ "a100"%string ]}.
Proof.
  pose proof (C4_gpu_labels example_ext
                (example_instance "p4d.24xlarge" 96 1179648 (Some [example_a100])))
    as (Hsingle & _).
  destruct (Hsingle example_a100 eq_refl) as (Hname & _).
  exact Hname.
Defined.

(** The statement of the document fails on metadata that lists the same GPU
    model in two descriptors: one distinct model, and no GPU label. *)
Lemma C4_counterexample :
  ~ doc_gpu_labels_statement example_ext
      (example_instance "p4d.24xlarge" 96 1179648 (Some [example_a100; example_a100])).
Proof.
  intros [[_ Hpresent] _].
  assert (Hone : size (doc_gpu_models
            (example_instance "p4d.24xlarge" 96 1179648 (Some [example_a100; example_a100])))
          = 1%nat).
  { change (doc_gpu_models _) with
      (list_to_set [("NVIDIA", "A100"); ("NVIDIA", "A100")]%string : gset (string * string)).
    rewrite !list_to_set_cons, list_to_set_nil, (right_id_L ∅ (∪)), (idemp_L (∪)).
    apply size_singleton. }
  specialize (Hpresent Hone).
  pose proof (gpu_labels_absent_not_single example_ext
    (example_instance "p4d.24xlarge" 96 1179648 (Some [example_a100; example_a100]))
    ltac:(simpl; lia)) as Habsent.
  unfold gpu_labels_present, gpu_labels_absent, gpu_label_keys in *.
  apply Forall_cons in Hpresent as [[x Hx] _].
  apply Forall_cons in Habsent as [Hnone _]. congruence.
Qed.

(** ** binary64: rounding *)

Lemma digits2_pos_log2 (p : positive) :
  Z.pos (digits2_pos p) = Z.log2 (Z.pos p) + 1.
Proof.
  induction p as [p IH | p IH |]; simpl digits2_pos.
  - rewrite Pos2Z.inj_succ, IH. 
    change (Z.pos p~1) with (2 * Z.pos p + 1).
    rewrite Z.log2_succ_double by lia. lia.
  - rewrite Pos2Z.inj_succ, IH.
    change (Z.pos p~0) with (2 * Z.pos p).
    rewrite Z.log2_double by lia. lia.
  - reflexivity.
Qed.

Lemma digits2_pos_bounds (p : positive) :
  2 ^ (Z.pos (digits2_pos p) - 1) <= Z.pos p < 2 ^ Z.pos (digits2_pos p).
Proof.
  rewrite digits2_pos_log2.
  replace (Z.log2 (Z.pos p) + 1 - 1) with (Z.log2 (Z.pos p)) by lia.
  replace (Z.log2 (Z.pos p) + 1) with (Z.succ (Z.log2 (Z.pos p))) by lia.
  apply Z.log2_spec. lia.
Qed.

Lemma digits2_pos_unique (p : positive) (d : Z) :
  2 ^ (d - 1) <= Z.pos p < 2 ^ d -> Z.pos (digits2_pos p) = d.
Proof.
  intros H. rewrite digits2_pos_log2.
  assert (0 < d).
  { destruct (Z_lt_le_dec 0 d) as [|Hd]; [lia|].
    destruct H as [_ H]. 
    assert (2 ^ d <= 2 ^ 0) by (apply Z.pow_le_mono_r; lia).
    change (2 ^ 0) with 1 in *. lia. }
  assert (Z.log2 (Z.pos p) = d - 1); [|lia].
  apply Z.log2_unique; [lia|].
  replace (Z.succ (d - 1)) with d by lia. exact H.
Qed.

Lemma iter_pos_nat {A} (f : A -> A) (p : positive) (x : A) :
  SpecFloat.iter_pos f p x = Nat.iter (Pos.to_nat p) f x.
Proof.
  revert x. induction p as [p IH | p IH |]; intros x; simpl SpecFloat.iter_pos.
  - rewrite !IH, Pos2Nat.inj_xI.
    replace (S (2 * Pos.to_nat p))%nat with (Pos.to_nat p + (Pos.to_nat p + 1))%nat by lia.
    rewrite !Nat.iter_add. reflexivity.
  - rewrite !IH, Pos2Nat.inj_xO.
    replace (2 * Pos.to_nat p)%nat with (Pos.to_nat p + Pos.to_nat p)%nat by lia.
    rewrite Nat.iter_add. reflexivity.
  - reflexivity.
Qed.

Lemma shr_1_nonneg (m : Z) (r s : bool) :
  0 <= m ->
  shr_1 (Build_shr_record m r s) = Build_shr_record (m / 2) (Z.odd m) (r || s).
Proof.
  intros Hm. destruct m as [|p|p]; [reflexivity| |lia].
  destruct p as [p|p|]; unfold shr_1.
  - f_equal. change (Z.pos p~1) with (2 * Z.pos p + 1).
    rewrite Z.mul_comm, Z.div_add_l by lia. reflexivity.
  - f_equal. change (Z.pos p~0) with (2 * Z.pos p).
    rewrite Z.mul_comm, Z.div_mul by lia. reflexivity.
  - reflexivity.
Qed.

Lemma shr_iter_inv (N : Z) (k : nat) :
  0 <= N -> shr_inv N k (Nat.iter k shr_1 (Build_shr_record N false false)).
Proof.
  intros HN. induction k as [|k IH].
  - simpl. split; [simpl; rewrite Z.div_1_r; done|].
    exists 0. simpl. rewrite Z.mod_1_r. repeat split; lia.
  - rewrite Nat.iter_succ.
    destruct (Nat.iter k shr_1 _) as [m r s].
    destruct IH as [Hm (t & Hmod & Ht & Hs)]. cbn [shr_m shr_r shr_s] in *.
    assert (Hk : 0 < 2 ^ Z.of_nat k) by (apply Z.pow_pos_nonneg; lia).
    assert (Hm0 : 0 <= m) by (subst m; apply Z.div_pos; lia).
    rewrite shr_1_nonneg by done. unfold shr_inv.
    replace (Z.of_nat (S k)) with (Z.of_nat k + 1) by lia.
    assert (Hpow : 2 ^ (Z.of_nat k + 1) = 2 * 2 ^ Z.of_nat k).
    { rewrite Z.pow_add_r by lia. lia. }
    split; cbn [shr_m shr_r shr_s].
    + rewrite Hm, Hpow, Z.div_div by lia. f_equal. lia.
    + exists (2 * (N mod 2 ^ Z.of_nat k)).
      assert (Hdm := Z.div_mod N (2 ^ Z.of_nat k) ltac:(lia)).
      assert (Hmb := Z.mod_pos_bound N (2 ^ Z.of_nat k) ltac:(lia)).
      assert (Hodd : m = 2 * (m / 2) + (if Z.odd m then 1 else 0)).
      { rewrite <- Zmod_odd. apply Z.div_mod. lia. }
      assert (Hstep : N mod (2 * 2 ^ Z.of_nat k)
                      = (if Z.odd m then 2 ^ Z.of_nat k else 0) + N mod 2 ^ Z.of_nat k).
      { rewrite <- Hm in *.
        symmetry. destruct (Z.odd m);
          (apply Z.mod_unique_pos with (q := m / 2); [lia|]);
          generalize dependent (m / 2); intros; nia. }
      rewrite Hpow, Hstep.
      split; [destruct (Z.odd m); lia|]. split; [lia|].
      split.
      * intros Hrs. apply orb_false_elim in Hrs as [-> ->].
        destruct Hs as [Hs _]. rewrite Hs in Hmod by done. lia.
      * intros H0. destruct r; [lia|]. simpl. apply Hs. lia.
Qed.

Lemma round_nearest_even_inv (N : Z) (k : nat) (mrs : shr_record) :
  shr_inv N k mrs ->
  let q' := round_nearest_even (shr_m mrs) (loc_of_shr_record mrs) in
  (q' = N / 2 ^ Z.of_nat k \/ q' = N / 2 ^ Z.of_nat k + 1) /\
  - 2 ^ Z.of_nat k <= 2 * (N - q' * 2 ^ Z.of_nat k) <= 2 ^ Z.of_nat k /\
  (N mod 2 ^ Z.of_nat k = 0 -> q' = N / 2 ^ Z.of_nat k).
Proof.
  intros [Hm (t & Hmod & Ht & Hs)] q'.
  assert (Hk : 0 < 2 ^ Z.of_nat k) by (apply Z.pow_pos_nonneg; lia).
  assert (Hdm := Z.div_mod N (2 ^ Z.of_nat k) ltac:(lia)).
  assert (Hmb := Z.mod_pos_bound N (2 ^ Z.of_nat k) ltac:(lia)).
  destruct mrs as [m r s]. cbn [shr_m shr_r shr_s] in *. subst m.
  set (q := N / 2 ^ Z.of_nat k) in *.
  assert (Hs' : s = true -> 0 < t).
  { intros ->. destruct (Z.eq_dec t 0) as [H0|]; [|lia].
    apply Hs in H0. discriminate. }
  subst q'. unfold loc_of_shr_record, round_nearest_even. to_BinInt.
  destruct r, s; try destruct (Z.even q);
    try specialize (Hs' eq_refl);
    try (assert (t = 0) by (apply Hs; reflexivity));
    (split; [lia|split; [nia|intros; nia]]).
Qed.

Lemma div_pow2_bounds (N d k : Z) :
  0 <= k -> k < d -> 2 ^ (d - 1) <= N < 2 ^ d ->
  2 ^ (d - 1 - k) <= N / 2 ^ k < 2 ^ (d - k).
Proof.
  intros Hk Hd [H1 H2].
  assert (0 < 2 ^ k) by (apply Z.pow_pos_nonneg; lia).
  split.
  - apply Z.div_le_lower_bound; [lia|].
    rewrite <- Z.pow_add_r by lia. replace (k + (d - 1 - k)) with (d - 1) by lia. done.
  - apply Z.div_lt_upper_bound; [lia|].
    rewrite <- Z.pow_add_r by lia. replace (k + (d - k)) with d by lia. done.
Qed.

Lemma binary_round_aux_exact (s : bool) (N : positive) (E : Z) :
  Z.pos (digits2_pos N) <= 53 ->
  -1074 <= Z.pos (digits2_pos N) + E - 53 ->
  E <= 971 ->
  binary_round_aux 53 1024 s (Z.pos N) E loc_Exact = S754_finite s N E.
Proof.
  intros Hd Hlo Hhi.
  unfold binary_round_aux, shr_fexp, fexp, Zdigits2.
  change (emin 53 1024) with (-1074). to_BinInt.
  rewrite Z.max_l by lia.
  assert (Hshr : forall mrs, shr mrs E (Z.pos (digits2_pos N) + E - 53 - E) = (mrs, E)).
  { intros mrs. unfold shr.
    destruct (Z.pos (digits2_pos N) + E - 53 - E) eqn:Hk; try reflexivity. lia. }
  rewrite Hshr. cbn [shr_record_of_loc shr_m loc_of_shr_record round_nearest_even].
  to_BinInt.
  rewrite Z.max_l by lia. rewrite Hshr. cbn [shr_record_of_loc shr_m].
  destruct (Z.leb_spec E (1024 - 53)); [reflexivity|lia].
Qed.

Lemma binary_round_aux_round (s : bool) (N : positive) (E : Z) :
  let d := Z.pos (digits2_pos N) in
  let k := d - 53 in
  0 < k ->
  -1074 <= E + k ->
  E + k + 1 <= 971 ->
  exists (m : positive) (c : Z),
    binary_round_aux 53 1024 s (Z.pos N) E loc_Exact = S754_finite s m (E + k + c) /\
    0 <= c <= 1 /\
    2 ^ 52 <= Z.pos m < 2 ^ 53 /\
    - 2 ^ k <= 2 * (Z.pos N - Z.pos m * 2 ^ c * 2 ^ k) <= 2 ^ k /\
    (Z.pos N mod 2 ^ k = 0 -> Z.pos m * 2 ^ c = Z.pos N / 2 ^ k).
Proof.
  intros d k Hk Hlo Hhi.
  unfold binary_round_aux, shr_fexp at 1, fexp, Zdigits2.
  change (emin 53 1024) with (-1074). to_BinInt. fold d.
  rewrite Z.max_l by lia.
  replace (d + E - 53 - E) with k by lia.
  destruct k as [|kp|kp] eqn:Ekp; try lia.
  unfold shr. rewrite iter_pos_nat.
  cbn [shr_record_of_loc].
  pose proof (shr_iter_inv (Z.pos N) (Pos.to_nat kp) ltac:(lia)) as Hinv.
  destruct (round_nearest_even_inv _ _ _ Hinv) as (Hq' & Hbound & Hexact).
  rewrite positive_nat_Z in Hq', Hbound, Hexact.
  set (q' := round_nearest_even _ _) in *.
  pose proof (digits2_pos_bounds N) as HN. fold d in HN.
  pose proof (div_pow2_bounds (Z.pos N) d (Z.pos kp) ltac:(lia) ltac:(lia) HN) as Hq.
  replace (d - 1 - Z.pos kp) with 52 in Hq by lia.
  replace (d - Z.pos kp) with 53 in Hq by lia.
  assert (Hq'pos : 2 ^ 52 <= q' <= 2 ^ 53) by lia.
  destruct q' as [|qp|qp] eqn:Eq'; try lia.
  destruct (Z.eq_dec (Z.pos qp) (2 ^ 53)) as [Hcarry|Hnc].
  - exists (4503599627370496%positive), 1.
    assert (qp = 9007199254740992%positive) as -> by (change (2^53) with 9007199254740992 in Hcarry; lia).
    unfold shr_fexp, fexp, Zdigits2.
    change (emin 53 1024) with (-1074). to_BinInt.
    change (Z.pos (digits2_pos 9007199254740992)) with 54.
    rewrite Z.max_l by lia.
    replace (54 + (E + Z.pos kp) - 53 - (E + Z.pos kp)) with 1 by lia.
    cbn [shr shr_record_of_loc SpecFloat.iter_pos shr_1 shr_m].
    destruct (Z.leb_spec (E + Z.pos kp + 1) (1024 - 53)); [|lia].
    split; [reflexivity|]. 
    change (2 ^ 52) with 4503599627370496. change (2 ^ 53) with 9007199254740992.
    change (2 ^ 1) with 2.
    repeat split; intros; lia.
  - exists qp, 0.
    assert (Hdq : Z.pos (digits2_pos qp) = 53) by (apply digits2_pos_unique; lia).
    unfold shr_fexp, fexp, Zdigits2.
    change (emin 53 1024) with (-1074). to_BinInt. rewrite Hdq.
    rewrite Z.max_l by lia.
    replace (53 + (E + Z.pos kp) - 53 - (E + Z.pos kp)) with 0 by lia.
    cbn [shr shr_record_of_loc shr_m].
    destruct (Z.leb_spec (E + Z.pos kp) (1024 - 53)); [|lia].
    rewrite Z.add_0_r. split; [reflexivity|].
    change (2 ^ 0) with 1. rewrite !Z.mul_1_r.
    repeat split; intros; lia.
Qed.

Lemma Pos_iter_xO (m p : positive) : Z.pos (Pos.iter xO m p) = Z.pos m * 2 ^ Z.pos p.
Proof.
  induction p as [|p IH] using Pos.peano_ind.
  - cbn [Pos.iter]. change (2 ^ 1) with 2. lia.
  - rewrite Pos.iter_succ, Pos2Z.inj_xO, IH, Pos2Z.inj_succ, Z.pow_succ_r by lia. lia.
Qed.

Lemma digits2_pos_le (n : positive) (L : Z) :
  Z.pos n < 2 ^ L -> Z.pos (digits2_pos n) <= L.
Proof.
  intros Hn. pose proof (digits2_pos_bounds n) as [Hlo _].
  destruct (Z_le_gt_dec (Z.pos (digits2_pos n)) L) as [|Hgt]; [done|].
  assert (2 ^ L <= 2 ^ (Z.pos (digits2_pos n) - 1)); [|lia].
  destruct (Z_lt_le_dec L 0).
  - rewrite Z.pow_neg_r by lia. apply Z.pow_nonneg. lia.
  - apply Z.pow_le_mono_r; lia.
Qed.

(** [float64(n)] of a positive integer of at most 53 bits is exact: the
    mantissa is [n] shifted left to 53 bits. *)
Lemma f64_of_int_pos (n : positive) :
  let d := Z.pos (digits2_pos n) in
  d <= 53 ->
  exists mx : positive,
    f64_of_int (Z.pos n) = S754_finite false mx (d - 53) /\
    Z.pos mx = Z.pos n * 2 ^ (53 - d) /\
    2 ^ 52 <= Z.pos mx < 2 ^ 53.
Proof.
  intros d Hd.
  unfold f64_of_int, binary_normalize, binary_round, shl_align, fexp.
  change (emin 53 1024) with (-1074). to_BinInt. fold d.
  rewrite Z.add_0_r, Z.max_l, Z.sub_0_r by lia.
  pose proof (digits2_pos_bounds n) as Hn. fold d in Hn.
  assert (Hmx : forall mx : positive,
             Z.pos mx = Z.pos n * 2 ^ (53 - d) -> 2 ^ 52 <= Z.pos mx < 2 ^ 53).
  { intros mx ->.
    assert (H52 : 2 ^ 52 = 2 ^ (d - 1) * 2 ^ (53 - d)).
    { rewrite <- Z.pow_add_r by lia. f_equal. lia. }
    assert (H53 : 2 ^ 53 = 2 ^ d * 2 ^ (53 - d)).
    { rewrite <- Z.pow_add_r by lia. f_equal. lia. }
    assert (0 < 2 ^ (53 - d)) by (apply Z.pow_pos_nonneg; lia).
    rewrite H52, H53. split; nia. }
  destruct (d - 53) as [|p|p] eqn:Hp; try lia.
  - exists n. replace (53 - d) with 0 in * by lia.
    assert (Hn' : Z.pos n = Z.pos n * 2 ^ 0) by (change (2 ^ 0) with 1; lia).
    split; [|split; [exact Hn'|exact (Hmx n Hn')]].
    apply binary_round_aux_exact; fold d; lia.
  - exists (Pos.iter xO n p).
    assert (Hn' : Z.pos (Pos.iter xO n p) = Z.pos n * 2 ^ (53 - d)).
    { rewrite Pos_iter_xO. f_equal. f_equal. lia. }
    pose proof (Hmx _ Hn') as Hb.
    split; [|split; [exact Hn'|exact Hb]].
    apply binary_round_aux_exact.
    + rewrite (digits2_pos_unique _ 53); [lia|]. exact Hb.
    + rewrite (digits2_pos_unique _ 53); [lia|]. exact Hb.
    + lia.
Qed.

Lemma trunc_arith (n A C P Kp T cc m a b delta : Z) :
  0 < n -> 0 < A -> 0 < P -> 0 < Kp -> 0 < T -> 0 < cc ->
  A * P = Kp * (cc * T) ->
  Kp <= 2 ^ 53 -> n * A < 2 ^ 53 ->
  2 ^ 52 * (2 * delta + b) < A * P ->
  0 < b -> 0 <= a -> 0 <= delta ->
  b * C = a * P + delta ->
  - Kp <= 2 * (n * A * C - m * cc * Kp) <= Kp ->
  m / T = n * a / b.
Proof.
  intros Hn HA HP HKp HT Hcc HAP HKp53 HnA Hmargin Hb Ha Hdelta Hab Hround.
  change (2 ^ 53) with (2 * 4503599627370496) in *.
  change (2 ^ 52) with 4503599627370496 in *.
  set (K := n * a / b).
  assert (HK : b * K <= n * a <= b * K + b - 1).
  { unfold K. pose proof (Z.div_mod (n * a) b ltac:(lia)).
    pose proof (Z.mod_pos_bound (n * a) b ltac:(lia)). lia. }
  clearbody K.
  set (X := n * A) in *.
  assert (HX : 0 < X) by (unfold X; nia).
  set (S := A * P) in *.
  assert (HS : 0 < S) by (unfold S; nia).
  assert (HbN : b * (X * C) = n * a * S + X * delta).
  { unfold X, S. replace (b * (n * A * C)) with (n * A * (b * C)) by ring. rewrite Hab. ring. }
  clearbody X S.
  set (NN := X * C) in *. clearbody NN.
  set (na := n * a) in *. clearbody na.
  assert (HXd : 0 <= X * delta <= 2 * 4503599627370496 * delta) by nia.
  set (Xd := X * delta) in *. clearbody Xd.
  set (W := cc * T) in *.
  assert (HW : 0 < W) by (unfold W; nia).
  replace (m * cc * Kp) with (m * cc * Kp) in Hround by ring.
  set (M := m * cc) in *.
  assert (HbKS : b * K * S <= na * S) by nia.
  assert (HbKS' : na * S <= (b * K + b - 1) * S) by nia.
  set (naS := na * S) in *. clearbody naS.
  (* K * W <= M < (K + 1) * W *)
  assert (Hlow : K * W <= M).
  { assert (b * (K * S) <= b * NN) by lia.
    assert (K * S <= NN) by nia.
    rewrite HAP in *.
    assert (2 * (K * W) * Kp <= 2 * M * Kp + Kp) by lia.
    assert (2 * (K * W) * Kp < (2 * M + 2) * Kp) by lia.
    assert (2 * (K * W) < 2 * M + 2).
    { apply Z.mul_lt_mono_pos_r with (p := Kp); assumption. }
    lia. }
  assert (Hhigh : M < (K + 1) * W).
  { assert (H1 : 2 * b * (M * Kp) <= 2 * (b * NN) + b * Kp) by nia.
    assert (H2 : b * Kp <= 2 * 4503599627370496 * b) by nia.
    assert (H3 : 2 * b * (M * Kp) < 2 * (b * K + b) * S) by lia.
    rewrite HAP in H3.
    assert (H4 : (b * M) * Kp < (b * ((K + 1) * W)) * Kp) by lia.
    apply Z.mul_lt_mono_pos_r in H4; [|assumption].
    apply Z.mul_lt_mono_pos_l in H4; assumption. }
  symmetry. apply Z.div_unique_pos with (r := m - K * T); [|lia].
  unfold M, W in *. nia.
Qed.

(** The integer part of the product of [float64(n)] with a constant
    [C * 2^eC] that lies just above the rational [a/b] is that of
    [n * a / b]. *)
Lemma f64_mul_const_trunc (n C : positive) (eC L a b delta : Z) :
  Z.pos n < 2 ^ L -> 0 < L <= 53 ->
  2 ^ 52 <= Z.pos C < 2 ^ 53 ->
  -1074 <= eC -> L + eC + 1 < 0 ->
  0 < b -> 0 <= a -> 0 <= delta ->
  b * Z.pos C = a * 2 ^ (- eC) + delta ->
  2 * delta + b < 2 ^ (1 - L - eC) ->
  f64_trunc (f64_mul (f64_of_int (Z.pos n)) (S754_finite false C eC))
  = Some (Z.pos n * a / b).
Proof.
  intros Hn HL HC HeC HLe Hb Ha Hdelta Hab Hmargin.
  set (dn := Z.pos (digits2_pos n)).
  assert (Hdn : dn <= L) by (apply digits2_pos_le; done).
  assert (Hdn0 : 0 < dn) by (unfold dn; lia).
  destruct (f64_of_int_pos n ltac:(fold dn; lia)) as (mx & -> & Hmx & Hmxb). fold dn in Hmx.
  unfold f64_mul, SFmul. cbn [xorb]. to_BinInt. fold dn.
  set (N := (mx * C)%positive).
  set (E := dn - 53 + eC).
  assert (HNval : Z.pos N = Z.pos n * 2 ^ (53 - dn) * Z.pos C).
  { unfold N. rewrite Pos2Z.inj_mul, Hmx. reflexivity. }
  assert (HN : 2 ^ 104 <= Z.pos N < 2 ^ 106).
  { unfold N. rewrite Pos2Z.inj_mul.
    change (2 ^ 104) with (2 ^ 52 * 2 ^ 52). change (2 ^ 106) with (2 ^ 53 * 2 ^ 53).
    split; [apply Z.mul_le_mono_nonneg|apply Z.mul_lt_mono_nonneg]; lia. }
  clearbody N.
  set (dN := Z.pos (digits2_pos N)).
  assert (HdN : 105 <= dN <= 106).
  { pose proof (digits2_pos_bounds N) as [H1 H2]. fold dN in H1, H2.
    split.
    - destruct (Z_le_gt_dec 105 dN); [done|].
      assert (2 ^ dN <= 2 ^ 104) by (apply Z.pow_le_mono_r; lia). lia.
    - destruct (Z_le_gt_dec dN 106); [done|].
      assert (2 ^ 106 <= 2 ^ (dN - 1)) by (apply Z.pow_le_mono_r; lia). lia. }
  destruct (binary_round_aux_round false N E) as (m & c & -> & Hc & Hm & Hround & _);
    fold dN; try lia.
  fold dN in Hround. clearbody dN.
  unfold f64_trunc. cbn [cond_Zopp].
  destruct (E + (dN - 53) + c) as [|p|p] eqn:He; try lia.
  f_equal.
  apply trunc_arith with (A := 2 ^ (53 - dn)) (C := Z.pos C) (P := 2 ^ (- eC))
                         (Kp := 2 ^ (dN - 53)) (cc := 2 ^ c) (delta := delta);
    try lia; try (apply Z.pow_pos_nonneg; lia).
  - rewrite <- !Z.pow_add_r by lia. f_equal. lia.
  - apply Z.pow_le_mono_r; lia.
  - assert (2 ^ 52 * 2 ^ (1 - L - eC) <= 2 ^ (53 - dn) * 2 ^ (- eC)).
    { rewrite <- !Z.pow_add_r by lia. apply Z.pow_le_mono_r; lia. }
    assert (0 < 2 ^ 52) by (apply Z.pow_pos_nonneg; lia).
    generalize dependent (2 ^ 52). generalize dependent (2 ^ (1 - L - eC)).
    intros. nia.
Qed.

(** ** Memory *)

Lemma f64_to_int_of_trunc (unrepresentable : Z -> F64 -> Z) (bits : Z) (x : F64) (z : Z) :
  f64_trunc x = Some z -> in_int bits z -> f64_to_int unrepresentable bits x = z.
Proof.
  intros Hx Hz. unfold f64_to_int. rewrite Hx, in_intb_true by done. reflexivity.
Qed.

(** [int32(float64(m) * 0.925)] is the integer part of [m * 925 / 1000], as
    long as that fits [int32]. *)
Lemma memory_conversion (unrepresentable : Z -> F64 -> Z) (m : Z) :
  0 <= m <= 2321603943 ->
  f64_to_int unrepresentable 32 (f64_mul (f64_of_int m) EC2VMAvailableMemoryFactor)
  = m * 925 / 1000.
Proof.
  intros Hm.
  assert (Hdiv : m * 925 / 1000 = m * 37 / 40).
  { replace (m * 925) with (m * 37 * 25) by ring.
    change 1000 with (40 * 25). apply Z.div_mul_cancel_r; lia. }
  rewrite Hdiv.
  destruct m as [|n|n]; [reflexivity| |lia].
  apply f64_to_int_of_trunc.
  - unfold EC2VMAvailableMemoryFactor.
    apply (f64_mul_const_trunc n 8331659310635418 (-53) 32 37 40 16);
      first [lia | reflexivity | vm_compute; split; congruence
            | change (2 ^ 32) with 4294967296; lia].
  - unfold in_int. change (2 ^ (32 - 1)) with 2147483648.
    assert (0 <= Z.pos n * 37 / 40) by (apply Z.div_pos; lia).
    assert (Z.pos n * 37 / 40 < 2147483648) by (apply Z.div_lt_upper_bound; lia).
    lia.
Qed.



(** ** CPU overhead *)

Lemma MilliValue_cpu (ext : Collaborators) (i : InstanceType) :
  in_int 64 (1000 * VCpuInfo_DefaultVCpus (info i)) ->
  Resource.MilliValue (MilliValue_overflow ext) (cpu i)
  = 1000 * VCpuInfo_DefaultVCpus (info i).
Proof.
  intros H. unfold Resource.MilliValue, cpu, Resource.OfInt. cbn [milli].
  rewrite in_intb_true by done. reflexivity.
Qed.

(** The first three bands see a width of 0, 1000 or 2000 milli-CPU only,
    since the total is a whole number of CPUs. *)
Lemma band_0_1000 (unrepresentable : Z -> F64 -> Z) (v : Z) :
  0 <= 1000 * v ->
  f64_to_int unrepresentable 64
    (f64_mul (if 1000 * v <? 1000
              then f64_of_int (wrap64 (1000 * v - 0))
              else f64_of_int (wrap64 (1000 - 0))) percentage_0_06)
  = (Z.min (1000 * v) 1000 - 0) * 6 / 100.
Proof.
  intros Hv. destruct (Z.ltb_spec (1000 * v) 1000).
  - assert (v = 0) as -> by lia. reflexivity.
  - rewrite Z.min_r by lia. reflexivity.
Qed.

Lemma band_1000_2000 (unrepresentable : Z -> F64 -> Z) (v : Z) :
  1000 <= 1000 * v ->
  f64_to_int unrepresentable 64
    (f64_mul (if 1000 * v <? 2000
              then f64_of_int (wrap64 (1000 * v - 1000))
              else f64_of_int (wrap64 (2000 - 1000))) percentage_0_01)
  = (Z.min (1000 * v) 2000 - 1000) * 1 / 100.
Proof.
  intros Hv. destruct (Z.ltb_spec (1000 * v) 2000).
  - assert (v = 1) as -> by lia. reflexivity.
  - rewrite Z.min_r by lia. reflexivity.
Qed.

Lemma band_2000_4000 (unrepresentable : Z -> F64 -> Z) (v : Z) :
  2000 <= 1000 * v ->
  f64_to_int unrepresentable 64
    (f64_mul (if 1000 * v <? 4000
              then f64_of_int (wrap64 (1000 * v - 2000))
              else f64_of_int (wrap64 (4000 - 2000))) percentage_0_005)
  = (Z.min (1000 * v) 4000 - 2000) * 5 / 1000.
Proof.
  intros Hv. destruct (Z.ltb_spec (1000 * v) 4000).
  - assert (v = 2 \/ v = 3) as [-> | ->] by lia; reflexivity.
  - rewrite Z.min_r by lia. reflexivity.
Qed.

(** The last band: any width below [2^31]. *)
Lemma band_4000_up (unrepresentable : Z -> F64 -> Z) (v : Z) :
  4000 <= 1000 * v -> in_int 64 (1000 * v) ->
  f64_to_int unrepresentable 64
    (f64_mul (if 1000 * v <? 2147483648
              then f64_of_int (wrap64 (1000 * v - 4000))
              else f64_of_int (wrap64 (2147483648 - 4000))) percentage_0_0025)
  = (Z.min (1000 * v) 2147483648 - 4000) * 25 / 10000.
Proof.
  intros Hv Hint. destruct (Z.ltb_spec (1000 * v) 2147483648) as [Hlt|Hge].
  - rewrite Z.min_l by lia.
    set (w := 1000 * v - 4000).
    assert (Hw : 0 <= w < 2147483648) by (unfold w; lia).
    rewrite wrap64_in_range by (unfold in_int; change (2 ^ (64 - 1)) with 9223372036854775808; lia).
    assert (Hdiv : w * 25 / 10000 = w * 1 / 400).
    { replace (w * 25) with (w * 25) by ring.
      change 10000 with (400 * 25). rewrite Z.mul_1_r. apply Z.div_mul_cancel_r; lia. }
    rewrite Hdiv. clearbody w.
    destruct w as [|n|n]; [reflexivity| |lia].
    apply f64_to_int_of_trunc.
    + unfold percentage_0_0025.
      apply (f64_mul_const_trunc n 5764607523034235 (-61) 31 1 400 48);
        first [lia | reflexivity | vm_compute; split; congruence
              | change (2 ^ 31) with 2147483648; lia].
    + unfold in_int. change (2 ^ (64 - 1)) with 9223372036854775808.
      assert (0 <= Z.pos n * 1 / 400) by (apply Z.div_pos; lia).
      assert (Z.pos n * 1 / 400 < 2147483648) by (apply Z.div_lt_upper_bound; lia).
      lia.
  - rewrite Z.min_r by lia. reflexivity.
Qed.

Lemma computeOverhead_turn_cpu (ext : Collaborators) (i : InstanceType)
    (overhead : gmap string Quantity) (m : Z) (range : cpuRange)
    (total contribution : Z) :
  Resource.MilliValue (MilliValue_overflow ext) (cpu i) = total ->
  overhead !! V1.ResourceCPU = Some (mkQuantity m) ->
  (if range_start range <=? total
   then f64_to_int (convert_unrepresentable ext) 64
          (f64_mul (if total <? range_end range
                    then f64_of_int (wrap64 (total - range_start range))
                    else f64_of_int (wrap64 (range_end range - range_start range)))
                   (range_percentage range)) = contribution
   else contribution = 0) ->
  computeOverhead_turn ext i overhead range !! V1.ResourceCPU
  = Some (mkQuantity (m + contribution)).
Proof.
  intros Htotal Hq Hcontribution. unfold computeOverhead_turn.
  rewrite Htotal. destruct (range_start range <=? total).
  - rewrite lookup_insert_eq, Hq. cbn [default]. 
    unfold Resource.Add, Resource.NewMilliQuantity. cbn [milli].
    destruct (total <? range_end range); rewrite Hcontribution; reflexivity.
  - rewrite Hq, Hcontribution. do 2 f_equal. lia.
Qed.

(** The CPU entry of the overhead: 100 milli-units and, band by band, the
    whole part of the band product. *)
Lemma computeOverhead_cpu (ext : Collaborators) (i : InstanceType) :
  let total := 1000 * VCpuInfo_DefaultVCpus (info i) in
  in_int 64 total ->
  computeOverhead ext i !! V1.ResourceCPU
  = Some (mkQuantity
            (fold_left (fun acc band => acc + band_contribution total band) code_bands 100)).
Proof.
  intros total Hint.
  pose proof (MilliValue_cpu ext i Hint) as Htotal. fold total in Htotal.
  unfold computeOverhead, cpuRanges. cbn [fold_left].
  set (v := VCpuInfo_DefaultVCpus (info i)) in *.
  unfold code_bands. cbn [fold_left].
  erewrite (computeOverhead_turn_cpu ext i _ _ (mkRange 4000 _ _) total
              (band_contribution total (4000, 2 ^ 31, 25, 10000))); [|exact Htotal| |].
  - reflexivity.
  - erewrite (computeOverhead_turn_cpu ext i _ _ (mkRange 2000 _ _) total
                (band_contribution total (2000, 4000, 5, 1000))); [|exact Htotal| |].
    + reflexivity.
    + erewrite (computeOverhead_turn_cpu ext i _ _ (mkRange 1000 _ _) total
                  (band_contribution total (1000, 2000, 1, 100))); [|exact Htotal| |].
      * reflexivity.
      * erewrite (computeOverhead_turn_cpu ext i _ 100
                    (mkRange 0 _ _) total
                    (band_contribution total (0, 1000, 6, 100))); [|exact Htotal| |].
        -- reflexivity.
        -- lookup_simpl. reflexivity.
        -- cbn [range_start range_end range_percentage band_contribution].
           destruct (Z.leb_spec 0 total); [|reflexivity].
           apply band_0_1000. done.
      * cbn [range_start range_end range_percentage band_contribution].
        destruct (Z.leb_spec 1000 total); [|reflexivity].
        apply band_1000_2000. done.
    + cbn [range_start range_end range_percentage band_contribution].
      destruct (Z.leb_spec 2000 total); [|reflexivity].
      apply band_2000_4000. done.
  - cbn [range_start range_end range_percentage band_contribution].
    change (Z.shiftl 1 31) with 2147483648. change (2 ^ 31) with 2147483648.
    destruct (Z.leb_spec 4000 total); [|reflexivity].
    apply band_4000_up; done.
Qed.

Lemma band_contribution_above (total : Z) (band : Z * Z * Z * Z) :
  total < fst (fst (fst band)) -> band_contribution total band = 0.
Proof.
  destruct band as [[[band_start band_end] num] den]. cbn [fst band_contribution].
  intros H. destruct (Z.leb_spec band_start total); [lia|reflexivity].
Qed.

(** C1, as the code has it.  The CPU entry of the overhead is 100
    milli-units plus, for each of the four bands (0-1000 at 6%, 1000-2000 at
    1%, 2000-4000 at 0.5%, 4000-2^31 at 0.25%) whose start is at most the
    total milli-CPU (vCPU count times 1000), the whole part of
    [(min(total, band.end) - band.start) * band.rate]; a band that starts
    above the total adds nothing; 2 vCPUs give 170 milli-units. *)
Theorem C1_cpu_overhead (ext : Collaborators) (i : InstanceType) :
  let total := 1000 * VCpuInfo_DefaultVCpus (info i) in
  in_int 64 total ->
  computeOverhead ext i !! V1.ResourceCPU
  = Some (Resource.NewMilliQuantity
            (100 + band_contribution total (0, 1000, 6, 100)
                 + band_contribution total (1000, 2000, 1, 100)
                 + band_contribution total (2000, 4000, 5, 1000)
                 + band_contribution total (4000, 2 ^ 31, 25, 10000))) /\
  (forall band_start band_end num den,
     band_start <= total ->
     band_contribution total (band_start, band_end, num, den)
     = (Z.min total band_end - band_start) * num / den) /\
  (forall band_start band_end num den,
     total < band_start ->
     band_contribution total (band_start, band_end, num, den) = 0) /\
  (VCpuInfo_DefaultVCpus (info i) = 2 ->
   computeOverhead ext i !! V1.ResourceCPU = Some (Resource.NewMilliQuantity 170)).
Proof.
  intros total Hint.
  pose proof (computeOverhead_cpu ext i Hint) as Hcpu. fold total in Hcpu.
  split; [exact Hcpu|]. split; [|split].
  - intros band_start band_end num den H. cbn [band_contribution].
    destruct (Z.leb_spec band_start total); [reflexivity|lia].
  - intros band_start band_end num den H.
    apply (band_contribution_above total (band_start, band_end, num, den)). exact H.
  - intros Hv. rewrite Hcpu. unfold total. rewrite Hv. reflexivity.
Qed.

Lemma C1_cpu_overhead_witness :
  in_int 64 (1000 * 2) /\
  computeOverhead example_ext (example_instance "m5.large" 2 8192 None) !! V1.ResourceCPU
  = Some (Resource.NewMilliQuantity 170).
Proof.
  assert (Hint : in_int 64 (1000 * 2)) by (vm_compute; split; congruence).
  split; [exact Hint|].
  pose proof (C1_cpu_overhead example_ext (example_instance "m5.large" 2 8192 None) Hint)
    as (_ & _ & _ & H170).
  apply H170. reflexivity.
Defined.

(** The statement of the document, which adds the band products as they
    are, fails at 5 vCPUs: the products sum to 182.5 milli-units and the code
    yields 182. *)
Lemma C1_counterexample :
  ~ doc_cpu_overhead_statement example_ext (example_instance "c5.xlarge" 5 8192 None).
Proof.
  intros (q & Hq & Heq).
  rewrite computeOverhead_cpu in Hq by (vm_compute; split; congruence).
  injection Hq as <-. vm_compute in Heq. discriminate Heq.
Qed.

(** ** Truncation of the band products *)

Lemma Qfloor_code_band_product (total : Z) (band : Z * Z * Z * Z) :
  band ∈ code_bands ->
  Qfloor (code_band_product total band) = band_contribution total band.
Proof.
  unfold code_bands. intros Hband.
  repeat (apply elem_of_cons in Hband as [->|Hband]);
    [..|apply elem_of_nil in Hband; done];
    cbn [code_band_product band_contribution];
    match goal with |- context [?s <=? total] => destruct (s <=? total) end;
    reflexivity.
Qed.

Lemma doc_cpu_overhead_truncated_code (total : Z) :
  total < 2 ^ 31 ->
  doc_cpu_overhead_truncated total
  = fold_left (fun acc band => acc + band_contribution total band) code_bands 100.
Proof.
  intros Htotal. unfold doc_cpu_overhead_truncated, doc_bands, code_bands.
  cbn [fold_left doc_band_product band_contribution].
  change (2 ^ 31) with 2147483648 in *.
  rewrite (Z.min_l total 2147483648) by lia.
  destruct (0 <=? total), (1000 <=? total), (2000 <=? total), (4000 <=? total);
    reflexivity.
Qed.

(** C10, as the code has it.  The CPU overhead is a whole number of
    milli-units: the exact product of every band, width times rate, loses its
    fraction before it is added.  With 5 vCPUs the fourth band has the
    product 2.5 and adds 2, and the total is 182 milli-units. *)
Theorem C10_truncation (ext : Collaborators) (i : InstanceType) :
  let total := 1000 * VCpuInfo_DefaultVCpus (info i) in
  in_int 64 total ->
  exists q : Quantity,
    computeOverhead ext i !! V1.ResourceCPU = Some q /\
    milli q
    = fold_left (fun acc band => acc + Qfloor (code_band_product total band)) code_bands 100 /\
    (total < 2 ^ 31 -> milli q = doc_cpu_overhead_truncated total) /\
    (VCpuInfo_DefaultVCpus (info i) = 5 ->
     Qeq (code_band_product total (4000, 2 ^ 31, 25, 10000)) (5 # 2) /\
     Qfloor (code_band_product total (4000, 2 ^ 31, 25, 10000)) = 2 /\
     milli q = 182).
Proof.
  intros total Hint.
  pose proof (computeOverhead_cpu ext i Hint) as Hcpu. fold total in Hcpu.
  eexists. split; [exact Hcpu|]. cbn [milli].
  split; [|split].
  - unfold code_bands. cbn [fold_left].
    rewrite !Qfloor_code_band_product by (unfold code_bands; set_solver).
    reflexivity.
  - intros Htotal. symmetry. apply doc_cpu_overhead_truncated_code. exact Htotal.
  - intros Hv. unfold total. rewrite Hv. repeat split; reflexivity.
Qed.

Lemma C10_truncation_witness :
  in_int 64 (1000 * 5) /\
  exists q : Quantity,
    computeOverhead example_ext (example_instance "c5.xlarge" 5 8192 None) !! V1.ResourceCPU
    = Some q /\ milli q = 182.
Proof.
  assert (Hint : in_int 64 (1000 * 5)) by (vm_compute; split; congruence).
  split; [exact Hint|].
  destruct (C10_truncation example_ext (example_instance "c5.xlarge" 5 8192 None) Hint)
    as (q & Hq & _ & _ & H5).
  exists q. split; [exact Hq|]. apply H5. reflexivity.
Defined.

(** The total that the document gives for 5 vCPUs, 177 milli-units, is not
    what the code yields. *)
Lemma C10_counterexample :
  ~ doc_truncation_statement example_ext (example_instance "c5.xlarge" 5 8192 None).
Proof.
  intros (q & Hq & _ & H177).
  rewrite computeOverhead_cpu in Hq by (vm_compute; split; congruence).
  injection Hq as <-. specialize (H177 eq_refl). vm_compute in H177. discriminate H177.
Qed.

(** ** The price score *)

(** ** binary64: sums and products *)

Lemma pow2_lt_inv (a b : Z) : 0 <= b -> 2 ^ a < 2 ^ b -> a < b.
Proof.
  intros Hb H. destruct (Z_lt_le_dec a b) as [|Hge]; [done|].
  assert (2 ^ b <= 2 ^ a) by (apply Z.pow_le_mono_r; lia). lia.
Qed.

(** Rounding a positive [N * 2^E] of more than 53 bits to binary64: the
    result is within half a unit in the last place, and exact when the value
    fits 53 bits. *)
Lemma round_core (N : positive) (E : Z) :
  let d := Z.pos (digits2_pos N) in
  54 <= d -> -1074 <= E -> E + d <= 1000 ->
  exists m e,
    binary_round_aux 53 1024 false (Z.pos N) E loc_Exact = S754_finite false m e /\
    2 ^ 52 <= Z.pos m < 2 ^ 53 /\ E < e <= E + d - 52 /\
    (let V := Z.pos N * 2 ^ (E + 1074) in
     let R := Z.pos m * 2 ^ (e + 1074) in
     - V <= 2 ^ 53 * (V - R) <= V /\
     (forall A j, 0 <= j -> 0 < A < 2 ^ 53 -> V = A * 2 ^ j -> R = V)).
Proof.
  intros d Hd HE Hhi.
  destruct (binary_round_aux_round false N E) as (m & c & Heq & Hc & Hm & Hround & Hexact);
    fold d; try lia.
  fold d in Heq, Hround, Hexact.
  set (k := d - 53) in *.
  exists m, (E + k + c). split; [exact Heq|]. split; [exact Hm|]. split; [lia|].
  intros V R.
  pose proof (digits2_pos_bounds N) as [HNlo HNhi]. fold d in HNlo, HNhi.
  set (X := 2 ^ (E + 1074)).
  assert (HX : 0 < X) by (apply Z.pow_pos_nonneg; lia).
  assert (HK : 0 < 2 ^ k) by (apply Z.pow_pos_nonneg; lia).
  assert (HC : 0 < 2 ^ c) by (apply Z.pow_pos_nonneg; lia).
  assert (HR : R = Z.pos m * 2 ^ c * 2 ^ k * X).
  { unfold R, X. replace (E + k + c + 1074) with (c + k + (E + 1074)) by lia.
    rewrite !Z.pow_add_r by lia. ring. }
  assert (HVlow : 2 ^ 52 * 2 ^ k * X <= V).
  { unfold V. fold X. apply Z.mul_le_mono_nonneg_r; [lia|].
    rewrite <- Z.pow_add_r by lia. replace (52 + k) with (d - 1) by lia. exact HNlo. }
  split.
  - rewrite HR. unfold V. fold X.
    set (M := Z.pos m * 2 ^ c * 2 ^ k) in *.
    set (D := Z.pos N - M) in *.
    replace (Z.pos N * X - M * X) with (D * X) by (unfold D; ring).
    assert (H1 : - (2 ^ k * X) <= 2 * (D * X) <= 2 ^ k * X).
    { fold M D in Hround.
      replace (2 * (D * X)) with (2 * D * X) by ring.
      replace (- (2 ^ k * X)) with (- 2 ^ k * X) by ring.
      split; apply Z.mul_le_mono_nonneg_r; lia. }
    change (2 ^ 53) with (2 * 2 ^ 52). 
    assert (0 < 2 ^ 52) by (apply Z.pow_pos_nonneg; lia).
    unfold V in HVlow. fold X in HVlow.
    replace (2 ^ 52 * 2 ^ k * X) with (2 ^ 52 * (2 ^ k * X)) in HVlow by ring.
    replace (2 * 2 ^ 52 * (D * X)) with (2 ^ 52 * (2 * (D * X))) by ring.
    generalize dependent (2 ^ 52). generalize dependent (2 ^ k * X).
    generalize dependent (D * X). generalize dependent (Z.pos N * X). clear. intros. nia.
  - intros A j Hj HA HV.
    rewrite HR. unfold V. fold X.
    replace (Z.pos m * 2 ^ c * 2 ^ k * X) with ((Z.pos m * 2 ^ c * 2 ^ k) * X) by ring.
    f_equal. 
    assert (Hmod : Z.pos N mod 2 ^ k = 0).
    { assert (Hlt : 2 ^ (d - 1 + (E + 1074)) < 2 ^ (53 + j)).
      { rewrite (Z.pow_add_r 2 53 j), (Z.pow_add_r 2 (d - 1) (E + 1074)) by lia. fold X.
        assert (0 < 2 ^ j) by (apply Z.pow_pos_nonneg; lia).
        assert (2 ^ (d - 1) * X <= Z.pos N * X) by (apply Z.mul_le_mono_nonneg_r; lia).
        assert (A * 2 ^ j < 2 ^ 53 * 2 ^ j) by (apply Z.mul_lt_mono_pos_r; lia).
        unfold V in HV. fold X in HV. lia. }
      apply pow2_lt_inv in Hlt; [|lia].
      set (t := j - (k + (E + 1074))).
      assert (Ht : 0 <= t) by (unfold t, k; lia).
      assert (Hj2 : 2 ^ j = 2 ^ t * 2 ^ k * X).
      { unfold X. rewrite <- !Z.pow_add_r by lia. f_equal. unfold t. lia. }
      assert (HN : Z.pos N = A * 2 ^ t * 2 ^ k).
      { apply Z.mul_reg_r with (p := X); [lia|].
        unfold V in HV. fold X in HV. rewrite HV, Hj2. ring. }
      rewrite HN. apply Z.mod_mul. lia. }
    specialize (Hexact Hmod).
    rewrite Hexact.
    pose proof (Z.div_mod (Z.pos N) (2 ^ k) ltac:(lia)) as Hdm.
    rewrite Hmod in Hdm. lia.
Qed.

Lemma FV_nonneg (x : F64) (a : Z) : FV x a -> 0 <= a.
Proof.
  intros [[_ ->]|[(m & e & -> & Hm & He) <-]]; [lia|].
  cbn [sval]. assert (0 < 2 ^ (e + 1074)) by (apply Z.pow_pos_nonneg; lia). nia.
Qed.

Lemma FV_zero_value (x : F64) : FV x 0 -> x = S754_zero false.
Proof.
  intros [[-> _]|[(m & e & -> & Hm & He) H]]; [reflexivity|].
  cbn [sval] in H. assert (0 < 2 ^ (e + 1074)) by (apply Z.pow_pos_nonneg; lia). nia.
Qed.

(** [float64(n)] is exact for an integer below [2^53]. *)
Lemma of_int_FV (n : Z) : 0 <= n < 2 ^ 53 -> FV (f64_of_int n) (n * 2 ^ 1074).
Proof.
  intros Hn. destruct n as [|n|n]; [left; split; reflexivity| |lia].
  right.
  assert (Hd : Z.pos (digits2_pos n) <= 53) by (apply digits2_pos_le; lia).
  destruct (f64_of_int_pos n Hd) as (mx & -> & Hmx & Hb).
  set (d := Z.pos (digits2_pos n)) in *.
  assert (0 < d) by (unfold d; lia).
  split.
  - exists mx, (d - 53). repeat split; lia.
  - cbn [sval]. rewrite Hmx, <- Z.mul_assoc, <- Z.pow_add_r by lia.
    do 2 f_equal. lia.
Qed.

(** The exponent of a positive normal float, from its scaled value. *)
Lemma normal_exponent_bounds (m : positive) (e : Z) (hi : Z) :
  2 ^ 52 <= Z.pos m < 2 ^ 53 -> -1074 <= e -> 0 <= hi ->
  Z.pos m * 2 ^ (e + 1074) < 2 ^ hi -> e + 1126 < hi.
Proof.
  intros Hm He Hhi Hlt.
  apply pow2_lt_inv; [lia|].
  replace (e + 1126) with (52 + (e + 1074)) by lia.
  rewrite Z.pow_add_r by lia.
  assert (0 < 2 ^ (e + 1074)) by (apply Z.pow_pos_nonneg; lia).
  assert (2 ^ 52 * 2 ^ (e + 1074) <= Z.pos m * 2 ^ (e + 1074))
    by (apply Z.mul_le_mono_nonneg_r; lia).
  lia.
Qed.

Lemma digits2_pos_ge (N : positive) (d : Z) :
  2 ^ (d - 1) <= Z.pos N -> d <= Z.pos (digits2_pos N).
Proof.
  intros H. pose proof (digits2_pos_bounds N) as [_ Hhi].
  destruct (Z_le_gt_dec d (Z.pos (digits2_pos N))); [done|].
  assert (2 ^ Z.pos (digits2_pos N) <= 2 ^ (d - 1)) by (apply Z.pow_le_mono_r; lia).
  lia.
Qed.

Lemma digits2_pos_lt (N : positive) (d : Z) :
  0 <= d -> Z.pos N < 2 ^ d -> Z.pos (digits2_pos N) <= d.
Proof. intros _ H. apply digits2_pos_le. exact H. Qed.

Lemma shl_align_value (m : positive) (e e' : Z) :
  e' <= e ->
  Z.pos (fst (shl_align m e e')) = Z.pos m * 2 ^ (e - e').
Proof.
  intros He. unfold shl_align. to_BinInt.
  destruct (e' - e) as [|p|p] eqn:Hp; try lia; cbn [fst].
  - replace (e - e') with 0 by lia. change (2 ^ 0) with 1. lia.
  - rewrite Pos_iter_xO. do 2 f_equal. lia.
Qed.

(** The sum of two non-negative floats: within half a unit in the last
    place of the exact sum, and exact when the sum fits 53 bits. *)
Lemma add_FV (x y : F64) (a b : Z) :
  FV x a -> FV y b -> a + b < 2 ^ 1900 ->
  exists c, FV (f64_add x y) c /\
            - (a + b) <= 2 ^ 53 * (a + b - c) <= a + b /\
            (forall A j, 0 <= j -> 0 <= A < 2 ^ 53 -> a + b = A * 2 ^ j -> c = a + b).
Proof.
  intros Hx Hy Hsum.
  pose proof (FV_nonneg x a Hx) as Ha. pose proof (FV_nonneg y b Hy) as Hb.
  destruct Hx as [[-> ->]|[(mx & ex & -> & Hmx & Hex) Hsx]].
  { exists b. split; [|split; [lia|intros; lia]].
    destruct Hy as [[-> ->]|[(my & ey & -> & Hmy & Hey) Hsy]].
    - left. done.
    - right. split; [exists my, ey; done|exact Hsy]. }
  destruct Hy as [[-> ->]|[(my & ey & -> & Hmy & Hey) Hsy]].
  { exists a. split; [|split; [lia|intros; lia]].
    right. split; [exists mx, ex; done|exact Hsx]. }
  cbn [sval] in Hsx, Hsy.
  unfold f64_add, SFadd. cbn [cond_Zopp]. to_BinInt.
  set (ez := Z.min ex ey).
  pose proof (shl_align_value mx ex ez ltac:(unfold ez; lia)) as Hpx.
  pose proof (shl_align_value my ey ez ltac:(unfold ez; lia)) as Hpy.
  set (px := fst (shl_align mx ex ez)) in *.
  set (py := fst (shl_align my ey ez)) in *.
  change (Z.pos px + Z.pos py) with (Z.pos (px + py)).
  unfold binary_normalize, binary_round.
  set (N := (px + py)%positive).
  assert (HNval : Z.pos N = Z.pos mx * 2 ^ (ex - ez) + Z.pos my * 2 ^ (ey - ez)).
  { unfold N. rewrite Pos2Z.inj_add, Hpx, Hpy. reflexivity. }
  assert (Hpx1 : 1 <= 2 ^ (ex - ez)).
  { assert (0 < 2 ^ (ex - ez)) by (apply Z.pow_pos_nonneg; unfold ez; lia). lia. }
  assert (Hpy1 : 1 <= 2 ^ (ey - ez)).
  { assert (0 < 2 ^ (ey - ez)) by (apply Z.pow_pos_nonneg; unfold ez; lia). lia. }
  set (d := Z.pos (digits2_pos N)).
  assert (Hd54 : 54 <= d).
  { apply digits2_pos_ge. change (2 ^ (54 - 1)) with (2 ^ 52 + 2 ^ 52). nia. }
  assert (HV : Z.pos N * 2 ^ (ez + 1074) = a + b).
  { rewrite HNval, Z.mul_add_distr_r, <- !Z.mul_assoc, <- !Z.pow_add_r
      by (unfold ez; lia).
    replace (ex - ez + (ez + 1074)) with (ex + 1074) by lia.
    replace (ey - ez + (ez + 1074)) with (ey + 1074) by lia.
    rewrite Hsx, Hsy. reflexivity. }
  assert (Hdhi : ez + d <= 1000).
  { assert (d - 1 + (ez + 1074) < 1900); [|lia].
    apply pow2_lt_inv; [lia|].
    pose proof (digits2_pos_bounds N) as [HNlo _]. fold d in HNlo.
    rewrite (Z.pow_add_r 2 (d - 1)) by (unfold ez; lia).
    assert (0 < 2 ^ (ez + 1074)) by (apply Z.pow_pos_nonneg; unfold ez; lia).
    assert (2 ^ (d - 1) * 2 ^ (ez + 1074) <= Z.pos N * 2 ^ (ez + 1074))
      by (apply Z.mul_le_mono_nonneg_r; lia).
    lia. }
  unfold shl_align, fexp. change (emin 53 1024) with (-1074). to_BinInt. fold d.
  rewrite Z.max_l by (unfold ez; lia).
  destruct (d + ez - 53 - ez) as [|p|p] eqn:Hshift; try lia.
  destruct (round_core N ez) as (m & e & -> & Hm & He & Hbound & Hexact);
    fold d; try (unfold ez; lia).
  fold d in He. rewrite HV in Hbound, Hexact.
  exists (Z.pos m * 2 ^ (e + 1074)).
  split; [|split].
  - right. split; [|reflexivity].
    exists m, e. split; [reflexivity|]. split; [exact Hm|].
    split; [unfold ez in *; lia|].
    assert (Z.pos m * 2 ^ (e + 1074) < 2 ^ 1901).
    { change (2 ^ 1901) with (2 * 2 ^ 1900).
      assert (0 < 2 ^ 53) by (apply Z.pow_pos_nonneg; lia).
      generalize dependent (Z.pos m * 2 ^ (e + 1074)).
      generalize dependent (2 ^ 53). generalize dependent (2 ^ 1900).
      intros. nia. }
    pose proof (normal_exponent_bounds m e 1901 Hm ltac:(unfold ez in *; lia) ltac:(lia) H).
    lia.
  - exact Hbound.
  - intros A j Hj HA Hab.
    destruct (Z.eq_dec A 0) as [->|HA0].
    + assert (0 < a + b); [|lia].
      rewrite <- HV. assert (0 < 2 ^ (ez + 1074)) by (apply Z.pow_pos_nonneg; unfold ez; lia).
      nia.
    + apply (Hexact A j); [lia|lia|exact Hab].
Qed.

Lemma normal_exponent_lower (m : positive) (e : Z) (lo : Z) :
  2 ^ 52 <= Z.pos m < 2 ^ 53 -> -1074 <= e -> 0 <= lo ->
  2 ^ lo <= Z.pos m * 2 ^ (e + 1074) -> lo < e + 1127.
Proof.
  intros Hm He Hlo Hle.
  apply pow2_lt_inv; [lia|].
  replace (e + 1127) with (53 + (e + 1074)) by lia.
  rewrite Z.pow_add_r by lia.
  assert (0 < 2 ^ (e + 1074)) by (apply Z.pow_pos_nonneg; lia).
  assert (Z.pos m * 2 ^ (e + 1074) < 2 ^ 53 * 2 ^ (e + 1074))
    by (apply Z.mul_lt_mono_pos_r; lia).
  lia.
Qed.

(** The product of two non-negative floats of moderate size: within half
    a unit in the last place of the exact product, and exact when the
    product fits 53 bits. *)
Lemma mul_FV (x y : F64) (a b : Z) :
  FV x a -> FV y b ->
  (a = 0 \/ 2 ^ 674 <= a < 2 ^ 1474) ->
  (b = 0 \/ 2 ^ 674 <= b < 2 ^ 1474) ->
  exists c, FV (f64_mul x y) c /\
            - (a * b) <= 2 ^ 53 * (a * b - c * 2 ^ 1074) <= a * b /\
            (forall A j, 0 <= j -> 0 <= A < 2 ^ 53 ->
               a * b = A * 2 ^ j * 2 ^ 1074 -> c = A * 2 ^ j).
Proof.
  intros Hx Hy Hasize Hbsize.
  assert (HB : 0 < 2 ^ 1074) by (apply Z.pow_pos_nonneg; lia).
  assert (Hzero : forall A j, 0 <= j -> 0 <= A -> 0 = A * 2 ^ j * 2 ^ 1074 -> 0 = A * 2 ^ j).
  { intros A j Hj HA H0. assert (0 < 2 ^ j) by (apply Z.pow_pos_nonneg; lia).
    generalize dependent (2 ^ 1074). generalize dependent (A * 2 ^ j). intros. nia. }
  destruct Hx as [[-> ->]|[(mx & ex & -> & Hmx & Hex) Hsx]].
  { exists 0. split; [left; split; [|reflexivity]|split; [lia|]].
    - destruct Hy as [[-> _]|[(my & ey & -> & _) _]]; reflexivity.
    - intros A j Hj HA H0. apply Hzero; [lia|lia|]. rewrite <- H0. ring. }
  destruct Hy as [[-> ->]|[(my & ey & -> & Hmy & Hey) Hsy]].
  { exists 0. split; [left; split; reflexivity|split; [lia|]].
    intros A j Hj HA H0. apply Hzero; [lia|lia|]. rewrite <- H0. ring. }
  cbn [sval] in Hsx, Hsy.
  assert (Ha0 : 0 < a).
  { rewrite <- Hsx. assert (0 < 2 ^ (ex + 1074)) by (apply Z.pow_pos_nonneg; lia). nia. }
  assert (Hb0 : 0 < b).
  { rewrite <- Hsy. assert (0 < 2 ^ (ey + 1074)) by (apply Z.pow_pos_nonneg; lia). nia. }
  destruct Hasize as [|[Halo Hahi]]; [lia|]. destruct Hbsize as [|[Hblo Hbhi]]; [lia|].
  rewrite <- Hsx in Halo, Hahi. rewrite <- Hsy in Hblo, Hbhi.
  pose proof (normal_exponent_bounds mx ex 1474 Hmx ltac:(lia) ltac:(lia) Hahi).
  pose proof (normal_exponent_bounds my ey 1474 Hmy ltac:(lia) ltac:(lia) Hbhi).
  pose proof (normal_exponent_lower mx ex 674 Hmx ltac:(lia) ltac:(lia) Halo).
  pose proof (normal_exponent_lower my ey 674 Hmy ltac:(lia) ltac:(lia) Hblo).
  unfold f64_mul, SFmul. cbn [xorb]. to_BinInt.
  set (N := (mx * my)%positive).
  assert (HN : 2 ^ 104 <= Z.pos N < 2 ^ 106).
  { unfold N. rewrite Pos2Z.inj_mul.
    change (2 ^ 104) with (2 ^ 52 * 2 ^ 52). change (2 ^ 106) with (2 ^ 53 * 2 ^ 53).
    split; [apply Z.mul_le_mono_nonneg|apply Z.mul_lt_mono_nonneg]; lia. }
  set (d := Z.pos (digits2_pos N)).
  assert (Hd : 105 <= d <= 106).
  { split; [apply digits2_pos_ge; change (105 - 1) with 104; lia
           |apply digits2_pos_le; lia]. }
  assert (HV : Z.pos N * 2 ^ (ex + ey + 1074) * 2 ^ 1074 = a * b).
  { unfold N. rewrite Pos2Z.inj_mul, <- Hsx, <- Hsy.
    replace (ex + ey + 1074) with ((ex + 1074) + ey) by lia.
    replace (Z.pos mx * Z.pos my * 2 ^ (ex + 1074 + ey) * 2 ^ 1074)
      with (Z.pos mx * Z.pos my * (2 ^ (ex + 1074 + ey) * 2 ^ 1074)) by ring.
    rewrite <- Z.pow_add_r by lia.
    replace (ex + 1074 + ey + 1074) with ((ex + 1074) + (ey + 1074)) by lia.
    rewrite Z.pow_add_r by lia. ring. }
  destruct (round_core N (ex + ey)) as (m & e & -> & Hm & He & Hbound & Hexact);
    fold d; try lia.
  fold d in He.
  exists (Z.pos m * 2 ^ (e + 1074)).
  split; [|split].
  - right. split; [|reflexivity].
    exists m, e. split; [reflexivity|]. split; [exact Hm|lia].
  - rewrite <- HV.
    set (V := Z.pos N * 2 ^ (ex + ey + 1074)) in *.
    set (R := Z.pos m * 2 ^ (e + 1074)) in *.
    replace (2 ^ 53 * (V * 2 ^ 1074 - R * 2 ^ 1074))
      with (2 ^ 53 * (V - R) * 2 ^ 1074) by ring.
    replace (- (V * 2 ^ 1074)) with (- V * 2 ^ 1074) by ring.
    split; apply Z.mul_le_mono_nonneg_r; lia.
  - intros A j Hj HA Hab.
    assert (HVA : Z.pos N * 2 ^ (ex + ey + 1074) = A * 2 ^ j).
    { apply Z.mul_reg_r with (p := 2 ^ 1074); [lia|]. rewrite HV. exact Hab. }
    destruct (Z.eq_dec A 0) as [->|HA0].
    + assert (0 < Z.pos N * 2 ^ (ex + ey + 1074)); [|lia].
      assert (0 < 2 ^ (ex + ey + 1074)) by (apply Z.pow_pos_nonneg; lia). nia.
    + rewrite <- HVA. apply (Hexact A j); [lia|lia|exact HVA].
Qed.

(** Go's [<] on two non-negative floats agrees with the order of their
    values. *)
Lemma ltb_FV (x y : F64) (a b : Z) :
  FV x a -> FV y b -> a < b -> f64_ltb x y = true.
Proof.
  intros Hx Hy Hab.
  pose proof (FV_nonneg x a Hx) as Ha.
  destruct Hy as [[-> ->]|[(my & ey & -> & Hmy & Hey) Hsy]]; [lia|].
  destruct Hx as [[-> ->]|[(mx & ex & -> & Hmx & Hex) Hsx]]; [reflexivity|].
  cbn [sval] in Hsx, Hsy. subst a b.
  unfold f64_ltb, SFltb, SFcompare.
  assert (Hx0 : 0 < 2 ^ (ex + 1074)) by (apply Z.pow_pos_nonneg; lia).
  assert (Hy0 : 0 < 2 ^ (ey + 1074)) by (apply Z.pow_pos_nonneg; lia).
  change IntDef.Z.compare with Z.compare.
  destruct (Z.compare_spec ex ey) as [Heq|Hlt|Hgt].
  - subst ey. assert (Hm : (mx < my)%positive) by nia.
    rewrite Pos.compare_cont_spec. cbn [Pos.switch_Eq].
    apply Pos.compare_lt_iff in Hm. change PosDef.Pos.compare with Pos.compare.
    rewrite Hm. reflexivity.
  - reflexivity.
  - exfalso.
    assert (Hpow : 2 ^ (ex + 1074) = 2 ^ (ex - ey) * 2 ^ (ey + 1074)).
    { rewrite <- Z.pow_add_r by lia. f_equal. lia. }
    assert (2 <= 2 ^ (ex - ey)).
    { change 2 with (2 ^ 1) at 1. apply Z.pow_le_mono_r; lia. }
    rewrite Hpow in Hab.
    change (2 ^ 53) with (2 * 2 ^ 52) in *.
    assert (0 < 2 ^ 52) by (apply Z.pow_pos_nonneg; lia).
    generalize dependent (2 ^ (ey + 1074)). generalize dependent (2 ^ (ex - ey)).
    generalize dependent (2 ^ 52). intros. nia.
Qed.

(** ** [Price] *)

Lemma FV_unique (x : F64) (a b : Z) : FV x a -> FV x b -> a = b.
Proof.
  intros [[-> ->]|[(m & e & -> & _) <-]] [[H ->]|[_ <-]];
    try reflexivity; try discriminate.
Qed.

Lemma add_FV_exact (x y : F64) (a b : Z) :
  FV x (a * 2 ^ 1074) -> FV y (b * 2 ^ 1074) -> 0 <= a + b < 2 ^ 53 ->
  FV (f64_add x y) ((a + b) * 2 ^ 1074).
Proof.
  intros Hx Hy Hab.
  assert (HB : 0 < 2 ^ 1074) by (apply Z.pow_pos_nonneg; lia).
  destruct (add_FV x y _ _ Hx Hy) as (c & Hc & _ & Hexact).
  - rewrite <- Z.mul_add_distr_r.
    change (2 ^ 1900) with (2 ^ 826 * 2 ^ 1074).
    apply Z.mul_lt_mono_pos_r; [lia|].
    assert (2 ^ 53 < 2 ^ 826) by (apply Z.pow_lt_mono_r; lia). lia.
  - rewrite (Hexact (a + b) 1074) in Hc; [|lia|lia|ring].
    rewrite <- Z.mul_add_distr_r in Hc. exact Hc.
Qed.

Lemma gpu_count_total_nonneg (gpus : list GpuDeviceInfo) :
  Forall (fun gpu => 0 <= default 0 (gpu_Count gpu)) gpus -> 0 <= gpu_count_total gpus.
Proof. induction 1; simpl; lia. Qed.

Lemma accelerator_count_total_nonneg (accelerators : list InferenceDeviceInfo) :
  Forall (fun acc => 0 <= default 0 (acc_Count acc)) accelerators ->
  0 <= accelerator_count_total accelerators.
Proof. induction 1; simpl; lia. Qed.

(** The float accumulation over the GPU counts is their exact sum. *)
Lemma Price_gpuCount_FV (gpus : list GpuDeviceInfo) :
  Forall (fun gpu => 0 <= default 0 (gpu_Count gpu)) gpus ->
  gpu_count_total gpus < 2 ^ 53 ->
  FV (Price_gpuCount gpus) (gpu_count_total gpus * 2 ^ 1074).
Proof.
  intros Hpos Hsum. unfold Price_gpuCount.
  assert (Hgen : forall (acc : F64) (a : Z),
             FV acc (a * 2 ^ 1074) -> 0 <= a -> a + gpu_count_total gpus < 2 ^ 53 ->
             FV (fold_left
                   (fun gpuCount gpu =>
                      match gpu_Count gpu with
                      | Some c => f64_add gpuCount (f64_of_int c)
                      | None => gpuCount
                      end) gpus acc)
                ((a + gpu_count_total gpus) * 2 ^ 1074)).
  { clear Hsum. induction Hpos as [|gpu gpus Hgpu Hrest IH]; intros acc a Hacc Ha Hsum.
    - simpl. rewrite Z.add_0_r. exact Hacc.
    - pose proof (gpu_count_total_nonneg gpus Hrest).
      cbn [fold_left gpu_count_total fold_right] in *.
      fold (gpu_count_total gpus) in *.
      destruct (gpu_Count gpu) as [c|]; cbn [default] in *.
      + rewrite Z.add_assoc. apply IH; [|lia|lia].
        apply add_FV_exact; [exact Hacc|apply of_int_FV; lia|lia].
      + rewrite Z.add_0_l. apply IH; [exact Hacc|lia|lia]. }
  apply (Hgen f64_zero 0); [left; split; reflexivity|lia|lia].
Qed.

Lemma Price_infCount_FV (accelerators : list InferenceDeviceInfo) :
  Forall (fun acc => 0 <= default 0 (acc_Count acc)) accelerators ->
  accelerator_count_total accelerators < 2 ^ 53 ->
  FV (Price_infCount accelerators) (accelerator_count_total accelerators * 2 ^ 1074).
Proof.
  intros Hpos Hsum. unfold Price_infCount.
  assert (Hgen : forall (x : F64) (a : Z),
             FV x (a * 2 ^ 1074) -> 0 <= a ->
             a + accelerator_count_total accelerators < 2 ^ 53 ->
             FV (fold_left
                   (fun infCount acc =>
                      match acc_Count acc with
                      | Some c => f64_add infCount (f64_of_int c)
                      | None => infCount
                      end) accelerators x)
                ((a + accelerator_count_total accelerators) * 2 ^ 1074)).
  { clear Hsum. induction Hpos as [|acc accs Hacc Hrest IH]; intros x a Hx Ha Hsum.
    - simpl. rewrite Z.add_0_r. exact Hx.
    - pose proof (accelerator_count_total_nonneg accs Hrest).
      cbn [fold_left accelerator_count_total fold_right] in *.
      fold (accelerator_count_total accs) in *.
      destruct (acc_Count acc) as [c|]; cbn [default] in *.
      + rewrite Z.add_assoc. apply IH; [|lia|lia].
        apply add_FV_exact; [exact Hx|apply of_int_FV; lia|lia].
      + rewrite Z.add_0_l. apply IH; [exact Hx|lia|lia]. }
  apply (Hgen f64_zero 0); [left; split; reflexivity|lia|lia].
Qed.

Lemma add_FV_exact_at (j : Z) (x y : F64) (a b : Z) :
  0 <= j <= 1074 ->
  FV x (a * 2 ^ j) -> FV y (b * 2 ^ j) -> 0 <= a + b < 2 ^ 53 ->
  FV (f64_add x y) ((a + b) * 2 ^ j).
Proof.
  intros Hj Hx Hy Hab.
  assert (Hpow : 0 < 2 ^ j) by (apply Z.pow_pos_nonneg; lia).
  destruct (add_FV x y _ _ Hx Hy) as (c & Hc & _ & Hexact).
  - rewrite <- Z.mul_add_distr_r.
    assert (2 ^ j <= 2 ^ 1074) by (apply Z.pow_le_mono_r; lia).
    assert ((a + b) * 2 ^ j < 2 ^ 53 * 2 ^ 1074).
    { apply Z.le_lt_trans with ((a + b) * 2 ^ 1074).
      - apply Z.mul_le_mono_nonneg_l; lia.
      - apply Z.mul_lt_mono_pos_r; [apply Z.pow_pos_nonneg|]; lia. }
    assert (2 ^ 53 * 2 ^ 1074 < 2 ^ 1900).
    { rewrite <- Z.pow_add_r by lia. apply Z.pow_lt_mono_r; lia. }
    lia.
  - rewrite (Hexact (a + b) j) in Hc; [|lia|lia|ring].
    rewrite <- Z.mul_add_distr_r in Hc. exact Hc.
Qed.

(** Multiplying by a weight [wA * 2^wj] is exact when the product fits 53
    bits. *)
Lemma mul_weight_FV (w x : F64) (wA wj a : Z) :
  FV w (wA * 2 ^ wj) -> FV x (a * 2 ^ 1074) ->
  0 <= wj -> 2 ^ 674 <= wA * 2 ^ wj < 2 ^ 1474 ->
  0 <= a -> 0 <= wA * a < 2 ^ 53 -> a < 2 ^ 53 ->
  FV (f64_mul w x) (wA * a * 2 ^ wj).
Proof.
  intros Hw Hx Hwj Hwsize Ha HwAa Ha53.
  assert (HB : 0 < 2 ^ 1074) by (apply Z.pow_pos_nonneg; lia).
  destruct (mul_FV w x _ _ Hw Hx) as (c & Hc & _ & Hexact).
  - right. exact Hwsize.
  - destruct (Z.eq_dec a 0) as [->|Hne]; [left; lia|right].
    split.
    + apply Z.le_trans with (1 * 2 ^ 1074).
      * rewrite Z.mul_1_l. apply Z.pow_le_mono_r; lia.
      * apply Z.mul_le_mono_nonneg_r; lia.
    + apply Z.lt_trans with (2 ^ 53 * 2 ^ 1074).
      * apply Z.mul_lt_mono_pos_r; lia.
      * rewrite <- Z.pow_add_r by lia. apply Z.pow_lt_mono_r; lia.
  - rewrite (Hexact (wA * a) wj) in Hc; [exact Hc|lia|lia|ring].
Qed.

Lemma CPUCostWeight_FV : FV CPUCostWeight (1 * 2 ^ 1074).
Proof. apply (of_int_FV 1). vm_compute. split; congruence. Qed.

Lemma GPUCostWeight_FV : FV GPUCostWeight (5 * 2 ^ 1074).
Proof. apply (of_int_FV 5). vm_compute. split; congruence. Qed.

Lemma MemoryMBCostWeight_FV : FV MemoryMBCostWeight (1 * 2 ^ 1064).
Proof.
  right. split.
  - eexists _, _. split; [reflexivity|]. vm_compute. repeat split; congruence.
  - vm_compute. reflexivity.
Qed.

Lemma LocalStorageWeight_FV : FV LocalStorageWeight (5764607523034235 * 2 ^ 1015).
Proof.
  right. split.
  - eexists _, _. split; [reflexivity|]. vm_compute. repeat split; congruence.
  - vm_compute. reflexivity.
Qed.

Lemma Price_gpus_FV (i : InstanceType) :
  price_bounded i ->
  FV match GpuInfo_Gpus (info i) with
     | Some gpus => Price_gpuCount gpus
     | None => f64_zero
     end (Price_gpus i * 2 ^ 1074).
Proof.
  intros (_ & _ & Hpos & _ & Hsum & _). unfold Price_gpus in *.
  destruct (GpuInfo_Gpus (info i)) as [gpus|]; cbn [default] in *.
  - apply Price_gpuCount_FV; [exact Hpos|].
    assert (2 ^ 31 < 2 ^ 53) by (apply Z.pow_lt_mono_r; lia). lia.
  - left. split; reflexivity.
Qed.

Lemma Price_accelerators_FV (i : InstanceType) :
  price_bounded i ->
  FV match InferenceAcceleratorInfo_Accelerators (info i) with
     | Some accelerators => Price_infCount accelerators
     | None => f64_zero
     end (Price_accelerators i * 2 ^ 1074).
Proof.
  intros (_ & _ & _ & Hpos & _ & Hsum & _). unfold Price_accelerators in *.
  destruct (InferenceAcceleratorInfo_Accelerators (info i)) as [accs|]; cbn [default] in *.
  - apply Price_infCount_FV; [exact Hpos|].
    assert (2 ^ 31 < 2 ^ 53) by (apply Z.pow_lt_mono_r; lia). lia.
  - left. split; reflexivity.
Qed.

Lemma Price_gpus_nonneg (i : InstanceType) : price_bounded i -> 0 <= Price_gpus i.
Proof.
  intros (_ & _ & Hpos & _). unfold Price_gpus.
  destruct (GpuInfo_Gpus (info i)); [apply gpu_count_total_nonneg; exact Hpos|lia].
Qed.

Lemma Price_accelerators_nonneg (i : InstanceType) :
  price_bounded i -> 0 <= Price_accelerators i.
Proof.
  intros (_ & _ & _ & Hpos & _). unfold Price_accelerators.
  destruct (InferenceAcceleratorInfo_Accelerators (info i));
    [apply accelerator_count_total_nonneg; exact Hpos|lia].
Qed.

(** The first four terms of [Price] and their three sums are exact. *)
Lemma Price_exact_part (i : InstanceType) :
  price_bounded i ->
  FV (f64_add
        (f64_add
           (f64_add
              (f64_mul CPUCostWeight (f64_of_int (VCpuInfo_DefaultVCpus (info i))))
              (f64_mul MemoryMBCostWeight (f64_of_int (MemoryInfo_SizeInMiB (info i)))))
           (f64_mul GPUCostWeight
              match GpuInfo_Gpus (info i) with
              | Some gpus => Price_gpuCount gpus
              | None => f64_zero
              end))
        (f64_mul InferenceCostWeight
           match InferenceAcceleratorInfo_Accelerators (info i) with
           | Some accelerators => Price_infCount accelerators
           | None => f64_zero
           end))
     ((1024 * VCpuInfo_DefaultVCpus (info i) + MemoryInfo_SizeInMiB (info i)
       + 5120 * Price_gpus i + 5120 * Price_accelerators i) * 2 ^ 1064).
Proof.
  intros Hb.
  pose proof (Price_gpus_FV i Hb) as HG. pose proof (Price_accelerators_FV i Hb) as HA.
  pose proof (Price_gpus_nonneg i Hb) as HG0.
  pose proof (Price_accelerators_nonneg i Hb) as HA0.
  destruct Hb as (Hv & Hm & _ & _ & Hg & Ha & _).
  set (v := VCpuInfo_DefaultVCpus (info i)) in *.
  set (mem := MemoryInfo_SizeInMiB (info i)) in *.
  set (g := Price_gpus i) in *. set (a := Price_accelerators i) in *.
  change (2 ^ 31) with 2147483648 in *. change (2 ^ 41) with 2199023255552 in *.
  assert (H53 : 2 ^ 53 = 9007199254740992) by reflexivity.
  assert (Hscale : forall z, z * 2 ^ 1074 = 1024 * z * 2 ^ 1064).
  { intros z. change (2 ^ 1074) with (1024 * 2 ^ 1064). ring. }
  assert (HT1 : FV (f64_mul CPUCostWeight (f64_of_int v)) (1024 * v * 2 ^ 1064)).
  { rewrite <- Hscale. replace (v * 2 ^ 1074) with (1 * v * 2 ^ 1074) by ring.
    apply mul_weight_FV;
      first [exact CPUCostWeight_FV | apply of_int_FV; lia | lia
            | vm_compute; split; congruence]. }
  assert (HT2 : FV (f64_mul MemoryMBCostWeight (f64_of_int mem)) (mem * 2 ^ 1064)).
  { replace (mem * 2 ^ 1064) with (1 * mem * 2 ^ 1064) by ring.
    apply mul_weight_FV;
      first [exact MemoryMBCostWeight_FV | apply of_int_FV; lia | lia
            | vm_compute; split; congruence]. }
  assert (HT3 : forall (x : F64) (n : Z),
             FV x (n * 2 ^ 1074) -> 0 <= n < 2147483648 ->
             FV (f64_mul GPUCostWeight x) (5120 * n * 2 ^ 1064)).
  { intros x n Hx Hn.
    replace (5120 * n * 2 ^ 1064) with (5 * n * 2 ^ 1074)
      by (change (2 ^ 1074) with (1024 * 2 ^ 1064); ring).
    apply mul_weight_FV;
      first [exact GPUCostWeight_FV | exact Hx | lia
            | vm_compute; split; congruence]. }
  replace ((1024 * v + mem + 5120 * g + 5120 * a) * 2 ^ 1064)
    with ((1024 * v + mem + 5120 * g + 5120 * a) * 2 ^ 1064) by ring.
  apply add_FV_exact_at; [lia| |apply (HT3 _ a HA); lia|lia].
  apply add_FV_exact_at; [lia| |apply (HT3 _ g HG); lia|lia].
  apply add_FV_exact_at; [lia|exact HT1|exact HT2|lia].
Qed.

(** The storage term: one rounded product. *)
Lemma Price_storage_term (i : InstanceType) :
  price_bounded i ->
  exists c5,
    FV (f64_mul
          match InstanceStorageInfo_TotalSizeInGB (info i) with
          | Some size => f64_add f64_zero (f64_of_int size)
          | None => f64_zero
          end LocalStorageWeight) c5 /\
    0 <= c5 < 2 ^ 1100 /\
    (let exact := Price_storage i * (5764607523034235 * 2 ^ 1015) in
     - exact <= 2 ^ 53 * (exact - c5) <= exact) /\
    (InstanceStorageInfo_TotalSizeInGB (info i) = None -> c5 = 0).
Proof.
  intros (_ & _ & _ & _ & _ & _ & Hs). unfold Price_storage in *.
  set (L := match InstanceStorageInfo_TotalSizeInGB (info i) with
            | Some size => f64_add f64_zero (f64_of_int size)
            | None => f64_zero
            end).
  set (s := default 0 (InstanceStorageInfo_TotalSizeInGB (info i))) in *.
  change (2 ^ 31) with 2147483648 in Hs.
  assert (HL : FV L (s * 2 ^ 1074)).
  { unfold L, s. destruct (InstanceStorageInfo_TotalSizeInGB (info i)) as [size|];
      cbn [default] in *.
    - change (FV (f64_add f64_zero (f64_of_int size)) ((0 + size) * 2 ^ 1074)).
      change (0 <= size < 2147483648) in Hs.
      apply add_FV_exact_at; [lia|left; split; reflexivity| |].
      + apply of_int_FV. change (2 ^ 53) with 9007199254740992. lia.
      + change (2 ^ 53) with 9007199254740992. lia.
    - left. split; reflexivity. }
  destruct (mul_FV L LocalStorageWeight _ _ HL LocalStorageWeight_FV) as (c5 & Hc5 & Hbound & _).
  - destruct (Z.eq_dec s 0) as [->|Hne]; [left; reflexivity|right].
    change (2 ^ 674) with (1 * 2 ^ 674). change (2 ^ 1474) with (2 ^ 400 * 2 ^ 1074).
    change (2 ^ 1074) with (2 ^ 400 * 2 ^ 674) at 1.
    assert (0 < 2 ^ 674) by (apply Z.pow_pos_nonneg; lia).
    assert (0 < 2 ^ 400) by (apply Z.pow_pos_nonneg; lia).
    assert (0 < 2 ^ 1074) by (apply Z.pow_pos_nonneg; lia).
    assert (2147483648 < 2 ^ 400) by (vm_compute; reflexivity).
    split.
    + rewrite Z.mul_assoc. apply Z.mul_le_mono_nonneg_r; [lia|].
      assert (1 * 1 <= s * 2 ^ 400) by (apply Z.mul_le_mono_nonneg; lia). lia.
    + apply Z.mul_lt_mono_pos_r; lia.
  - right. vm_compute. split; congruence.
  - exists c5. split; [exact Hc5|].
    pose proof (FV_nonneg _ _ Hc5) as Hc50.
    assert (Hexact5 : - (s * (5764607523034235 * 2 ^ 1015))
                      <= 2 ^ 53 * (s * (5764607523034235 * 2 ^ 1015) - c5)
                      <= s * (5764607523034235 * 2 ^ 1015)).
    { assert (HB : 0 < 2 ^ 1074) by (apply Z.pow_pos_nonneg; lia).
      replace (s * 2 ^ 1074 * (5764607523034235 * 2 ^ 1015))
        with (s * (5764607523034235 * 2 ^ 1015) * 2 ^ 1074) in Hbound by ring.
      set (W := s * (5764607523034235 * 2 ^ 1015)) in *.
      replace (2 ^ 53 * (W * 2 ^ 1074 - c5 * 2 ^ 1074))
        with (2 ^ 53 * (W - c5) * 2 ^ 1074) in Hbound by ring.
      replace (- (W * 2 ^ 1074)) with (- W * 2 ^ 1074) in Hbound by ring.
      destruct Hbound as [Hlow Hhigh].
      apply Z.mul_le_mono_pos_r in Hlow; [|exact HB].
      apply Z.mul_le_mono_pos_r in Hhigh; [|exact HB].
      lia. }
    split; [split; [exact Hc50|]|split; [exact Hexact5|]].
    + assert (Hcancel : 2 ^ 53 * c5 <= (2 ^ 53 + 1) * (s * (5764607523034235 * 2 ^ 1015))).
      { destruct Hexact5 as [Hlow _].
        generalize dependent (s * (5764607523034235 * 2 ^ 1015)).
        generalize dependent (2 ^ 53). intros. nia. }
      assert (Hw : 5764607523034235 * 2 ^ 1015 < 2 ^ 1068) by (vm_compute; reflexivity).
      assert (Hw0 : 0 < 5764607523034235 * 2 ^ 1015) by (vm_compute; reflexivity).
      assert (Hsw : s * (5764607523034235 * 2 ^ 1015) <= 2147483648 * 2 ^ 1068).
      { apply Z.mul_le_mono_nonneg; lia. }
      change (2 ^ 1100) with (2 * (2147483648 * 2 ^ 1068)).
      assert (H53 : 1 < 2 ^ 53) by (vm_compute; reflexivity).
      assert (HK : 0 < 2147483648 * 2 ^ 1068) by (vm_compute; reflexivity).
      generalize dependent (s * (5764607523034235 * 2 ^ 1015)).
      generalize dependent (2147483648 * 2 ^ 1068). generalize dependent (2 ^ 53).
      intros. nia.
    + intros Hnone. unfold s in HL. rewrite Hnone in HL. cbn [default] in HL.
      rewrite Z.mul_0_l in HL. apply FV_zero_value in HL.
      unfold L in Hc5. rewrite Hnone in Hc5.
      destruct Hc5 as [[_ ->]|[(m & e & Heq & _) _]]; [reflexivity|].
      discriminate Heq.
Qed.

(** The value of [Price]: the exact sum of the first four terms plus the
    rounded storage term, rounded once more. *)
Lemma Price_value (i : InstanceType) :
  price_bounded i ->
  let S3 := (1024 * VCpuInfo_DefaultVCpus (info i) + MemoryInfo_SizeInMiB (info i)
             + 5120 * Price_gpus i + 5120 * Price_accelerators i) * 2 ^ 1064 in
  exists c5 c,
    FV (f64_mul
          match InstanceStorageInfo_TotalSizeInGB (info i) with
          | Some size => f64_add f64_zero (f64_of_int size)
          | None => f64_zero
          end LocalStorageWeight) c5 /\
    0 <= c5 < 2 ^ 1100 /\
    (let exact := Price_storage i * (5764607523034235 * 2 ^ 1015) in
     - exact <= 2 ^ 53 * (exact - c5) <= exact) /\
    (InstanceStorageInfo_TotalSizeInGB (info i) = None -> c5 = 0) /\
    FV (Price i) c /\
    - (S3 + c5) <= 2 ^ 53 * (S3 + c5 - c) <= S3 + c5 /\
    (c5 = 0 -> c = S3) /\
    0 <= S3 < 2 ^ 1111.
Proof.
  intros Hb S3.
  pose proof (Price_exact_part i Hb) as Hexact. fold S3 in Hexact.
  destruct (Price_storage_term i Hb) as (c5 & Hc5 & Hc5b & Hc5e & Hnone).
  pose proof (Price_gpus_nonneg i Hb) as HG0.
  pose proof (Price_accelerators_nonneg i Hb) as HA0.
  assert (HA : 0 <= 1024 * VCpuInfo_DefaultVCpus (info i) + MemoryInfo_SizeInMiB (info i)
                    + 5120 * Price_gpus i + 5120 * Price_accelerators i < 2 ^ 47).
  { destruct Hb as (Hv & Hm & _ & _ & Hg & Ha & _).
    change (2 ^ 31) with 2147483648 in *. change (2 ^ 41) with 2199023255552 in *.
    change (2 ^ 47) with 140737488355328. lia. }
  assert (HS3 : 0 <= S3 < 2 ^ 1111).
  { unfold S3. change (2 ^ 1111) with (2 ^ 47 * 2 ^ 1064).
    assert (0 < 2 ^ 1064) by (apply Z.pow_pos_nonneg; lia).
    split; [apply Z.mul_nonneg_nonneg; lia|apply Z.mul_lt_mono_pos_r; lia]. }
  destruct (add_FV _ _ _ _ Hexact Hc5) as (c & Hc & Hbound & Hex).
  - assert (2 ^ 1111 + 2 ^ 1100 < 2 ^ 1900) by (vm_compute; reflexivity). lia.
  - exists c5, c.
    split; [exact Hc5|]. split; [exact Hc5b|]. split; [exact Hc5e|].
    split; [exact Hnone|]. split; [exact Hc|]. split; [exact Hbound|].
    split; [|exact HS3].
    intros ->. rewrite Z.add_0_r in Hex.
    apply (Hex (1024 * VCpuInfo_DefaultVCpus (info i) + MemoryInfo_SizeInMiB (info i)
                + 5120 * Price_gpus i + 5120 * Price_accelerators i) 1064);
      [lia| |reflexivity].
    assert (2 ^ 47 < 2 ^ 53) by (apply Z.pow_lt_mono_r; lia). lia.
Qed.

Lemma price_bounded_with_vcpus (i : InstanceType) (vcpus : Z) :
  price_bounded i -> 0 <= vcpus < 2 ^ 31 -> price_bounded (with_vcpus i vcpus).
Proof.
  intros (_ & Hm & Hg & Ha & Hgs & Has & Hs) Hv.
  repeat split; try apply Hv; try apply Hm; try apply Hs; done.
Qed.

(** Below [2^31], more vCPUs cost strictly more. *)
Lemma Price_monotone (i : InstanceType) (vcpus' : Z) :
  price_bounded i ->
  VCpuInfo_DefaultVCpus (info i) < vcpus' < 2 ^ 31 ->
  f64_ltb (Price i) (Price (with_vcpus i vcpus')) = true.
Proof.
  intros Hb Hv.
  assert (Hb' : price_bounded (with_vcpus i vcpus')).
  { apply price_bounded_with_vcpus; [exact Hb|]. destruct Hb as ((? & _) & _). lia. }
  destruct (Price_value i Hb) as (c5 & c & Hc5 & Hc5b & _ & _ & Hc & Hbound & _ & HS3).
  destruct (Price_value _ Hb') as (c5' & c' & Hc5' & _ & _ & _ & Hc' & Hbound' & _ & HS3').
  cbn [with_vcpus info VCpuInfo_DefaultVCpus MemoryInfo_SizeInMiB
       InstanceStorageInfo_TotalSizeInGB] in Hc5', Hbound', HS3'.
  change (Price_gpus (with_vcpus i vcpus')) with (Price_gpus i) in *.
  change (Price_accelerators (with_vcpus i vcpus')) with (Price_accelerators i) in *.
  pose proof (FV_unique _ _ _ Hc5 Hc5') as <-.
  apply (ltb_FV _ _ c c' Hc Hc').
  set (A := MemoryInfo_SizeInMiB (info i) + 5120 * Price_gpus i
            + 5120 * Price_accelerators i) in *.
  set (v := VCpuInfo_DefaultVCpus (info i)) in *.
  assert (HS : (1024 * v + MemoryInfo_SizeInMiB (info i) + 5120 * Price_gpus i
                + 5120 * Price_accelerators i) * 2 ^ 1064
               = (1024 * v + A) * 2 ^ 1064) by (unfold A; f_equal; ring).
  assert (HS' : (1024 * vcpus' + MemoryInfo_SizeInMiB (info i) + 5120 * Price_gpus i
                 + 5120 * Price_accelerators i) * 2 ^ 1064
                = (1024 * vcpus' + A) * 2 ^ 1064) by (unfold A; f_equal; ring).
  rewrite HS in *. rewrite HS' in *. clear HS HS'. clearbody A v.
  set (X := (1024 * v + A) * 2 ^ 1064) in *.
  set (X' := (1024 * vcpus' + A) * 2 ^ 1064) in *.
  assert (Hgap : X + 2 ^ 1074 <= X').
  { unfold X, X'. change (2 ^ 1074) with (1024 * 2 ^ 1064).
    assert (0 < 2 ^ 1064) by (apply Z.pow_pos_nonneg; lia).
    replace ((1024 * v + A) * 2 ^ 1064 + 1024 * 2 ^ 1064)
      with ((1024 * (v + 1) + A) * 2 ^ 1064) by ring.
    apply Z.mul_le_mono_nonneg_r; lia. }
  clearbody X X'.
  assert (Hsmall : 2 ^ 1112 + 2 ^ 1101 < 2 ^ 53 * 2 ^ 1074) by (vm_compute; reflexivity).
  change (2 ^ 1112) with (2 * 2 ^ 1111) in Hsmall.
  change (2 ^ 1101) with (2 * 2 ^ 1100) in Hsmall.
  assert (H53 : 0 < 2 ^ 53) by (apply Z.pow_pos_nonneg; lia).
  apply Z.mul_lt_mono_pos_l with (p := 2 ^ 53); [exact H53|].
  generalize dependent (2 ^ 1111). generalize dependent (2 ^ 1100).
  generalize dependent (2 ^ 1074). generalize dependent (2 ^ 53).
  intros. nia.
Qed.

(** The exact value of a float, from its scaled value. *)
Lemma F2Q_FV (x : F64) (a : Z) : FV x a -> (F2Q x == a # 2 ^ 1074)%Q.
Proof.
  intros [[-> ->]|[(m & e & -> & Hm & He) <-]]; [reflexivity|].
  cbn [F2Q sval cond_Zopp]. unfold Qeq.
  destruct e as [|p|p]; cbn [Qnum Qden inject_Z]; rewrite ?Pos2Z.inj_pow.
  - rewrite Z.add_0_l. change (2 ^ 0) with 1. lia.
  - rewrite Z.pow_add_r by lia. lia.
  - replace 1074 with ((Z.neg p + 1074) + Z.pos p) at 1 by lia.
    rewrite Z.pow_add_r by lia. ring.
Qed.

Lemma doc_price_fraction (i : InstanceType) :
  (doc_price i ==
   (100 * (1024 * VCpuInfo_DefaultVCpus (info i) + MemoryInfo_SizeInMiB (info i)
           + 5120 * Price_gpus i + 5120 * Price_accelerators i)
    + 1024 * Price_storage i) # 102400)%Q.
Proof.
  unfold doc_price, Qeq, Qplus, Qmult, inject_Z. cbn [Qnum Qden].
  rewrite !Pos2Z.inj_mul. lia.
Qed.

(** The rounding error of [Price], on the scaled values. *)
Lemma Price_error_arith (A1 s c5 c : Z) :
  0 <= A1 < 2 ^ 47 -> 0 <= s < 2 ^ 31 ->
  - (s * (5764607523034235 * 2 ^ 1015))
    <= 2 ^ 53 * (s * (5764607523034235 * 2 ^ 1015) - c5)
    <= s * (5764607523034235 * 2 ^ 1015) ->
  - (A1 * 2 ^ 1064 + c5) <= 2 ^ 53 * (A1 * 2 ^ 1064 + c5 - c) <= A1 * 2 ^ 1064 + c5 ->
  - (102400 * 2 ^ 1060) <= 102400 * c - (100 * A1 + 1024 * s) * 2 ^ 1074
  <= 102400 * 2 ^ 1060.
Proof.
  intros HA Hs H5 Hc.
  change (2 ^ 47) with 140737488355328 in HA. change (2 ^ 31) with 2147483648 in Hs.
  change (2 ^ 1074) with (1024 * (2 ^ 4 * 2 ^ 1060)).
  change (2 ^ 1064) with (2 ^ 4 * 2 ^ 1060) in *.
  change (2 ^ 1015) with (2 ^ 1015) in *.
  assert (H1015 : 2 ^ 1060 = 2 ^ 45 * 2 ^ 1015) by reflexivity.
  rewrite H1015 in *.
  change (2 ^ 53) with 9007199254740992 in *.
  change (2 ^ 45) with 35184372088832 in *.
  change (2 ^ 4) with 16 in *.
  assert (HK : 0 < 2 ^ 1015) by (apply Z.pow_pos_nonneg; lia).
  set (K := 2 ^ 1015) in *. clearbody K.
  nia.
Qed.

(** C9, as the code has it.  [Price] is the binary64 evaluation of
    [1 x vCPU + (1/1024) x memoryMiB + 5 x (sum of the GPU counts)
     + 5 x (sum of the accelerator counts) + 0.01 x localStorageGiB], an
    absent section counting as 0.  For inputs that are not negative and
    below [2^31] (memory below [2^41] MiB) it is exactly that number when
    there is no local storage and within [2^-14] of it otherwise, and
    raising the vCPU count alone raises it strictly. *)
Theorem C9_price (i : InstanceType) :
  price_bounded i ->
  (InstanceStorageInfo_TotalSizeInGB (info i) = None -> (F2Q (Price i) == doc_price i)%Q) /\
  (doc_price i - (1 # 16384) <= F2Q (Price i) <= doc_price i + (1 # 16384))%Q /\
  (forall vcpus',
     VCpuInfo_DefaultVCpus (info i) < vcpus' < 2 ^ 31 ->
     f64_ltb (Price i) (Price (with_vcpus i vcpus')) = true).
Proof.
  intros Hb.
  destruct (Price_value i Hb) as (c5 & c & _ & _ & H5 & Hnone & Hc & Hbound & Hexact & HS3).
  pose proof (F2Q_FV _ _ Hc) as HQ.
  pose proof (doc_price_fraction i) as Hdoc.
  pose proof (Price_gpus_nonneg i Hb) as HG0.
  pose proof (Price_accelerators_nonneg i Hb) as HA0.
  set (A1 := 1024 * VCpuInfo_DefaultVCpus (info i) + MemoryInfo_SizeInMiB (info i)
             + 5120 * Price_gpus i + 5120 * Price_accelerators i) in *.
  assert (HA1 : 0 <= A1 < 2 ^ 47).
  { destruct Hb as (Hv & Hm & _ & _ & Hg & Ha & _). unfold A1.
    change (2 ^ 31) with 2147483648 in *. change (2 ^ 41) with 2199023255552 in *.
    change (2 ^ 47) with 140737488355328. lia. }
  assert (Hs : 0 <= Price_storage i < 2 ^ 31) by apply Hb.
  split; [|split].
  - intros Hstorage. rewrite HQ, Hdoc.
    rewrite (Hexact (Hnone Hstorage)).
    unfold Price_storage. rewrite Hstorage. cbn [default].
    unfold Qeq. cbn [Qnum Qden]. rewrite Pos2Z.inj_pow.
    change (2 ^ 1074) with (1024 * 2 ^ 1064). ring.
  - pose proof (Price_error_arith A1 (Price_storage i) c5 c HA1 Hs H5 Hbound) as Herr.
    rewrite HQ, Hdoc.
    cbv [Qle Qplus Qminus Qopp Qnum Qden].
    rewrite !Pos2Z.inj_mul, !Pos2Z.inj_pow.
    change (2 ^ 1074) with (16384 * 2 ^ 1060) in *.
    assert (0 < 2 ^ 1060) by (apply Z.pow_pos_nonneg; lia).
    set (K := 2 ^ 1060) in *. clearbody K.
    set (s := Price_storage i) in *. clearbody s A1.
    clear - Herr H. split; lia.
  - intros vcpus' Hv. apply Price_monotone; done.
Qed.

Lemma example_price_bounded :
  price_bounded (example_instance "p4d.24xlarge" 96 1179648 (Some [example_a100])).
Proof.
  unfold price_bounded. simpl.
  repeat split; try (vm_compute; congruence); repeat constructor; vm_compute; congruence.
Qed.

Lemma C9_price_witness :
  price_bounded (example_instance "p4d.24xlarge" 96 1179648 (Some [example_a100])) /\
  (F2Q (Price (example_instance "p4d.24xlarge" 96 1179648 (Some [example_a100])))
   == 96 + 1152 + 40)%Q /\
  f64_ltb (Price (example_instance "p4d.24xlarge" 96 1179648 (Some [example_a100])))
          (Price (with_vcpus
                    (example_instance "p4d.24xlarge" 96 1179648 (Some [example_a100])) 97))
  = true.
Proof.
  split; [exact example_price_bounded|].
  destruct (C9_price _ example_price_bounded) as (Hexact & _ & Hmono).
  split.
  - rewrite (Hexact eq_refl). reflexivity.
  - apply Hmono. vm_compute. split; reflexivity.
Defined.

(** The statement of the document fails where [float64] runs out of
    integers: [2^53] and [2^53 + 1] vCPUs have the same price. *)
Lemma C9_counterexample :
  ~ doc_price_monotone_statement (example_instance "m5.large" 2 8192 None)
      9007199254740992 9007199254740993.
Proof.
  unfold doc_price_monotone_statement. intros H.
  specialize (H ltac:(lia)). vm_compute in H. discriminate H.
Qed.

(** * Further properties of the code *)

(** ** The entries of [computeResources] *)

(** A resource list that is returned is the nine-entry literal. *)
Lemma computeResources_Some (ext : Collaborators) (i : InstanceType) (enablePodENI : bool)
    (resources : gmap string Quantity) :
  computeResources ext i enablePodENI = Some resources ->
  exists nvidia amd neurons,
    nvidiaGPUs i = Some nvidia /\ amdGPUs i = Some amd /\ awsNeurons i = Some neurons /\
    resources =
      <[ V1.ResourceCPU := cpu i ]>
      (<[ V1.ResourceMemory := memory ext i ]>
      (<[ V1.ResourceEphemeralStorage := ephemeralStorage ext i ]>
      (<[ V1.ResourcePods := pods i ]>
      (<[ V1alpha1.ResourceAWSPodENI := awsPodENI ext i enablePodENI ]>
      (<[ V1alpha1.ResourceNVIDIAGPU := nvidia ]>
      (<[ V1alpha1.ResourceAMDGPU := amd ]>
      (<[ V1alpha1.ResourceAWSNeuron := neurons ]>
      (<[ V1alpha1.ResourceSmarterDevicesFuse := smarterDevicesFuse i ]> ∅)))))))).
Proof.
  unfold computeResources. intros H.
  destruct (nvidiaGPUs i) as [nvidia|]; [|discriminate].
  destruct (amdGPUs i) as [amd|]; [|discriminate].
  destruct (awsNeurons i) as [neurons|]; [|discriminate].
  cbn [mbind option_bind] in H. injection H as <-.
  exists nvidia, amd, neurons. done.
Qed.

(** X1.  The pod-ENI entry of the resource list is not zero only when the
    feature is enabled, the instance type is in the limits table and its
    entry is trunking-compatible; under these three conditions it is the
    branch-interface count of the entry. *)
Theorem awsPodENI_gate (ext : Collaborators) (i : InstanceType) (enablePodENI : bool)
    (resources : gmap string Quantity) :
  computeResources ext i enablePodENI = Some resources ->
  exists q,
    resources !! V1alpha1.ResourceAWSPodENI = Some q /\
    (milli q <> 0 ->
     enablePodENI = true /\
     exists limits, vpc_Limits ext !! Name i = Some limits /\
                    IsTrunkingCompatible limits = true /\
                    q = Resource.OfInt (BranchInterface limits)) /\
    (forall limits,
       enablePodENI = true -> vpc_Limits ext !! Name i = Some limits ->
       IsTrunkingCompatible limits = true ->
       q = Resource.OfInt (BranchInterface limits)).
Proof.
  intros (nvidia & amd & neurons & _ & _ & _ & ->)%computeResources_Some.
  exists (awsPodENI ext i enablePodENI). split; [lookup_simpl; reflexivity|].
  unfold awsPodENI, Name. split.
  - destruct (vpc_Limits ext !! InstanceType_ (info i)) as [limits|]; [|simpl; lia].
    destruct enablePodENI; [|simpl; lia].
    destruct (IsTrunkingCompatible limits) eqn:Htrunk; [|simpl; lia].
    intros _. split; [reflexivity|]. exists limits. done.
  - intros limits -> -> ->. reflexivity.
Qed.

Lemma awsPodENI_gate_witness :
  exists resources q,
    computeResources example_ext (example_instance "m5.large" 2 8192 None) true
    = Some resources /\
    resources !! V1alpha1.ResourceAWSPodENI = Some q /\
    q = Resource.OfInt 9.
Proof.
  eexists.
  destruct (awsPodENI_gate example_ext (example_instance "m5.large" 2 8192 None) true _ eq_refl)
    as (q & Hq & _ & Hbranch).
  exists q. split; [reflexivity|]. split; [exact Hq|].
  apply (Hbranch (mkVPCLimits true 9)); reflexivity.
Defined.

(** X2.  A resource list that is returned has exactly the nine resource
    names of the literal, which are pairwise distinct, and its
    [smarter-devices/fuse] entry is 1 whatever the instance type. *)
Theorem computeResources_names (ext : Collaborators) (i : InstanceType) (enablePodENI : bool)
    (resources : gmap string Quantity) :
  computeResources ext i enablePodENI = Some resources ->
  dom resources = list_to_set resource_names /\
  size resources = 9%nat /\
  resources !! V1alpha1.ResourceSmarterDevicesFuse = Some (Resource.OfInt 1).
Proof.
  intros (nvidia & amd & neurons & _ & _ & _ & ->)%computeResources_Some.
  assert (Hdom : dom (<[ V1.ResourceCPU := cpu i ]>
      (<[ V1.ResourceMemory := memory ext i ]>
      (<[ V1.ResourceEphemeralStorage := ephemeralStorage ext i ]>
      (<[ V1.ResourcePods := pods i ]>
      (<[ V1alpha1.ResourceAWSPodENI := awsPodENI ext i enablePodENI ]>
      (<[ V1alpha1.ResourceNVIDIAGPU := nvidia ]>
      (<[ V1alpha1.ResourceAMDGPU := amd ]>
      (<[ V1alpha1.ResourceAWSNeuron := neurons ]>
      (<[ V1alpha1.ResourceSmarterDevicesFuse := smarterDevicesFuse i ]>
         (∅ : gmap string Quantity)))))))))) = list_to_set resource_names).
  { rewrite !dom_insert_L, dom_empty_L. unfold resource_names.
    rewrite !list_to_set_cons, list_to_set_nil. reflexivity. }
  split; [exact Hdom|]. split.
  - rewrite <- size_dom, Hdom, size_list_to_set; [reflexivity|].
    unfold resource_names. repeat (apply NoDup_cons; split; [|]); try apply NoDup_nil_2;
      rewrite ?elem_of_cons, elem_of_nil; intros H;
      repeat (destruct H as [H|H]; [vm_compute in H; discriminate H|]); exact H.
  - lookup_simpl. reflexivity.
Qed.

Lemma computeResources_names_witness :
  exists resources,
    computeResources example_ext (example_instance "m5.large" 2 8192 None) false
    = Some resources /\
    size resources = 9%nat.
Proof.
  eexists. split; [reflexivity|].
  apply (computeResources_names example_ext (example_instance "m5.large" 2 8192 None) false _
           eq_refl).
Defined.

(** ** The device counts *)








(** The counts of one manufacturer add up, as long as the sum stays in
    [int64]. *)
Lemma gpus_loop_sum (manufacturer : string) (gpus : list GpuDeviceInfo) (count : Z) :
  Forall (fun gpu => is_Some (gpu_Count gpu) /\ 0 <= default 0 (gpu_Count gpu)) gpus ->
  0 <= count ->
  count + manufacturer_count manufacturer gpus < 2 ^ 63 ->
  gpus_loop manufacturer gpus count
  = Some (count + manufacturer_count manufacturer gpus).
Proof.
  intros Hgpus. revert count.
  induction Hgpus as [|gpu gpus [[c Hc] Hc0] Hgpus IH]; intros count Hcount Hsum.
  - simpl. unfold manufacturer_count. simpl. f_equal. lia.
  - simpl. unfold manufacturer_count in *.
    rewrite Hc in Hc0. cbn [default] in Hc0. unfold id in Hc0.
    destruct (String.eqb_spec (gpu_Manufacturer gpu) manufacturer) as [Heq|Hne].
    + rewrite filter_cons_True in * by done. simpl in Hsum |- *.
      rewrite Hc in Hsum |- *. cbn [default mbind option_bind] in Hsum |- *.
      unfold id in *.
      assert (Hrest : 0 <= gpu_count_total
                             (filter (fun gpu => gpu_Manufacturer gpu = manufacturer) gpus)).
      { apply gpu_count_total_nonneg. apply Forall_forall. intros g Hg.
        apply list_elem_of_filter in Hg as [_ Hg].
        rewrite Forall_forall in Hgpus. apply Hgpus. exact Hg. }
      rewrite wrap64_in_range.
      * rewrite IH by lia. f_equal. lia.
      * unfold in_int. change (2 ^ (64 - 1)) with (2 ^ 63). lia.
    + rewrite filter_cons_False in * by done. apply IH; done.
Qed.

Lemma manufacturer_count_nonneg (manufacturer : string) (gpus : list GpuDeviceInfo) :
  Forall (fun gpu => 0 <= default 0 (gpu_Count gpu)) gpus ->
  0 <= manufacturer_count manufacturer gpus.
Proof.
  intros H. apply gpu_count_total_nonneg. apply Forall_forall. intros g Hg.
  apply list_elem_of_filter in Hg as [_ Hg]. rewrite Forall_forall in H. apply H. exact Hg.
Qed.

(** Two manufacturers share the counts of a list. *)
Lemma manufacturer_count_two (m1 m2 : string) (gpus : list GpuDeviceInfo) :
  m1 <> m2 ->
  Forall (fun gpu => 0 <= default 0 (gpu_Count gpu)) gpus ->
  manufacturer_count m1 gpus + manufacturer_count m2 gpus <= gpu_count_total gpus.
Proof.
  intros Hne. unfold manufacturer_count.
  induction 1 as [|gpu gpus Hc _ IH]; [simpl; lia|].
  destruct (decide (gpu_Manufacturer gpu = m1)) as [H1|H1];
    destruct (decide (gpu_Manufacturer gpu = m2)) as [H2|H2]; [congruence| | |].
  - rewrite filter_cons_True, (filter_cons_False (fun g => gpu_Manufacturer g = m2)) by done.
    simpl. lia.
  - rewrite (filter_cons_False (fun g => gpu_Manufacturer g = m1)), filter_cons_True by done.
    simpl. lia.
  - rewrite !filter_cons_False by done. simpl. lia.
Qed.

(** X4.  With every count present, none negative and a total within
    [int64], the NVIDIA entry of the resource list is the sum of the counts
    of the descriptors whose manufacturer is exactly "NVIDIA", the AMD entry
    that of the descriptors of "AMD" (both 0 without a GPU section), and the
    two together never exceed the sum of all the counts. *)
Theorem gpu_resources (ext : Collaborators) (i : InstanceType) (enablePodENI : bool) :
  counts_present i ->
  Forall (fun gpu => 0 <= default 0 (gpu_Count gpu)) (gpus_of i) ->
  gpu_count_total (gpus_of i) < 2 ^ 63 ->
  exists resources,
    computeResources ext i enablePodENI = Some resources /\
    resources !! V1alpha1.ResourceNVIDIAGPU
      = Some (Resource.OfInt (manufacturer_count "NVIDIA" (gpus_of i))) /\
    resources !! V1alpha1.ResourceAMDGPU
      = Some (Resource.OfInt (manufacturer_count "AMD" (gpus_of i))) /\
    manufacturer_count "NVIDIA" (gpus_of i) + manufacturer_count "AMD" (gpus_of i)
      <= gpu_count_total (gpus_of i).
Proof.
  intros Hcounts Hnonneg Htotal.
  pose proof (manufacturer_count_two "NVIDIA" "AMD" (gpus_of i) ltac:(discriminate) Hnonneg)
    as Htwo.
  pose proof (manufacturer_count_nonneg "NVIDIA" _ Hnonneg) as Hn0.
  pose proof (manufacturer_count_nonneg "AMD" _ Hnonneg) as Ha0.
  destruct (computeResources_defined ext i enablePodENI Hcounts)
    as (nvidia & amd & neurons & Hnv & Hamd & _ & ->).
  eexists. split; [reflexivity|]. lookup_simpl.
  assert (Hloop : forall manufacturer,
            0 <= manufacturer_count manufacturer (gpus_of i) < 2 ^ 63 ->
            match GpuInfo_Gpus (info i) with
            | Some gpus => gpus_loop manufacturer gpus 0
            | None => Some 0
            end = Some (manufacturer_count manufacturer (gpus_of i))).
  { intros manufacturer Hm. unfold gpus_of in *. destruct Hcounts as [Hpresent _].
    destruct (GpuInfo_Gpus (info i)) as [gpus|]; cbn [default] in *; [|reflexivity].
    unfold id in *. rewrite gpus_loop_sum; [f_equal; lia| |lia|lia].
    specialize (Hpresent gpus eq_refl).
    rewrite Forall_forall in *. intros g Hg. split; [apply Hpresent|apply Hnonneg]; done. }
  unfold nvidiaGPUs in Hnv. rewrite Hloop in Hnv by lia.
  unfold amdGPUs in Hamd. rewrite Hloop in Hamd by lia.
  cbn [mbind option_bind] in Hnv, Hamd.
  injection Hnv as <-. injection Hamd as <-. done.
Qed.

Lemma gpu_resources_witness :
  exists resources,
    computeResources example_ext
      (example_instance "p4d.24xlarge" 96 1179648
         (Some [example_a100; mkGpu "MI100" "AMD" (Some 2) 32768; example_a100])) false
    = Some resources /\
    resources !! V1alpha1.ResourceNVIDIAGPU = Some (Resource.OfInt 16) /\
    resources !! V1alpha1.ResourceAMDGPU = Some (Resource.OfInt 2).
Proof.
  destruct (gpu_resources example_ext
              (example_instance "p4d.24xlarge" 96 1179648
                 (Some [example_a100; mkGpu "MI100" "AMD" (Some 2) 32768; example_a100]))
              false)
    as (resources & Hres & Hnv & Hamd & _).
  - split; simpl; intros l Hl; [|discriminate].
    injection Hl as <-. repeat constructor; simpl; eauto.
  - repeat constructor; simpl; lia.
  - vm_compute. reflexivity.
  - exists resources. split; [exact Hres|]. split; [exact Hnv|exact Hamd].
Defined.

(** The counts of the accelerators add up likewise. *)
Lemma awsNeurons_loop_sum (accelerators : list InferenceDeviceInfo) (count : Z) :
  Forall (fun acc => is_Some (acc_Count acc) /\ 0 <= default 0 (acc_Count acc))
    accelerators ->
  0 <= count ->
  count + accelerator_count_total accelerators < 2 ^ 63 ->
  awsNeurons_loop accelerators count
  = Some (count + accelerator_count_total accelerators).
Proof.
  intros Haccs. revert count.
  induction Haccs as [|acc accs [[c Hc] Hc0] Hrest IH]; intros count Hcount Hsum.
  - simpl. f_equal. lia.
  - simpl in Hsum |- *. rewrite Hc in Hc0, Hsum |- *. cbn [default mbind option_bind] in *.
    unfold id in *.
    assert (0 <= accelerator_count_total accs).
    { apply accelerator_count_total_nonneg. eapply Forall_impl; [exact Hrest|].
      intros a [_ Ha]. exact Ha. }
    rewrite wrap64_in_range.
    + rewrite IH by lia. f_equal. lia.
    + unfold in_int. change (2 ^ (64 - 1)) with (2 ^ 63). lia.
Qed.

(** X5.  With every count present, none negative and a total within
    [int64], the Neuron entry of the resource list is the sum of the counts
    of all the inference accelerators, 0 without an accelerator section. *)
Theorem neuron_resources (ext : Collaborators) (i : InstanceType) (enablePodENI : bool) :
  counts_present i ->
  Forall (fun acc => 0 <= default 0 (acc_Count acc)) (accelerators_of i) ->
  accelerator_count_total (accelerators_of i) < 2 ^ 63 ->
  exists resources,
    computeResources ext i enablePodENI = Some resources /\
    resources !! V1alpha1.ResourceAWSNeuron
      = Some (Resource.OfInt (accelerator_count_total (accelerators_of i))) /\
    (InferenceAcceleratorInfo_Accelerators (info i) = None ->
     resources !! V1alpha1.ResourceAWSNeuron = Some (Resource.OfInt 0)).
Proof.
  intros Hcounts Hnonneg Htotal.
  destruct (computeResources_defined ext i enablePodENI Hcounts)
    as (nvidia & amd & neurons & _ & _ & Hneu & ->).
  eexists. split; [reflexivity|]. lookup_simpl.
  unfold awsNeurons, accelerators_of in *. destruct Hcounts as [_ Hpresent].
  destruct (InferenceAcceleratorInfo_Accelerators (info i)) as [accs|]; cbn [default] in *.
  - unfold id in *. rewrite awsNeurons_loop_sum in Hneu; [| |lia|lia].
    + cbn [mbind option_bind] in Hneu. injection Hneu as <-.
      split; [do 2 f_equal; lia|discriminate].
    + specialize (Hpresent accs eq_refl).
      rewrite Forall_forall in *. intros a Ha. split; [apply Hpresent|apply Hnonneg]; done.
  - cbn [mbind option_bind] in Hneu. injection Hneu as <-. done.
Qed.

Lemma neuron_resources_witness :
  exists resources,
    computeResources example_ext
      (example_inf1 [mkAccelerator (Some 1); mkAccelerator (Some 3)]) true
    = Some resources /\
    resources !! V1alpha1.ResourceAWSNeuron = Some (Resource.OfInt 4).
Proof.
  destruct (neuron_resources example_ext
              (example_inf1 [mkAccelerator (Some 1); mkAccelerator (Some 3)]) true)
    as (resources & Hres & Hneurons & _).
  - split; simpl; intros l Hl; [discriminate|].
    injection Hl as <-. repeat constructor; simpl; eauto.
  - repeat constructor; simpl; lia.
  - vm_compute. reflexivity.
  - exists resources. split; [exact Hres|exact Hneurons].
Defined.

(** ** The entries of [computeOverhead] *)

Lemma computeOverhead_turn_dom (ext : Collaborators) (i : InstanceType)
    (overhead : gmap string Quantity) (range : cpuRange) :
  V1.ResourceCPU ∈ dom overhead ->
  dom (computeOverhead_turn ext i overhead range) = dom overhead.
Proof.
  intros Hcpu. unfold computeOverhead_turn.
  destruct (_ <=? _); [|reflexivity].
  rewrite dom_insert_L. apply subseteq_union_1_L, singleton_subseteq_l. exact Hcpu.
Qed.

Lemma computeOverhead_loop_dom (ext : Collaborators) (i : InstanceType)
    (ranges : list cpuRange) (overhead : gmap string Quantity) :
  V1.ResourceCPU ∈ dom overhead ->
  dom (fold_left (computeOverhead_turn ext i) ranges overhead) = dom overhead.
Proof.
  revert overhead. induction ranges as [|r ranges IH]; intros overhead Hcpu; simpl.
  - reflexivity.
  - rewrite IH; rewrite computeOverhead_turn_dom; done.
Qed.

(** X6.  The overhead has exactly three entries, CPU, memory and ephemeral
    storage: the loop over the bands adds none.  Its ephemeral-storage entry
    is the overhead that the AMI family of the configuration declares. *)
Theorem computeOverhead_names (ext : Collaborators) (i : InstanceType) :
  dom (computeOverhead ext i) = list_to_set overhead_names /\
  size (computeOverhead ext i) = 3%nat /\
  computeOverhead ext i !! V1.ResourceEphemeralStorage
  = Some (EphemeralBlockDeviceOverhead (GetAMIFamily ext (AMIFamily (provider i)))).
Proof.
  assert (Hdom : dom (computeOverhead ext i) = list_to_set overhead_names).
  { unfold computeOverhead. rewrite computeOverhead_loop_dom.
    - rewrite !dom_insert_L, dom_empty_L. unfold overhead_names.
      rewrite !list_to_set_cons, list_to_set_nil. reflexivity.
    - rewrite dom_insert_L. apply elem_of_union_l, elem_of_singleton. reflexivity. }
  split; [exact Hdom|]. split.
  - rewrite <- size_dom, Hdom, size_list_to_set; [reflexivity|].
    unfold overhead_names. repeat (apply NoDup_cons; split; [|]); try apply NoDup_nil_2;
      rewrite ?elem_of_cons, elem_of_nil; intros H;
      repeat (destruct H as [H|H]; [vm_compute in H; discriminate H|]); exact H.
  - unfold computeOverhead. rewrite computeOverhead_loop_other by key_ne.
    lookup_simpl. reflexivity.
Qed.

(** The CPU overhead as a sum of four terms. *)
Lemma cpu_overhead_of_bands (total : Z) :
  cpu_overhead_of total
  = 100 + band_contribution total (0, 1000, 6, 100)
        + band_contribution total (1000, 2000, 1, 100)
        + band_contribution total (2000, 4000, 5, 1000)
        + band_contribution total (4000, 2 ^ 31, 25, 10000).
Proof. reflexivity. Qed.

Lemma computeOverhead_cpu_of (ext : Collaborators) (i : InstanceType) :
  in_int 64 (1000 * VCpuInfo_DefaultVCpus (info i)) ->
  computeOverhead ext i !! V1.ResourceCPU
  = Some (mkQuantity (cpu_overhead_of (1000 * VCpuInfo_DefaultVCpus (info i)))).
Proof. intros H. apply computeOverhead_cpu. exact H. Qed.

(** A band never takes away, and a larger total never gets less from it. *)
Lemma band_contribution_mono (total total' band_start band_end num den : Z) :
  band_start <= band_end -> 0 <= num -> 0 < den -> total <= total' ->
  0 <= band_contribution total (band_start, band_end, num, den)
    <= band_contribution total' (band_start, band_end, num, den).
Proof.
  intros Hband Hnum Hden Hle. cbn [band_contribution].
  destruct (Z.leb_spec band_start total), (Z.leb_spec band_start total'); try lia.
  - split.
    + apply Z.div_pos; [|lia]. apply Z.mul_nonneg_nonneg; lia.
    + apply Z.div_le_mono; [lia|]. apply Z.mul_le_mono_nonneg_r; lia.
  - split; [lia|]. apply Z.div_pos; [|lia]. apply Z.mul_nonneg_nonneg; lia.
Qed.

Lemma cpu_overhead_of_mono (total total' : Z) :
  total <= total' -> 100 <= cpu_overhead_of total <= cpu_overhead_of total'.
Proof.
  intros Hle. rewrite !cpu_overhead_of_bands.
  change (2 ^ 31) with 2147483648.
  pose proof (band_contribution_mono total total' 0 1000 6 100
                ltac:(lia) ltac:(lia) ltac:(lia) Hle).
  pose proof (band_contribution_mono total total' 1000 2000 1 100
                ltac:(lia) ltac:(lia) ltac:(lia) Hle).
  pose proof (band_contribution_mono total total' 2000 4000 5 1000
                ltac:(lia) ltac:(lia) ltac:(lia) Hle).
  pose proof (band_contribution_mono total total' 4000 2147483648 25 10000
                ltac:(lia) ltac:(lia) ltac:(lia) Hle).
  lia.
Qed.

(** From the end of the last band on the overhead no longer grows. *)
Lemma cpu_overhead_of_cap (total : Z) :
  2 ^ 31 <= total -> cpu_overhead_of total = 5368879.
Proof.
  change (2 ^ 31) with 2147483648. intros H.
  rewrite cpu_overhead_of_bands. change (2 ^ 31) with 2147483648.
  cbn [band_contribution].
  destruct (Z.leb_spec 0 total); [|lia]. destruct (Z.leb_spec 1000 total); [|lia].
  destruct (Z.leb_spec 2000 total); [|lia]. destruct (Z.leb_spec 4000 total); [|lia].
  rewrite !Z.min_r by lia. reflexivity.
Qed.

Lemma cpu_overhead_of_nonpositive (total : Z) :
  total <= 0 -> cpu_overhead_of total = 100.
Proof.
  intros H. rewrite cpu_overhead_of_bands. cbn [band_contribution].
  destruct (Z.leb_spec 1000 total); [lia|]. destruct (Z.leb_spec 2000 total); [lia|].
  destruct (Z.leb_spec 4000 total); [lia|].
  destruct (Z.leb_spec 0 total); [|lia].
  assert (total = 0) as -> by lia. reflexivity.
Qed.

(** X7.  The CPU overhead grows with the vCPU count: of two instance types,
    the one with at least as many vCPUs has at least as much CPU overhead,
    whatever else differs between them. *)
Theorem cpu_overhead_monotone (ext : Collaborators) (i i' : InstanceType) :
  in_int 64 (1000 * VCpuInfo_DefaultVCpus (info i)) ->
  in_int 64 (1000 * VCpuInfo_DefaultVCpus (info i')) ->
  VCpuInfo_DefaultVCpus (info i) <= VCpuInfo_DefaultVCpus (info i') ->
  exists q q',
    computeOverhead ext i !! V1.ResourceCPU = Some q /\
    computeOverhead ext i' !! V1.ResourceCPU = Some q' /\
    milli q <= milli q'.
Proof.
  intros Hint Hint' Hle.
  rewrite (computeOverhead_cpu_of ext i Hint), (computeOverhead_cpu_of ext i' Hint').
  eexists _, _. split; [reflexivity|]. split; [reflexivity|]. cbn [milli].
  apply cpu_overhead_of_mono. lia.
Qed.

Lemma cpu_overhead_monotone_witness :
  exists q q',
    computeOverhead example_ext (example_instance "m5.large" 2 8192 None) !! V1.ResourceCPU
    = Some q /\
    computeOverhead example_ext (example_instance "p4d.24xlarge" 96 1179648 None)
      !! V1.ResourceCPU = Some q' /\
    milli q <= milli q'.
Proof.
  apply (cpu_overhead_monotone example_ext (example_instance "m5.large" 2 8192 None)
           (example_instance "p4d.24xlarge" 96 1179648 None));
    vm_compute; try split; congruence.
Defined.

(** X8.  The CPU overhead lies between 100 and 5368879 milli-units: it is
    100 when the vCPU count is 0 or negative (no band adds anything), and it
    is 5368879 for every total of at least [2^31] milli-CPU, the end of the
    last band. *)
Theorem cpu_overhead_range (ext : Collaborators) (i : InstanceType) :
  let total := 1000 * VCpuInfo_DefaultVCpus (info i) in
  in_int 64 total ->
  exists q,
    computeOverhead ext i !! V1.ResourceCPU = Some q /\
    100 <= milli q <= 5368879 /\
    (VCpuInfo_DefaultVCpus (info i) <= 0 -> milli q = 100) /\
    (2 ^ 31 <= total -> milli q = 5368879).
Proof.
  intros total Hint. rewrite (computeOverhead_cpu_of ext i Hint). fold total.
  eexists. split; [reflexivity|]. cbn [milli].
  split; [|split].
  - destruct (Z.le_gt_cases total (2 ^ 31)) as [Hle|Hgt].
    + pose proof (cpu_overhead_of_mono total (2 ^ 31) Hle) as Hm.
      rewrite (cpu_overhead_of_cap (2 ^ 31)) in Hm by lia. exact Hm.
    + rewrite cpu_overhead_of_cap by lia. lia.
  - intros Hv. apply cpu_overhead_of_nonpositive. unfold total. lia.
  - apply cpu_overhead_of_cap.
Qed.

Lemma cpu_overhead_range_witness :
  exists q,
    computeOverhead example_ext (example_instance "u-24tb1.metal" 3000000 25165824 None)
      !! V1.ResourceCPU = Some q /\
    milli q = 5368879.
Proof.
  destruct (cpu_overhead_range example_ext
              (example_instance "u-24tb1.metal" 3000000 25165824 None))
    as (q & Hq & _ & _ & Hcap).
  - vm_compute. split; congruence.
  - exists q. split; [exact Hq|]. apply Hcap. vm_compute. congruence.
Defined.

(** X9.  With at least one vCPU the CPU overhead is less than the CPU
    capacity of the resource list, so that some CPU stays allocatable. *)
Theorem cpu_overhead_below_capacity (ext : Collaborators) (i : InstanceType) :
  1 <= VCpuInfo_DefaultVCpus (info i) ->
  in_int 64 (1000 * VCpuInfo_DefaultVCpus (info i)) ->
  exists q,
    computeOverhead ext i !! V1.ResourceCPU = Some q /\
    milli q < milli (cpu i).
Proof.
  intros Hv Hint. rewrite (computeOverhead_cpu_of ext i Hint).
  eexists. split; [reflexivity|]. unfold cpu, Resource.OfInt. cbn [milli].
  set (total := 1000 * VCpuInfo_DefaultVCpus (info i)).
  assert (Htotal : 1000 <= total) by (unfold total; lia). clearbody total.
  rewrite cpu_overhead_of_bands. change (2 ^ 31) with 2147483648.
  cbn [band_contribution].
  destruct (Z.leb_spec 0 total); [|lia]. destruct (Z.leb_spec 1000 total); [|lia].
  rewrite (Z.min_r total 1000) by lia.
  change ((1000 - 0) * 6 / 100) with 60.
  assert (H2 : (Z.min total 2000 - 1000) * 1 / 100 <= 10).
  { apply Z.div_le_upper_bound; lia. }
  assert (H3 : (Z.min total 4000 - 2000) * 5 / 1000 <= 10).
  { apply Z.div_le_upper_bound; lia. }
  assert (H4 : 4000 <= total -> (Z.min total 2147483648 - 4000) * 25 / 10000 <= total - 4000).
  { intros H4. apply Z.div_le_upper_bound; lia. }
  destruct (Z.leb_spec 2000 total); destruct (Z.leb_spec 4000 total); lia.
Qed.

Lemma cpu_overhead_below_capacity_witness :
  exists q,
    computeOverhead example_ext (example_instance "t3.nano" 1 512 None) !! V1.ResourceCPU
    = Some q /\
    milli q < 1000.
Proof.
  apply (cpu_overhead_below_capacity example_ext (example_instance "t3.nano" 1 512 None)).
  - simpl. lia.
  - vm_compute. split; congruence.
Defined.

(** ** Allocatable memory *)

(** X10.  For a memory size of [m] MiB (up to the sizes whose result fits
    [int32]) the memory of the resource list is [a] MiB with
    [37 m / 40 - 1 < a <= 37 m / 40]: it never exceeds the physical size,
    the part held back is at least 7.5% of it, and a larger physical size
    never gives less. *)
Theorem memory_reserve (ext : Collaborators) (i i' : InstanceType) :
  let m := MemoryInfo_SizeInMiB (info i) in
  let m' := MemoryInfo_SizeInMiB (info i') in
  0 <= m <= 2321603943 -> 0 <= m' <= 2321603943 ->
  exists a a',
    memory ext i = Resource.OfMi a /\ memory ext i' = Resource.OfMi a' /\
    0 <= a <= m /\
    3 * m <= 40 * (m - a) < 3 * m + 40 /\
    (m <= m' -> a <= a').
Proof.
  intros m m' Hm Hm'. unfold memory. fold m m'.
  rewrite !memory_conversion by done.
  eexists _, _. split; [reflexivity|]. split; [reflexivity|].
  assert (Hdiv : forall n, n * 925 / 1000 = n * 37 / 40).
  { intros n. replace (n * 925) with (n * 37 * 25) by ring.
    change 1000 with (40 * 25). apply Z.div_mul_cancel_r; lia. }
  rewrite !Hdiv.
  pose proof (Z.div_mod (m * 37) 40 ltac:(lia)) as Hdm.
  pose proof (Z.mod_pos_bound (m * 37) 40 ltac:(lia)) as Hmod.
  split; [lia|]. split; [lia|].
  intros Hle. apply Z.div_le_mono; lia.
Qed.

Lemma memory_reserve_witness :
  exists a a',
    memory example_ext (example_instance "m5.large" 2 8192 None) = Resource.OfMi a /\
    memory example_ext (example_instance "m5.xlarge" 4 16384 None) = Resource.OfMi a' /\
    a <= 8192 /\ a <= a'.
Proof.
  destruct (memory_reserve example_ext (example_instance "m5.large" 2 8192 None)
              (example_instance "m5.xlarge" 4 16384 None))
    as (a & a' & Ha & Ha' & Hbound & _ & Hmono).
  - simpl. lia.
  - simpl. lia.
  - exists a, a'. split; [exact Ha|]. split; [exact Ha'|].
    split; [apply Hbound|]. apply Hmono. simpl. lia.
Defined.

(** ** The keys of [computeRequirements] *)

Lemma dom_Requirements_Add (ext : Collaborators)
    (requirements incoming : gmap string (gset string)) :
  dom (Requirements_Add ext requirements incoming) = dom incoming ∪ dom requirements.
Proof.
  apply set_eq. intros key. rewrite elem_of_union, !elem_of_dom.
  unfold Requirements_Add. rewrite lookup_union_with.
  destruct (incoming !! key), (requirements !! key); simpl;
    split; intros H; eauto; destruct H as [[? H]|[? H]]; discriminate H.
Qed.

Lemma dom_instanceTypeLabels (ext : Collaborators) (i : InstanceType)
    (requirements : gmap string (gset string)) :
  dom (computeRequirements_instanceTypeLabels ext i requirements)
  = (if decide (length (Strings.Split (Name i) ".") = 2%nat)
     then list_to_set instance_type_label_keys else ∅) ∪ dom requirements.
Proof.
  unfold computeRequirements_instanceTypeLabels, Name.
  destruct (Strings.Split (InstanceType_ (info i)) ".") as [|family [|size [|]]];
    cbn [length]; try (rewrite decide_False by lia; rewrite (left_id_L ∅ (∪)); reflexivity).
  rewrite decide_True by reflexivity.
  rewrite dom_Requirements_Add, !dom_insert_L, dom_empty_L.
  unfold instance_type_label_keys. rewrite !list_to_set_cons, list_to_set_nil. reflexivity.
Qed.

Lemma dom_gpuLabels (ext : Collaborators) (i : InstanceType)
    (requirements : gmap string (gset string)) :
  dom (computeRequirements_gpuLabels ext i requirements)
  = (if decide (length (gpus_of i) = 1%nat) then list_to_set gpu_label_keys else ∅)
    ∪ dom requirements.
Proof.
  unfold computeRequirements_gpuLabels, gpus_of.
  destruct (GpuInfo_Gpus (info i)) as [[|gpu [|]]|];
    cbn [length default]; try (rewrite decide_False by (simpl; lia);
                               rewrite (left_id_L ∅ (∪)); reflexivity).
  rewrite decide_True by reflexivity.
  rewrite dom_Requirements_Add, !dom_insert_L, dom_empty_L.
  unfold gpu_label_keys. rewrite !list_to_set_cons, list_to_set_nil. reflexivity.
Qed.

Lemma label_keys_NoDup :
  NoDup (literal_label_keys ++ instance_type_label_keys ++ gpu_label_keys).
Proof.
  unfold literal_label_keys, instance_type_label_keys, gpu_label_keys. cbn [app].
  repeat (apply NoDup_cons; split; [|]); try apply NoDup_nil_2;
    rewrite ?elem_of_cons, elem_of_nil; intros H;
    repeat (destruct H as [H|H]; [vm_compute in H; discriminate H|]); exact H.
Qed.

(** X11.  The keys of the requirements are the seven keys of the literal,
    the family and size keys exactly when the name splits into two parts,
    and the four GPU keys exactly when there is one GPU descriptor; the
    thirteen keys are pairwise distinct, so that no step overwrites the
    label of another. *)
Theorem computeRequirements_keys (ext : Collaborators) (i : InstanceType) :
  dom (computeRequirements ext i)
  = list_to_set literal_label_keys
    ∪ (if decide (length (Strings.Split (Name i) ".") = 2%nat)
       then list_to_set instance_type_label_keys else ∅)
    ∪ (if decide (length (gpus_of i) = 1%nat) then list_to_set gpu_label_keys else ∅) /\
  NoDup (literal_label_keys ++ instance_type_label_keys ++ gpu_label_keys).
Proof.
  split; [|exact label_keys_NoDup].
  unfold computeRequirements. rewrite dom_gpuLabels, dom_instanceTypeLabels.
  assert (Hliteral : dom (computeRequirements_literal i) = list_to_set literal_label_keys).
  { unfold computeRequirements_literal. rewrite !dom_insert_L, dom_empty_L.
    unfold literal_label_keys. rewrite !list_to_set_cons, list_to_set_nil. reflexivity. }
  rewrite Hliteral.
  generalize (list_to_set literal_label_keys : gset string).
  intros L.
  generalize (if decide (length (Strings.Split (Name i) ".") = 2%nat)
              then list_to_set instance_type_label_keys else (∅ : gset string)).
  generalize (if decide (length (gpus_of i) = 1%nat)
              then list_to_set gpu_label_keys else (∅ : gset string)).
  intros G T. apply set_eq. intros key. rewrite !elem_of_union. tauto.
Qed.

(** ** The labels of the literal *)

Lemma NewSet_elem_of (values : list string) (x : string) :
  x ∈ NewSet values <-> In x values.
Proof. unfold NewSet. rewrite elem_of_list_to_set. apply list_elem_of_In. Qed.

Lemma computeRequirements_literal_lookup (ext : Collaborators) (i : InstanceType) :
  computeRequirements ext i !! V1.LabelInstanceTypeStable = Some (NewSet [Name i]) /\
  computeRequirements ext i !! V1.LabelOSStable
    = Some (NewSet [V1alpha5.OperatingSystemLinux]) /\
  computeRequirements ext i !! V1.LabelTopologyZone
    = Some (NewSet (map Zone (offerings i))) /\
  computeRequirements ext i !! V1alpha5.LabelCapacityType
    = Some (NewSet (map CapacityType (offerings i))) /\
  computeRequirements ext i !! V1alpha1.InstanceCPULabelKey
    = Some (NewSet [Fmt.Sprint_int (VCpuInfo_DefaultVCpus (info i))]) /\
  computeRequirements ext i !! V1alpha1.InstanceMemoryLabelKey
    = Some (NewSet [Fmt.Sprint_int (MemoryInfo_SizeInMiB (info i))]).
Proof.
  repeat split;
    (rewrite computeRequirements_literal_key by first [key_ne | not_gpu_key];
     unfold computeRequirements_literal; lookup_simpl; reflexivity).
Qed.

(** X12.  The zone requirement holds exactly the zones of the offerings and
    the capacity-type requirement exactly their capacity types, each value
    once however many offerings carry it; without offerings both keys are
    present with an empty set. *)
Theorem offering_requirements (ext : Collaborators) (i : InstanceType) :
  exists zones capacityTypes,
    computeRequirements ext i !! V1.LabelTopologyZone = Some zones /\
    computeRequirements ext i !! V1alpha5.LabelCapacityType = Some capacityTypes /\
    (forall z, z ∈ zones <-> exists o, In o (offerings i) /\ Zone o = z) /\
    (forall c, c ∈ capacityTypes <-> exists o, In o (offerings i) /\ CapacityType o = c) /\
    (size zones <= length (offerings i))%nat /\
    (size capacityTypes <= length (offerings i))%nat /\
    (offerings i = [] -> zones = ∅ /\ capacityTypes = ∅).
Proof.
  destruct (computeRequirements_literal_lookup ext i) as (_ & _ & Hz & Hc & _).
  eexists _, _. split; [exact Hz|]. split; [exact Hc|].
  assert (Hsize : forall l : list string, (size (NewSet l) <= length l)%nat).
  { intros l. unfold NewSet. induction l as [|x l IH].
    - rewrite list_to_set_nil, size_empty. simpl. lia.
    - rewrite list_to_set_cons, size_union_alt, size_singleton. cbn [length].
      assert (size (list_to_set l ∖ {[x]} : gset string)
              <= size (list_to_set l : gset string))%nat
        by (apply subseteq_size, subseteq_difference_l; reflexivity).
      lia. }
  split; [|split; [|split; [|split]]].
  - intros z. rewrite NewSet_elem_of, in_map_iff. split; intros (o & ? & ?); exists o; done.
  - intros c. rewrite NewSet_elem_of, in_map_iff. split; intros (o & ? & ?); exists o; done.
  - etransitivity; [apply Hsize|]. rewrite length_map. done.
  - etransitivity; [apply Hsize|]. rewrite length_map. done.
  - intros ->. done.
Qed.

Lemma offering_requirements_witness :
  computeRequirements example_ext (example_inf1 []) !! V1.LabelTopologyZone = Some ∅.
Proof.
  destruct (offering_requirements example_ext (example_inf1 []))
    as (zones & capacityTypes & Hzones & _ & _ & _ & _ & _ & Hempty).
  destruct (Hempty eq_refl) as [Hz _]. rewrite Hzones, Hz. reflexivity.
Defined.

(** X13.  The requirements keep the offerings only as a set of zones and a
    set of capacity types: two instance types with the same metadata whose
    offerings have the same zones and the same capacity types get the same
    requirements, however the zones are paired with the capacity types, and
    whatever their configuration and pod override. *)
Theorem requirements_forget_pairing (ext : Collaborators) (i i' : InstanceType) :
  info i = info i' ->
  (forall z, In z (map Zone (offerings i)) <-> In z (map Zone (offerings i'))) ->
  (forall c, In c (map CapacityType (offerings i))
             <-> In c (map CapacityType (offerings i'))) ->
  computeRequirements ext i = computeRequirements ext i'.
Proof.
  intros Hinfo Hzones Hcaps.
  assert (Hz : NewSet (map Zone (offerings i)) = NewSet (map Zone (offerings i'))).
  { apply set_eq. intros z. rewrite !NewSet_elem_of. apply Hzones. }
  assert (Hc : NewSet (map CapacityType (offerings i))
               = NewSet (map CapacityType (offerings i'))).
  { apply set_eq. intros c. rewrite !NewSet_elem_of. apply Hcaps. }
  unfold computeRequirements, computeRequirements_gpuLabels,
    computeRequirements_instanceTypeLabels, computeRequirements_literal,
    Name, architecture.
  rewrite Hz, Hc, Hinfo. reflexivity.
Qed.

Lemma requirements_forget_pairing_witness :
  computeRequirements example_ext
    {| info := example_info "m5.large" 2 8192 None;
       offerings := [mkOffering "on-demand" "us-west-2a"; mkOffering "spot" "us-west-2b"];
       provider := mkAWS None [];
       maxPods := None |}
  = computeRequirements example_ext
      {| info := example_info "m5.large" 2 8192 None;
         offerings := [mkOffering "spot" "us-west-2a"; mkOffering "on-demand" "us-west-2b";
                       mkOffering "spot" "us-west-2b"];
         provider := mkAWS (Some "Bottlerocket"%string) [];
         maxPods := Some 110 |}.
Proof.
  apply requirements_forget_pairing; [reflexivity|..]; intros x; simpl; tauto.
Defined.

(** X14.  The instance-type label is the name, the operating-system label
    is "linux", and the cpu and memory labels are the decimal numerals of
    the vCPU count and of the physical memory size in MiB (not of the
    allocatable memory); the numerals determine the numbers, so that two
    instance types with the same cpu label have the same vCPU count, and
    likewise for the memory label. *)
Theorem resource_labels (ext : Collaborators) (i i' : InstanceType) :
  computeRequirements ext i !! V1.LabelInstanceTypeStable = Some {[ Name i ]} /\
  computeRequirements ext i !! V1.LabelOSStable = Some {[ "linux"%string ]} /\
  computeRequirements ext i !! V1alpha1.InstanceCPULabelKey
    = Some {[ Fmt.Sprint_int (VCpuInfo_DefaultVCpus (info i)) ]} /\
  computeRequirements ext i !! V1alpha1.InstanceMemoryLabelKey
    = Some {[ Fmt.Sprint_int (MemoryInfo_SizeInMiB (info i)) ]} /\
  (computeRequirements ext i !! V1alpha1.InstanceCPULabelKey
   = computeRequirements ext i' !! V1alpha1.InstanceCPULabelKey ->
   VCpuInfo_DefaultVCpus (info i) = VCpuInfo_DefaultVCpus (info i')) /\
  (computeRequirements ext i !! V1alpha1.InstanceMemoryLabelKey
   = computeRequirements ext i' !! V1alpha1.InstanceMemoryLabelKey ->
   MemoryInfo_SizeInMiB (info i) = MemoryInfo_SizeInMiB (info i')).
Proof.
  destruct (computeRequirements_literal_lookup ext i) as (Hn & Ho & _ & _ & Hc & Hm).
  destruct (computeRequirements_literal_lookup ext i') as (_ & _ & _ & _ & Hc' & Hm').
  rewrite Hn, Ho, Hc, Hm, Hc', Hm', !NewSet_singleton.
  repeat split.
  - intros H. apply (inj Some) in H. apply (inj (singleton : string -> gset string)) in H.
    unfold Fmt.Sprint_int in H. apply (inj pretty) in H. exact H.
  - intros H. apply (inj Some) in H. apply (inj (singleton : string -> gset string)) in H.
    unfold Fmt.Sprint_int in H. apply (inj pretty) in H. exact H.
Qed.

Lemma resource_labels_witness :
  computeRequirements example_ext (example_instance "m5.large" 2 8192 None)
    !! V1alpha1.InstanceMemoryLabelKey = Some {[ "8192"%string ]} /\
  VCpuInfo_DefaultVCpus (info (example_instance "m5.large" 2 8192 None))
  = VCpuInfo_DefaultVCpus (info (example_instance "c5.large" 2 4096 None)).
Proof.
  destruct (resource_labels example_ext (example_instance "m5.large" 2 8192 None)
              (example_instance "c5.large" 2 4096 None))
    as (_ & _ & _ & Hm & Hcpu & _).
  split; [exact Hm|]. apply Hcpu. vm_compute. reflexivity.
Defined.

(** ** The parts of a name *)

Lemma Split_nonempty (s : string) (sep : ascii) : Strings.Split s sep <> [].
Proof.
  intros H. pose proof (Split_length s sep) as Hlen. rewrite H in Hlen. discriminate Hlen.
Qed.

(** Joining the parts with the separator gives the string back. *)
Lemma Join_Split (s : string) (sep : ascii) :
  Strings.Join (Strings.Split s sep) (String sep EmptyString) = s.
Proof.
  induction s as [|c s IH]; [reflexivity|]. cbn [Strings.Split].
  destruct (Ascii.eqb_spec c sep) as [->|Hne].
  - destruct (Strings.Split s sep) as [|piece pieces] eqn:E.
    + exfalso. exact (Split_nonempty s sep E).
    + change (Strings.Join (EmptyString :: piece :: pieces) (String sep EmptyString))
        with (String sep (Strings.Join (piece :: pieces) (String sep EmptyString))).
      rewrite IH. reflexivity.
  - destruct (Strings.Split s sep) as [|piece [|piece' pieces]] eqn:E.
    + exfalso. exact (Split_nonempty s sep E).
    + cbn [Strings.Join] in *. rewrite IH. reflexivity.
    + change (Strings.Join (String c piece :: piece' :: pieces) (String sep EmptyString))
        with (String c (Strings.Join (piece :: piece' :: pieces) (String sep EmptyString))).
      rewrite IH. reflexivity.
Qed.

(** No part holds the separator. *)
Lemma Split_parts (s : string) (sep : ascii) :
  Forall (fun part => count_byte part sep = 0%nat) (Strings.Split s sep).
Proof.
  induction s as [|c s IH]; cbn [Strings.Split].
  - repeat constructor.
  - destruct (Ascii.eqb c sep) eqn:Hc.
    + constructor; [reflexivity|exact IH].
    + destruct (Strings.Split s sep) as [|piece pieces]; [repeat constructor; simpl; rewrite Hc; reflexivity|].
      apply Forall_cons in IH as [Hpiece Hpieces].
      constructor; [|exact Hpieces]. simpl. rewrite Hc, Hpiece. reflexivity.
Qed.

(** X15.  When the family label is present, so is the size label, each
    holds one value, neither value contains a ".", and the two values joined
    by "." are the name of the instance type. *)
Theorem family_size_round_trip (ext : Collaborators) (i : InstanceType)
    (families : gset string) :
  computeRequirements ext i !! V1alpha1.InstanceFamilyLabelKey = Some families ->
  exists family size,
    families = {[ family ]} /\
    computeRequirements ext i !! V1alpha1.InstanceSizeLabelKey = Some {[ size ]} /\
    Name i = family +:+ "." +:+ size /\
    count_byte family "." = 0%nat /\ count_byte size "." = 0%nat.
Proof.
  intros Hfamily.
  destruct (literal_no_family_size i) as [Hf Hs].
  destruct (Strings.Split (InstanceType_ (info i)) ".") as [|family [|size [|]]] eqn:Hsplit.
  1, 2, 4: exfalso; unfold computeRequirements in Hfamily;
    rewrite gpuLabels_other in Hfamily by not_gpu_key;
    rewrite instanceTypeLabels_other_parts in Hfamily
      by (rewrite Hsplit; simpl; lia);
    rewrite Hf in Hfamily; discriminate Hfamily.
  unfold computeRequirements in *.
  rewrite gpuLabels_other in Hfamily by not_gpu_key.
  rewrite !gpuLabels_other by not_gpu_key.
  destruct (instanceTypeLabels_two_parts ext i (computeRequirements_literal i) family size
              Hsplit Hf Hs) as [Hfam Hsize].
  rewrite Hfam in Hfamily. injection Hfamily as <-.
  exists family, size. split; [reflexivity|]. split; [exact Hsize|].
  pose proof (Join_Split (InstanceType_ (info i)) ".") as Hjoin.
  pose proof (Split_parts (InstanceType_ (info i)) ".") as Hparts.
  rewrite Hsplit in Hjoin, Hparts.
  apply Forall_cons in Hparts as [Hp1 Hparts]. apply Forall_cons in Hparts as [Hp2 _].
  split; [|split; assumption]. unfold Name. rewrite <- Hjoin. reflexivity.
Qed.

Lemma family_size_round_trip_witness :
  exists family size,
    ({[ "m5"%string ]} : gset string) = {[ family ]} /\
    Name (example_instance "m5.large" 2 8192 None) = family +:+ "." +:+ size.
Proof.
  assert (Hlabel : computeRequirements example_ext (example_instance "m5.large" 2 8192 None)
                     !! V1alpha1.InstanceFamilyLabelKey = Some {[ "m5"%string ]}).
  { destruct (literal_no_family_size (example_instance "m5.large" 2 8192 None)) as [Hf Hs].
    destruct (instanceTypeLabels_two_parts example_ext
                (example_instance "m5.large" 2 8192 None) _ "m5"%string "large"%string
                eq_refl Hf Hs) as [Hfam _].
    unfold computeRequirements. rewrite gpuLabels_other by not_gpu_key. exact Hfam. }
  destruct (family_size_round_trip example_ext (example_instance "m5.large" 2 8192 None)
              {[ "m5"%string ]} Hlabel)
    as (family & size & Hfamily & _ & Hname & _).
  exists family, size. split; [exact Hfamily|exact Hname].
Defined.

(** ** [lowerKabobCase] on ASCII text *)

Lemma kabob_byte_lower (c : ascii) :
  Strings.isASCII_byte c = true ->
  let c' := if Ascii.eqb (Strings.lower_byte c) " " then "-"%char else Strings.lower_byte c in
  kabob_byte c' = true /\ Strings.isASCII_byte c' = true.
Proof.
  destruct c as [[] [] [] [] [] [] [] []]; intros H;
    first [discriminate H | vm_compute; split; reflexivity].
Qed.

Lemma kabob_byte_fixed (c : ascii) :
  kabob_byte c = true ->
  (if Ascii.eqb (Strings.lower_byte c) " " then "-"%char else Strings.lower_byte c) = c.
Proof.
  destruct c as [[] [] [] [] [] [] [] []]; intros H;
    first [discriminate H | reflexivity].
Qed.

Lemma kabob_fixed (s : string) :
  kabob s = true -> Strings.ReplaceAll (Strings.lower_bytes s) " " "-" = s.
Proof.
  induction s as [|c s IH]; [reflexivity|]. simpl.
  intros [Hc Hs]%andb_prop. rewrite IH by exact Hs.
  rewrite kabob_byte_fixed by exact Hc. reflexivity.
Qed.

Lemma kabob_ReplaceAll_lower (s : string) :
  Strings.isASCII s = true ->
  kabob (Strings.ReplaceAll (Strings.lower_bytes s) " " "-") = true /\
  Strings.isASCII (Strings.ReplaceAll (Strings.lower_bytes s) " " "-") = true /\
  String.length (Strings.ReplaceAll (Strings.lower_bytes s) " " "-") = String.length s.
Proof.
  induction s as [|c s IH]; [done|]. simpl.
  intros [Hc Hs]%andb_prop. destruct (IH Hs) as (Hk & Ha & Hl).
  destruct (kabob_byte_lower c Hc) as [Hkc Hac].
  rewrite Hk, Ha, Hl, Hkc, Hac. done.
Qed.

(** X16.  On ASCII text the result of [lowerKabobCase] has the length of
    its argument and holds neither a space nor an upper-case letter;
    [lowerKabobCase] leaves such a string as it is, and so applying it twice
    is applying it once. *)
Theorem lowerKabobCase_normal_form (ext : Collaborators) (s : string) :
  Strings.isASCII s = true ->
  kabob (lowerKabobCase ext s) = true /\
  String.length (lowerKabobCase ext s) = String.length s /\
  (kabob s = true -> lowerKabobCase ext s = s) /\
  lowerKabobCase ext (lowerKabobCase ext s) = lowerKabobCase ext s.
Proof.
  intros Hs. rewrite (lowerKabobCase_ascii ext s Hs).
  destruct (kabob_ReplaceAll_lower s Hs) as (Hk & Ha & Hl).
  split; [exact Hk|]. split; [exact Hl|]. split.
  - apply kabob_fixed.
  - rewrite lowerKabobCase_ascii by exact Ha. apply kabob_fixed. exact Hk.
Qed.

Lemma lowerKabobCase_normal_form_witness :
  Strings.isASCII "Tesla V100" = true /\
  kabob (lowerKabobCase example_ext "Tesla V100") = true /\
  lowerKabobCase example_ext (lowerKabobCase example_ext "Tesla V100")
  = lowerKabobCase example_ext "Tesla V100".
Proof.
  split; [reflexivity|].
  destruct (lowerKabobCase_normal_form example_ext "Tesla V100" eq_refl)
    as (Hk & _ & _ & Hidem).
  split; [exact Hk|exact Hidem].
Defined.

(** ** Labels and resources of a GPU *)

Lemma gpus_loop_other (manufacturer : string) (gpus : list GpuDeviceInfo) (count : Z) :
  Forall (fun gpu => gpu_Manufacturer gpu <> manufacturer) gpus ->
  gpus_loop manufacturer gpus count = Some count.
Proof.
  induction 1 as [|gpu gpus Hne _ IH]; simpl; [reflexivity|].
  apply String.eqb_neq in Hne. rewrite Hne. exact IH.
Qed.

(** X17.  The GPU resources are matched on the exact manufacturer strings
    "NVIDIA" and "AMD", the manufacturer label is lower-cased: for a single
    descriptor of any other manufacturer (its count may be absent) the four
    GPU labels are present, the manufacturer label being the normalised
    string, while the NVIDIA and the AMD entries of the resource list are
    both 0. *)
Theorem gpu_labels_without_resource (ext : Collaborators) (i : InstanceType)
    (enablePodENI : bool) (gpu : GpuDeviceInfo) :
  GpuInfo_Gpus (info i) = Some [gpu] ->
  gpu_Manufacturer gpu <> "NVIDIA"%string ->
  gpu_Manufacturer gpu <> "AMD"%string ->
  Forall (fun acc => is_Some (acc_Count acc)) (accelerators_of i) ->
  gpu_labels_present ext i /\
  computeRequirements ext i !! V1alpha1.InstanceGPUManufacturerLabelKey
    = Some {[ lowerKabobCase ext (gpu_Manufacturer gpu) ]} /\
  exists resources,
    computeResources ext i enablePodENI = Some resources /\
    resources !! V1alpha1.ResourceNVIDIAGPU = Some (Resource.OfInt 0) /\
    resources !! V1alpha1.ResourceAMDGPU = Some (Resource.OfInt 0).
Proof.
  intros Hgpus Hnv Hamd Haccs.
  destruct (gpuLabels_single ext i _ gpu Hgpus (before_gpuLabels_absent ext i))
    as (H1 & H2 & H3 & H4).
  split; [|split].
  - unfold gpu_labels_present, gpu_label_keys, computeRequirements.
    repeat constructor; eauto.
  - exact H2.
  - assert (Hneu : is_Some (awsNeurons i)).
    { unfold awsNeurons, accelerators_of in *.
      destruct (InferenceAcceleratorInfo_Accelerators (info i)) as [accs|];
        cbn [default] in *; [|simpl; eauto].
      destruct (awsNeurons_loop_defined accs Haccs 0) as [n ->]. simpl. eauto. }
    destruct Hneu as [neurons Hneu].
    unfold computeResources, nvidiaGPUs, amdGPUs. rewrite Hgpus, Hneu.
    rewrite !gpus_loop_other by (repeat constructor; done).
    cbn [mbind option_bind]. eexists. split; [reflexivity|].
    lookup_simpl. done.
Qed.

Lemma gpu_labels_without_resource_witness :
  computeRequirements example_ext
    (example_instance "g4dn.xlarge" 4 16384 (Some [mkGpu "T4" "Nvidia" None 16384]))
    !! V1alpha1.InstanceGPUManufacturerLabelKey = Some {[ "nvidia"%string ]} /\
  exists resources,
    computeResources example_ext
      (example_instance "g4dn.xlarge" 4 16384 (Some [mkGpu "T4" "Nvidia" None 16384])) false
    = Some resources /\
    resources !! V1alpha1.ResourceNVIDIAGPU = Some (Resource.OfInt 0).
Proof.
  destruct (gpu_labels_without_resource example_ext
              (example_instance "g4dn.xlarge" 4 16384 (Some [mkGpu "T4" "Nvidia" None 16384]))
              false (mkGpu "T4" "Nvidia" None 16384))
    as (_ & Hlabel & resources & Hres & Hnv & _).
  - reflexivity.
  - discriminate.
  - discriminate.
  - constructor.
  - split; [exact Hlabel|]. exists resources. split; [exact Hres|exact Hnv].
Defined.

(** ** The weights of [Price] *)

(** A scaled value determines the float. *)
Lemma FV_inj (x y : F64) (a : Z) : FV x a -> FV y a -> x = y.
Proof.
  assert (Hpos : forall z, normal_pos z -> 0 < sval z).
  { intros z (m & e & -> & Hm & He). cbn [sval].
    apply Z.mul_pos_pos; [lia|]. apply Z.pow_pos_nonneg; lia. }
  assert (Hle : forall m m' e e',
             2 ^ 52 <= Z.pos m < 2 ^ 53 -> 2 ^ 52 <= Z.pos m' < 2 ^ 53 ->
             -1074 <= e -> e <= e' ->
             Z.pos m * 2 ^ (e + 1074) = Z.pos m' * 2 ^ (e' + 1074) ->
             e = e' /\ m = m').
  { intros m m' e e' Hm Hm' He Hee Heq.
    replace (e' + 1074) with ((e' - e) + (e + 1074)) in Heq by ring.
    rewrite (Z.pow_add_r 2 (e' - e) (e + 1074)) in Heq by lia.
    assert (Hp : 0 < 2 ^ (e + 1074)) by (apply Z.pow_pos_nonneg; lia).
    rewrite Z.mul_assoc in Heq. apply Z.mul_cancel_r in Heq; [|lia].
    destruct (Z.eq_dec e e') as [->|Hne].
    - rewrite Z.sub_diag, Z.pow_0_r in Heq. split; [reflexivity|]. lia.
    - exfalso. assert (H2 : 2 ^ 1 <= 2 ^ (e' - e)) by (apply Z.pow_le_mono_r; lia).
      change (2 ^ 1) with 2 in H2.
      change (2 ^ 52) with 4503599627370496 in *.
      change (2 ^ 53) with 9007199254740992 in *. nia. }
  intros [[-> ->]|[Hx <-]] [[-> Hy]|[Hy Hxy]]; [reflexivity| | |].
  - pose proof (Hpos _ Hy). lia.
  - pose proof (Hpos _ Hx). lia.
  - destruct Hx as (m & e & -> & Hm & He), Hy as (m' & e' & -> & Hm' & He').
    cbn [sval] in Hxy.
    destruct (Z.le_gt_cases e e') as [Hee|Hee].
    + destruct (Hle m m' e e' Hm Hm' ltac:(lia) Hee (eq_sym Hxy)) as [-> ->]. reflexivity.
    + destruct (Hle m' m e' e Hm' Hm ltac:(lia) ltac:(lia) Hxy) as [-> ->]. reflexivity.
Qed.

Lemma Price_units_bound (i : InstanceType) : price_bounded i -> 0 <= Price_units i < 2 ^ 47.
Proof.
  intros Hb.
  pose proof (Price_gpus_nonneg i Hb) as HG0.
  pose proof (Price_accelerators_nonneg i Hb) as HA0.
  destruct Hb as (Hv & Hm & _ & _ & Hg & Ha & _). unfold Price_units.
  change (2 ^ 31) with 2147483648 in *. change (2 ^ 41) with 2199023255552 in *.
  change (2 ^ 47) with 140737488355328. lia.
Qed.

(** X18.  Among instance types with the same local storage, and inputs
    that are not negative and below [2^31] (memory below [2^41] MiB),
    [Price] orders by the weighted sum
    [1024 x vCPU + MiB + 5120 x GPUs + 5120 x accelerators]: equal sums give
    the same price (a GPU weighs as much as 5 vCPUs or 5120 MiB), and a
    smaller sum gives a strictly smaller price, so that [Price] increases
    strictly with the memory, the GPU count and the accelerator count as
    well. *)
Theorem Price_weights (i i' : InstanceType) :
  price_bounded i -> price_bounded i' ->
  InstanceStorageInfo_TotalSizeInGB (info i) = InstanceStorageInfo_TotalSizeInGB (info i') ->
  (Price_units i = Price_units i' -> Price i = Price i') /\
  (Price_units i < Price_units i' -> f64_ltb (Price i) (Price i') = true).
Proof.
  intros Hb Hb' Hstorage.
  pose proof (Price_exact_part i Hb) as He. pose proof (Price_exact_part i' Hb') as He'.
  fold (Price_units i) in He. fold (Price_units i') in He'.
  split.
  - intros Hunits. rewrite <- Hunits in He'.
    unfold Price. rewrite (FV_inj _ _ _ He He'), Hstorage. reflexivity.
  - intros Hunits.
    pose proof (Price_units_bound i Hb) as Hu. pose proof (Price_units_bound i' Hb') as Hu'.
    destruct (Price_value i Hb) as (c5 & c & Hc5 & Hc5b & _ & _ & Hc & Hbound & _ & HS3).
    destruct (Price_value i' Hb') as (c5' & c' & Hc5' & _ & _ & _ & Hc' & Hbound' & _ & HS3').
    fold (Price_units i) in Hbound, HS3. fold (Price_units i') in Hbound', HS3'.
    rewrite <- Hstorage in Hc5'.
    pose proof (FV_unique _ _ _ Hc5 Hc5') as <-.
    apply (ltb_FV _ _ c c' Hc Hc').
    set (X := Price_units i * 2 ^ 1064) in *.
    set (X' := Price_units i' * 2 ^ 1064) in *.
    assert (Hgap : X + 2 ^ 1064 <= X').
    { unfold X, X'.
      assert (0 < 2 ^ 1064) by (apply Z.pow_pos_nonneg; lia).
      replace (Price_units i * 2 ^ 1064 + 2 ^ 1064)
        with ((Price_units i + 1) * 2 ^ 1064) by ring.
      apply Z.mul_le_mono_nonneg_r; lia. }
    clearbody X X'. clear He He' Hc Hc' Hc5 Hc5' Hu Hu' Hunits.
    assert (Hsmall : 2 ^ 1112 + 2 ^ 1101 < 2 ^ 53 * 2 ^ 1064) by (vm_compute; reflexivity).
    change (2 ^ 1112) with (2 * 2 ^ 1111) in Hsmall.
    change (2 ^ 1101) with (2 * 2 ^ 1100) in Hsmall.
    assert (H53 : 0 < 2 ^ 53) by (apply Z.pow_pos_nonneg; lia).
    apply Z.mul_lt_mono_pos_l with (p := 2 ^ 53); [exact H53|].
    generalize dependent (2 ^ 1111). generalize dependent (2 ^ 1100).
    generalize dependent (2 ^ 1064). generalize dependent (2 ^ 53).
    intros. nia.
Qed.

Lemma Price_weights_witness :
  Price (example_instance "p4d.24xlarge" 96 1179648 (Some [example_a100]))
  = Price (example_instance "x1e.32xlarge" 128 1187840 None) /\
  f64_ltb (Price (example_instance "p4d.24xlarge" 96 1179648 (Some [example_a100])))
          (Price (example_instance "p4d.24xlarge" 96 1179649 (Some [example_a100]))) = true.
Proof.
  assert (Hb : forall vcpus mem gpus,
             0 <= vcpus < 2 ^ 31 -> 0 <= mem < 2 ^ 41 ->
             gpus = None \/ gpus = Some [example_a100] ->
             price_bounded (example_instance "p4d.24xlarge" vcpus mem gpus)).
  { intros vcpus mem gpus Hv Hm Hg. unfold price_bounded. cbn.
    split; [exact Hv|]. split; [exact Hm|].
    destruct Hg as [-> | ->]; cbn;
      repeat split; try (vm_compute; congruence); repeat constructor; vm_compute; congruence. }
  split.
  - apply (Price_weights (example_instance "p4d.24xlarge" 96 1179648 (Some [example_a100]))
             (example_instance "x1e.32xlarge" 128 1187840 None)); try reflexivity.
    + apply Hb; [vm_compute; split; congruence..|right; reflexivity].
    + apply (Hb 128 1187840 None); [vm_compute; split; congruence..|left; reflexivity].
  - apply (Price_weights (example_instance "p4d.24xlarge" 96 1179648 (Some [example_a100]))
             (example_instance "p4d.24xlarge" 96 1179649 (Some [example_a100])));
      try reflexivity.
    + apply Hb; [vm_compute; split; congruence..|right; reflexivity].
    + apply Hb; [vm_compute; split; congruence..|right; reflexivity].
Defined.

(** ** The vocabulary of [v1alpha1] and its registration *)

Lemma Insert_elem_of (s : gset string) (items : list string) (x : string) :
  x ∈ Insert s items <-> In x items \/ x ∈ s.
Proof.
  unfold Insert. revert s. induction items as [|item items IH]; intros s; simpl.
  - tauto.
  - rewrite IH, elem_of_union, elem_of_singleton. split.
    + intros [?|[->|?]]; tauto.
    + intros [[<-|?]|?]; tauto.
Qed.

Lemma registered_label_keys (ExtensionsGroup : string) (registry : Registry) (key : string) :
  key ∈ v1alpha5_WellKnownLabels (init ExtensionsGroup registry) <->
  In key (instance_type_label_keys
          ++ [V1alpha1.InstanceCPULabelKey; V1alpha1.InstanceMemoryLabelKey]
          ++ gpu_label_keys)
  \/ key ∈ v1alpha5_WellKnownLabels registry.
Proof. unfold init. cbn [v1alpha5_WellKnownLabels]. apply Insert_elem_of. Qed.

(** X19.  [init] only adds: the domains and labels registered before it
    stay.  It restricts the label domain "karpenter.k8s.aws", registers the
    configuration type with the scheme, and the labels that it declares
    well known are eight pairwise distinct keys, all of them in the domain
    that it restricts. *)
Theorem init_registration (ExtensionsGroup : string) (registry : Registry) :
  let registry' := init ExtensionsGroup registry in
  v1alpha5_RestrictedLabelDomains registry'
    = {[ V1alpha1.LabelDomain ]} ∪ v1alpha5_RestrictedLabelDomains registry /\
  v1alpha5_WellKnownLabels registry ⊆ v1alpha5_WellKnownLabels registry' /\
  Scheme_KnownTypes registry ⊆ Scheme_KnownTypes registry' /\
  (ExtensionsGroup, "v1alpha1"%string, "AWS"%string) ∈ Scheme_KnownTypes registry' /\
  (forall key,
     key ∈ v1alpha5_WellKnownLabels registry' ->
     key ∉ v1alpha5_WellKnownLabels registry ->
     String.prefix (V1alpha1.LabelDomain +:+ "/") key = true) /\
  (v1alpha5_WellKnownLabels registry = ∅ ->
   size (v1alpha5_WellKnownLabels registry') = 8%nat).
Proof.
  intros registry'. subst registry'.
  split; [reflexivity|]. split; [|split; [|split; [|split]]].
  - intros key Hkey. apply registered_label_keys. right. exact Hkey.
  - unfold init. cbn [Scheme_KnownTypes]. apply union_subseteq_r.
  - unfold init. cbn [Scheme_KnownTypes]. apply elem_of_union_l, elem_of_singleton.
    reflexivity.
  - intros key Hkey Hnew. apply registered_label_keys in Hkey as [Hkey|Hkey]; [|done].
    cbn in Hkey. repeat (destruct Hkey as [<-|Hkey]; [reflexivity|]). destruct Hkey.
  - intros Hempty. unfold init. cbn [v1alpha5_WellKnownLabels]. rewrite Hempty.
    unfold Insert. cbn [fold_left]. rewrite (right_id_L ∅ (∪)).
    rewrite !size_union, !size_singleton; [reflexivity|..];
      rewrite ?disjoint_union_l, disjoint_singleton_l, ?not_elem_of_union,
        ?not_elem_of_singleton; repeat split; key_ne.
Qed.

Lemma init_registration_witness :
  size (v1alpha5_WellKnownLabels (init "extensions.karpenter.sh" (mkRegistry ∅ ∅ ∅))) = 8%nat /\
  String.prefix (V1alpha1.LabelDomain +:+ "/") V1alpha1.InstanceGPUCountLabelKey = true.
Proof.
  destruct (init_registration "extensions.karpenter.sh" (mkRegistry ∅ ∅ ∅))
    as (_ & _ & _ & _ & Hdomain & Hsize).
  split; [apply Hsize; reflexivity|].
  apply Hdomain.
  - apply registered_label_keys. left. cbn. tauto.
  - cbn. apply not_elem_of_empty.
Defined.

Lemma elem_of_if_decide (P : Prop) (HP : Decision P) (keys : gset string) (key : string) :
  key ∈ (if decide P then keys else ∅) -> key ∈ keys.
Proof.
  destruct (decide P); [trivial|]. intros H. apply elem_of_empty in H. destruct H.
Qed.

(** The keys that the requirements can hold. *)
Lemma computeRequirements_key_cases (ext : Collaborators) (i : InstanceType) (key : string) :
  key ∈ dom (computeRequirements ext i) ->
  In key (literal_label_keys ++ instance_type_label_keys ++ gpu_label_keys).
Proof.
  unfold computeRequirements. rewrite dom_gpuLabels, dom_instanceTypeLabels.
  assert (Hliteral : dom (computeRequirements_literal i) = list_to_set literal_label_keys).
  { unfold computeRequirements_literal. rewrite !dom_insert_L, dom_empty_L.
    unfold literal_label_keys. rewrite !list_to_set_cons, list_to_set_nil. reflexivity. }
  rewrite Hliteral, !elem_of_union, !in_app_iff.
  intros [Hg|[Ht|Hl]].
  - apply elem_of_if_decide in Hg.
    apply elem_of_list_to_set, list_elem_of_In in Hg. tauto.
  - apply elem_of_if_decide in Ht.
    apply elem_of_list_to_set, list_elem_of_In in Ht. tauto.
  - apply elem_of_list_to_set, list_elem_of_In in Hl. tauto.
Qed.

(** X20.  After [init], every key of the requirements of an instance type
    that lies in the restricted domain "karpenter.k8s.aws" is a well-known
    label; the other keys of the requirements are the five upstream keys,
    outside that domain. *)
Theorem requirements_well_known (ExtensionsGroup : string) (registry : Registry)
    (ext : Collaborators) (i : InstanceType) (key : string) :
  key ∈ dom (computeRequirements ext i) ->
  (String.prefix (V1alpha1.LabelDomain +:+ "/") key = true /\
   key ∈ v1alpha5_WellKnownLabels (init ExtensionsGroup registry)) \/
  (String.prefix (V1alpha1.LabelDomain +:+ "/") key = false /\
   In key [ V1.LabelInstanceTypeStable; V1.LabelArchStable; V1.LabelOSStable;
            V1.LabelTopologyZone; V1alpha5.LabelCapacityType ]).
Proof.
  intros Hkey%computeRequirements_key_cases.
  rewrite registered_label_keys.
  cbn in Hkey |- *.
  repeat (destruct Hkey as [<-|Hkey];
          [first [left; split; [reflexivity|tauto] | right; split; [reflexivity|tauto]]|]).
  destruct Hkey.
Qed.

Lemma requirements_well_known_witness :
  V1alpha1.InstanceFamilyLabelKey
    ∈ v1alpha5_WellKnownLabels (init "extensions.karpenter.sh" (mkRegistry ∅ ∅ ∅)).
Proof.
  destruct (requirements_well_known "extensions.karpenter.sh" (mkRegistry ∅ ∅ ∅)
              example_ext (example_instance "m5.large" 2 8192 None)
              V1alpha1.InstanceFamilyLabelKey)
    as [[_ Hknown]|[Hprefix _]].
  - apply elem_of_dom.
    destruct (literal_no_family_size (example_instance "m5.large" 2 8192 None)) as [Hf Hs].
    destruct (instanceTypeLabels_two_parts example_ext
                (example_instance "m5.large" 2 8192 None) _ "m5"%string "large"%string
                eq_refl Hf Hs) as [Hfam _].
    unfold computeRequirements. rewrite gpuLabels_other by not_gpu_key.
    rewrite Hfam. eauto.
  - exact Hknown.
  - discriminate Hprefix.
Defined.

(** X21.  The table of container runtimes has an entry for each supported
    AMI family and for nothing else; "containerd" is a runtime of every
    family, "dockerd" the only other one, and Bottlerocket has containerd
    alone. *)
Theorem container_runtimes_table (family : string) :
  (is_Some (V1alpha1.SupportedContainerRuntimesByAMIFamily !! family)
   <-> In family V1alpha1.SupportedAMIFamilies) /\
  (forall runtimes,
     V1alpha1.SupportedContainerRuntimesByAMIFamily !! family = Some runtimes ->
     "containerd"%string ∈ runtimes /\
     (forall runtime, runtime ∈ runtimes ->
        runtime = "containerd"%string \/
        (runtime = "dockerd"%string /\ family <> V1alpha1.AMIFamilyBottlerocket))).
Proof.
  unfold V1alpha1.SupportedContainerRuntimesByAMIFamily, V1alpha1.SupportedAMIFamilies.
  split.
  - rewrite <- elem_of_dom, !dom_insert_L, dom_empty_L.
    rewrite !elem_of_union, !elem_of_singleton, elem_of_empty. cbn [In].
    split; intros H; repeat (destruct H as [H|H]; [subst family; tauto|]); destruct H.
  - intros runtimes.
    rewrite lookup_insert_Some, lookup_insert_Some, lookup_insert_Some, lookup_empty.
    intros [[<- <-]|[Hb [[<- <-]|[_ [[<- <-]|[_ H]]]]]]; [| | |discriminate H];
      (split; [rewrite elem_of_list_to_set, ?elem_of_cons; tauto|]);
      intros runtime; rewrite elem_of_list_to_set, !elem_of_cons, elem_of_nil;
      intros H; repeat (destruct H as [->|H]; [first [left; reflexivity | right; split; [reflexivity|discriminate]]|]); destruct H.
Qed.

Lemma container_runtimes_table_witness :
  is_Some (V1alpha1.SupportedContainerRuntimesByAMIFamily !! "AL2"%string) /\
  forall runtimes,
    V1alpha1.SupportedContainerRuntimesByAMIFamily !! "AL2"%string = Some runtimes ->
    "containerd"%string ∈ runtimes.
Proof.
  destruct (container_runtimes_table "AL2") as [Hentry Hruntimes].
  split.
  - apply Hentry. cbn. tauto.
  - intros runtimes Hlookup. apply (Hruntimes runtimes Hlookup).
Defined.
